(** * Aviation traffic analysis: period filter, grouped aggregation,
      extrema, top-N and ratio scoring

    A shallow embedding of [data_exploration/utilities.py] and
    [data_exploration/analysis_functions.py].

    Modelling conventions.
    - A pandas [DataFrame] of traffic records is a list of the metric
      column names it carries together with its rows; the key columns
      (Year, Month, AustralianPort, ForeignPort, Country, Route) are
      always there, as [create_datetime_index] builds them.
    - Numbers of the input are exact rationals ([Q]); a computed float
      column is an extended rational ([xnum]): a finite value, an
      infinity or NaN, the last two arising from a division by zero and
      from [shift].  Rounding of binary floating point is not modelled:
      a formula is read in exact arithmetic, and that two different
      computations give the same value is stated only on whole numbers
      below 2^53, where the code's arithmetic is exact too.
    - Sorting is stable here; no statement depends on the order of rows
      with equal sort values.
    - A Python exception is the left injection of a sum ([result]).
    - Python [str] comparison is the byte-wise lexicographic order. *)

From Stdlib Require Import List ZArith QArith Qabs Qround String Ascii Bool Lia Lqa.
From Stdlib Require Import Sorting.Sorted Sorting.Permutation.
From Stdlib Require Import DecimalString.
From Stdlib Require Import Structures.OrdersEx.
Import ListNotations.

Local Open Scope string_scope.
Local Open Scope Z_scope.

(** ** Exceptions *)

Inductive exn : Type :=
| ValueError (msg : string)
| KeyError (msg : string).

Definition result (A : Type) : Type := (exn + A)%type.

Definition ret {A : Type} (a : A) : result A := inr a.
Definition raise {A : Type} (e : exn) : result A := inl e.
Definition bind {A B : Type} (m : result A) (k : A -> result B) : result B :=
  match m with
  | inl e => inl e
  | inr a => k a
  end.

Notation "x <- m ;; k" := (bind m (fun x => k))
  (at level 61, m at next level, right associativity).

Definition raises {A : Type} (m : result A) : Prop :=
  exists e, m = inl e.

(** [for x in xs: results.append(f x)], stopping at the first exception. *)
Fixpoint map_result {A B : Type} (f : A -> result B) (xs : list A)
  : result (list B) :=
  match xs with
  | [] => ret []
  | x :: xs' =>
      y <- f x ;;
      ys <- map_result f xs' ;;
      ret (y :: ys)
  end.

(** ** Sorting *)

Section InsertionSort.
Context {A : Type}.
Variable le : A -> A -> bool.

Fixpoint insert_sorted (x : A) (l : list A) : list A :=
  match l with
  | [] => [x]
  | y :: l' => if le x y then x :: l else y :: insert_sorted x l'
  end.

(** A stable sort: among equal keys the original order is kept. *)
Definition sort_by (l : list A) : list A :=
  fold_right insert_sorted [] l.
End InsertionSort.

Definition str_lt (s t : string) : Prop := String.ltb s t = true.

Definition period_leb (p q : Z * Z) : bool :=
  (fst p <? fst q) || ((fst p =? fst q) && (snd p <=? snd q)).

Definition period_lt (p q : Z * Z) : Prop :=
  fst p < fst q \/ (fst p = fst q /\ snd p < snd q).

(** ** Data model *)

Record TrafficRecord : Type := mkTrafficRecord {
  Year : Z;
  Month : Z;
  AustralianPort : string;
  ForeignPort : string;
  Country : string;
  Passengers_In : Q;
  Passengers_Out : Q;
  Passengers_Total : Q;
  Freight_In : Q;
  Freight_Out : Q;
  Freight_Total : Q;
  Mail_In : Q;
  Mail_Out : Q;
  Mail_Total : Q
}.

(** [df['Route'] = df['AustralianPort'] + '-' + df['ForeignPort']] *)
Definition Route (r : TrafficRecord) : string :=
  AustralianPort r ++ "-" ++ ForeignPort r.

(** The name columns a frame is grouped by or counted over. *)
Inductive name_column : Type :=
| ColAustralianPort
| ColForeignPort
| ColCountry
| ColRoute.

Definition column_name (c : name_column) : string :=
  match c with
  | ColAustralianPort => "AustralianPort"
  | ColForeignPort => "ForeignPort"
  | ColCountry => "Country"
  | ColRoute => "Route"
  end.

Definition name_value (c : name_column) : TrafficRecord -> string :=
  match c with
  | ColAustralianPort => AustralianPort
  | ColForeignPort => ForeignPort
  | ColCountry => Country
  | ColRoute => Route
  end.

(** The metric columns, by their names in the frame. *)
Definition metric_value (c : string) : option (TrafficRecord -> Q) :=
  if String.eqb c "Passengers_In" then Some Passengers_In
  else if String.eqb c "Passengers_Out" then Some Passengers_Out
  else if String.eqb c "Passengers_Total" then Some Passengers_Total
  else if String.eqb c "Freight_In_(tonnes)" then Some Freight_In
  else if String.eqb c "Freight_Out_(tonnes)" then Some Freight_Out
  else if String.eqb c "Freight_Total_(tonnes)" then Some Freight_Total
  else if String.eqb c "Mail_In_(tonnes)" then Some Mail_In
  else if String.eqb c "Mail_Out_(tonnes)" then Some Mail_Out
  else if String.eqb c "Mail_Total_(tonnes)" then Some Mail_Total
  else None.

Definition all_metric_columns : list string :=
  [ "Passengers_In"; "Passengers_Out"; "Passengers_Total";
    "Freight_In_(tonnes)"; "Freight_Out_(tonnes)"; "Freight_Total_(tonnes)";
    "Mail_In_(tonnes)"; "Mail_Out_(tonnes)"; "Mail_Total_(tonnes)" ].

Record DataFrame : Type := mkDataFrame {
  df_columns : list string;        (* the metric columns the frame has *)
  df_rows : list TrafficRecord
}.

Definition mem (c : string) (cs : list string) : bool :=
  existsb (String.eqb c) cs.

(** [df[c]] for a metric column: [None] stands for a missing column. *)
Definition df_metric (df : DataFrame) (c : string)
  : option (TrafficRecord -> Q) :=
  if mem c (df_columns df) then metric_value c else None.

(** [df[mask]] *)
Definition df_select (mask : TrafficRecord -> bool) (df : DataFrame)
  : DataFrame :=
  mkDataFrame (df_columns df) (filter mask (df_rows df)).

(** A frame with every metric column, as the loader supplies it. *)
Definition full_frame (rows : list TrafficRecord) : DataFrame :=
  mkDataFrame all_metric_columns rows.

(** ** utilities.py: the period filter *)

Definition filter_data_by_period (data : DataFrame)
    (start_year start_month end_year end_month : Z) : DataFrame :=
  df_select (fun r =>
      ((Year r =? start_year) && (Month r >=? start_month))
      || ((Year r >? start_year) && (Year r <? end_year))
      || ((Year r =? end_year) && (Month r <=? end_month)))
    data.

(** analysis_functions.py, lines 29-33: the copy of the filter written
    out in [analyze_traffic_routes]. *)
Definition traffic_routes_filtered_df (df : DataFrame)
    (start_year start_month end_year end_month : Z) : DataFrame :=
  df_select (fun r =>
      ((Year r =? start_year) && (Month r >=? start_month))
      || ((Year r >? start_year) && (Year r <? end_year))
      || ((Year r =? end_year) && (Month r <=? end_month)))
    df.

(** The inclusion predicate of the specification. *)
Definition in_period (start_year start_month end_year end_month : Z)
    (r : TrafficRecord) : Prop :=
  (Year r = start_year /\ Month r >= start_month)
  \/ (start_year < Year r /\ Year r < end_year)
  \/ (Year r = end_year /\ Month r <= end_month).


(** ** Numbers *)

Definition Qltb (a b : Q) : bool := negb (Qle_bool b a).

(** A float of a computed column: finite, infinite or NaN. *)
Inductive xnum : Type :=
| Fin (q : Q)
| PosInf
| NegInf
| NaN.

Definition is_nan (x : xnum) : bool :=
  match x with NaN => true | _ => false end.

Definition xneg (x : xnum) : xnum :=
  match x with
  | Fin q => Fin (- q)
  | PosInf => NegInf
  | NegInf => PosInf
  | NaN => NaN
  end.

Definition xabs (x : xnum) : xnum :=
  match x with
  | Fin q => Fin (Qabs q)
  | PosInf | NegInf => PosInf
  | NaN => NaN
  end.

Definition xadd (x y : xnum) : xnum :=
  match x, y with
  | NaN, _ | _, NaN => NaN
  | Fin a, Fin b => Fin (a + b)
  | PosInf, NegInf | NegInf, PosInf => NaN
  | PosInf, _ | _, PosInf => PosInf
  | NegInf, _ | _, NegInf => NegInf
  end.

Definition xsub (x y : xnum) : xnum := xadd x (xneg y).

(** The sign of an infinity scaled by a finite factor. *)
Definition inf_times (positive : bool) (q : Q) : xnum :=
  if Qeq_bool q 0 then NaN
  else if Bool.eqb positive (Qltb 0 q) then PosInf else NegInf.

Definition xmul (x y : xnum) : xnum :=
  match x, y with
  | NaN, _ | _, NaN => NaN
  | Fin a, Fin b => Fin (a * b)
  | PosInf, Fin b => inf_times true b
  | NegInf, Fin b => inf_times false b
  | Fin a, PosInf => inf_times true a
  | Fin a, NegInf => inf_times false a
  | PosInf, PosInf | NegInf, NegInf => PosInf
  | PosInf, NegInf | NegInf, PosInf => NegInf
  end.

(** Division of two finite values, as numpy divides floats: a zero
    divisor gives an infinity, or NaN for 0/0, and no exception. *)
Definition qdiv (a b : Q) : xnum :=
  if Qeq_bool b 0 then
    if Qltb 0 a then PosInf else if Qltb a 0 then NegInf else NaN
  else Fin (a / b).

Definition xdiv (x y : xnum) : xnum :=
  match x, y with
  | NaN, _ | _, NaN => NaN
  | Fin a, Fin b => qdiv a b
  | Fin _, (PosInf | NegInf) => Fin 0
  | PosInf, Fin b => if Qltb b 0 then NegInf else PosInf
  | NegInf, Fin b => if Qltb b 0 then PosInf else NegInf
  | (PosInf | NegInf), (PosInf | NegInf) => NaN
  end.

(** [x <= y] on values that are not NaN. *)
Definition xleb (x y : xnum) : bool :=
  match x, y with
  | NaN, _ | _, NaN => false
  | NegInf, _ | _, PosInf => true
  | Fin a, Fin b => Qle_bool a b
  | _, _ => false
  end.

(** [Series.sum()].  The sum is the exact rational sum.  The code adds
    binary64 floats (int64 for the passenger counts), and a float sum
    rounds: the two agree on whole numbers of moderate size (see
    [exact_total]), and equalities between sums are stated there only. *)
Definition qsum (l : list Q) : Q := fold_right Qplus 0%Q l.

Definition xsum (l : list xnum) : xnum := fold_right xadd (Fin 0) l.

(** [Series.mean()]: NaN entries are skipped; the mean of nothing is NaN. *)
Definition xmean (l : list xnum) : xnum :=
  let kept := filter (fun x => negb (is_nan x)) l in
  match kept with
  | [] => NaN
  | _ => xdiv (xsum kept) (Fin (inject_Z (Z.of_nat (List.length kept))))
  end.

(** [Series.max()] and [Series.min()] of a column without NaN; they are
    only called on a column that has a value. *)
Definition q_max (l : list Q) : Q :=
  match l with
  | [] => 0%Q
  | x :: l' => fold_left (fun a b => if Qle_bool a b then b else a) l' x
  end.

Definition q_min (l : list Q) : Q :=
  match l with
  | [] => 0%Q
  | x :: l' => fold_left (fun a b => if Qle_bool b a then b else a) l' x
  end.

(** ** Formatting *)

Definition string_of_Z (z : Z) : string :=
  NilZero.string_of_int (Z.to_int z).

(** [int(x)]: the fractional part is cut off, towards zero. *)
Definition truncate (q : Q) : Z := Z.quot (Qnum q) (Zpos (Qden q)).

(** Rounding a non-negative value to the nearest integer, ties to even. *)
Definition round_half_even (q : Q) : Z :=
  let f := Qfloor q in
  match Qcompare (2 * (q - inject_Z f)) 1 with
  | Lt => f
  | Gt => f + 1
  | Eq => if Z.even f then f else f + 1
  end.

Fixpoint zeros (n : nat) : string :=
  match n with
  | O => ""
  | S n' => "0" ++ zeros n'
  end.

Definition zero_pad (width : nat) (s : string) : string :=
  zeros (width - String.length s) ++ s.

(** [f"{q:.<digits>f}"] on a finite value. *)
Definition format_fixed (digits : nat) (q : Q) : string :=
  let scale := Z.pow 10 (Z.of_nat digits) in
  let n := round_half_even (Qabs q * inject_Z scale) in
  (if Qltb q 0 then "-" else "")
  ++ string_of_Z (n / scale)
  ++ (match digits with
      | O => ""
      | _ => "." ++ zero_pad digits (string_of_Z (n mod scale))
      end).

(** [f"{x:.<digits>f}"] on a float. *)
Definition format_float (digits : nat) (x : xnum) : string :=
  match x with
  | Fin q => format_fixed digits q
  | PosInf => "inf"
  | NegInf => "-inf"
  | NaN => "nan"
  end.

(** [', '.join(names)] *)
Definition join (names : list string) : string := String.concat ", " names.

(** [repr] of a column name. *)
Definition quoted (name : string) : string := "'" ++ name ++ "'".

(** ** Grouped tables *)

(** [drop_duplicates()] and [unique()]: the first occurrence of each
    value is kept, in order of appearance. *)
Definition drop_duplicates {A : Type}
    (dec : forall x y : A, {x = y} + {x <> y}) (l : list A) : list A :=
  rev (nodup dec (rev l)).

Definition period_dec (p q : Z * Z) : {p = q} + {p <> q}.
Proof. decide equality; apply Z.eq_dec. Defined.

(** The result of a [groupby]: one row per group key, keys ascending,
    each row holding one value per column. *)
Record Grouped : Type := mkGrouped {
  g_columns : list string;
  g_rows : list (string * list Q)
}.

Fixpoint col_index (c : string) (cs : list string) : option nat :=
  match cs with
  | [] => None
  | c' :: cs' =>
      if String.eqb c c' then Some O else option_map S (col_index c cs')
  end.

Definition g_value (i : nat) (row : string * list Q) : Q :=
  nth i (snd row) 0%Q.

(** [table[col]] as the list of (key, value) of the rows. *)
Definition g_column (g : Grouped) (c : string) : list (string * Q) :=
  match col_index c (g_columns g) with
  | Some i => map (fun row => (fst row, g_value i row)) (g_rows g)
  | None => []
  end.

(** [groupby] sorts the group keys. *)
Definition group_keys (key : TrafficRecord -> string)
    (rows : list TrafficRecord) : list string :=
  sort_by String.leb (drop_duplicates string_dec (map key rows)).

Definition group_rows (key : TrafficRecord -> string) (k : string)
    (rows : list TrafficRecord) : list TrafficRecord :=
  filter (fun r => String.eqb (key r) k) rows.

(** The metric columns of [cols] that the frame does not have. *)
Definition missing_columns (df : DataFrame) (cols : list string)
  : list string :=
  filter (fun c => match df_metric df c with
                   | Some _ => false
                   | None => true
                   end) cols.

Definition metric_or_zero (c : string) : TrafficRecord -> Q :=
  match metric_value c with
  | Some f => f
  | None => fun _ => 0%Q
  end.

(** [df.groupby(key)[[cols]].sum()]: selecting a column the frame does
    not have raises [KeyError], naming the missing columns. *)
Definition groupby_sum (key : name_column) (cols : list string)
    (df : DataFrame) : result Grouped :=
  match missing_columns df cols with
  | [] =>
      ret (mkGrouped cols
             (map (fun k =>
                     (k, map (fun c =>
                                qsum (map (metric_or_zero c)
                                        (group_rows (name_value key) k
                                           (df_rows df))))
                           cols))
                (group_keys (name_value key) (df_rows df))))
  | bad_keys =>
      raise (KeyError ("Columns not found: " ++ join (map quoted bad_keys)))
  end.

(** [DataFrame.empty] of a table whose keys are its index. *)
Definition g_empty (g : Grouped) : bool :=
  match g_rows g, g_columns g with
  | [], _ | _, [] => true
  | _, _ => false
  end.

(** ** Result rows *)

Inductive cell : Type :=
| CInt (z : Z)
| CStr (s : string).

Definition Row : Type := list (string * cell).

Fixpoint dict_set {V : Type} (d : list (string * V)) (k : string) (v : V)
  : list (string * V) :=
  match d with
  | [] => [(k, v)]
  | (k', v') :: d' =>
      if String.eqb k k' then (k, v) :: d' else (k', v') :: dict_set d' k v
  end.

(** [d.update(kvs)] *)
Definition dict_update {V : Type} (d kvs : list (string * V))
  : list (string * V) :=
  fold_left (fun acc kv => dict_set acc (fst kv) (snd kv)) kvs d.

Fixpoint dict_get {V : Type} (d : list (string * V)) (k : string)
  : option V :=
  match d with
  | [] => None
  | (k', v) :: d' => if String.eqb k k' then Some v else dict_get d' k
  end.

(** ** analysis_functions.py: [analyze_traffic_routes] *)

Definition col_mapping (traffic_type : string)
  : option (string * string * string * string) :=
  if String.eqb traffic_type "Passengers" then
    Some ("Passengers_In", "Passengers_Out", "Passengers_Total", "")
  else if String.eqb traffic_type "Freight" then
    Some ("Freight_In_(tonnes)", "Freight_Out_(tonnes)",
          "Freight_Total_(tonnes)", "t")
  else if String.eqb traffic_type "Mail" then
    Some ("Mail_In_(tonnes)", "Mail_Out_(tonnes)", "Mail_Total_(tonnes)", "t")
  else None.

Definition unit_suffix_of (traffic_type : string) : option string :=
  option_map snd (col_mapping traffic_type).

(** [route_data[col].max() if traffic_level == 'Most'
     else route_data[col].min()] *)
Definition extreme_value (traffic_level : string) (column : list (string * Q))
  : Q :=
  if String.eqb traffic_level "Most" then q_max (map snd column)
  else q_min (map snd column).

(** [route_data[route_data[col] == extreme_value].index.tolist()] *)
Definition tied_routes (column : list (string * Q)) (extreme : Q)
  : list string :=
  map fst (filter (fun kv => Qeq_bool (snd kv) extreme) column).

(** [f"{int(extreme_value)}" if not unit_suffix
     else f"{extreme_value:.1f}{unit_suffix}"] *)
Definition format_value (extreme : Q) (unit_suffix : string) : string :=
  if String.eqb unit_suffix "" then string_of_Z (truncate extreme)
  else format_fixed 1 extreme ++ unit_suffix.

(** Lines 45-54: the two fields of one direction. *)
Definition direction_fields (traffic_level unit_suffix : string)
    (route_data : Grouped) (col : string) : string * string :=
  if negb (g_empty route_data) && mem col (g_columns route_data) then
    let extreme := extreme_value traffic_level (g_column route_data col) in
    let tied := tied_routes (g_column route_data col) extreme in
    (join tied, format_value extreme unit_suffix)
  else ("No data", "No data").

(** Lines 44-54: the loop over the three directions. *)
Definition fill_directions (traffic_level unit_suffix : string)
    (route_data : Grouped) (in_col out_col total_col : string)
    (result_row : Row) : Row :=
  fold_left
    (fun row dc =>
       let direction := fst dc in
       let fields :=
         direction_fields traffic_level unit_suffix route_data (snd dc) in
       dict_update row
         [ (direction ++ "_Route", CStr (fst fields));
           (direction ++ "_Value", CStr (snd fields)) ])
    [ ("In", in_col); ("Out", out_col); ("Total", total_col) ]
    result_row.

(** Lines 39-56 and 60-77: the row of one period. *)
Definition traffic_routes_row (traffic_level unit_suffix : string)
    (in_col out_col total_col : string)
    (period_data : DataFrame) (result_row : Row) : result Row :=
  route_data <- groupby_sum ColRoute [in_col; out_col; total_col]
                  period_data ;;
  ret (fill_directions traffic_level unit_suffix route_data
         in_col out_col total_col result_row).

(** The (Year, Month) pairs of a frame, each once, ascending. *)
Definition observed_months (df : DataFrame) : list (Z * Z) :=
  sort_by period_leb
    (drop_duplicates period_dec
       (map (fun r => (Year r, Month r)) (df_rows df))).

(** [sorted(df['Year'].unique())] *)
Definition observed_years (df : DataFrame) : list Z :=
  sort_by Z.leb (drop_duplicates Z.eq_dec (map Year (df_rows df))).

Definition analyze_traffic_routes (df : DataFrame)
    (start_year start_month end_year end_month : Z)
    (traffic_level traffic_type aggregate_by : string)
  : result (list Row) :=
  match col_mapping traffic_type with
  | None =>
      raise (ValueError "traffic_type must be 'Passengers', 'Freight', or 'Mail'")
  | Some (in_col, out_col, total_col, unit_suffix) =>
      if negb (mem traffic_level ["Most"; "Least"]) then
        raise (ValueError "traffic_level must be 'Most' or 'Least'")
      else if negb (mem aggregate_by ["Month"; "Year"]) then
        raise (ValueError "aggregate_by must be 'Month' or 'Year'")
      else
        let filtered_df :=
          traffic_routes_filtered_df df
            start_year start_month end_year end_month in
        if String.eqb aggregate_by "Month" then
          map_result
            (fun ym =>
               let year := fst ym in
               let month := snd ym in
               let period_data :=
                 df_select (fun r => (Year r =? year) && (Month r =? month))
                   filtered_df in
               traffic_routes_row traffic_level unit_suffix
                 in_col out_col total_col period_data
                 [("Year", CInt year); ("Month", CInt month)])
            (observed_months filtered_df)
        else
          map_result
            (fun year =>
               let period_data :=
                 df_select (fun r => Year r =? year) filtered_df in
               traffic_routes_row traffic_level unit_suffix
                 in_col out_col total_col period_data
                 [("Year", CInt year)])
            (observed_years filtered_df)
  end.

(** ** utilities.py: bucketing, aggregation, top-N *)

(** One entry of an [agg_dict]: [{metric: 'sum'}] or [{column: 'nunique'}]. *)
Inductive agg_entry : Type :=
| AggSum (metric : string)
| AggNunique (column : name_column).

Definition agg_key (e : agg_entry) : string :=
  match e with
  | AggSum c => c
  | AggNunique c => column_name c
  end.

Fixpoint agg_set (d : list agg_entry) (e : agg_entry) : list agg_entry :=
  match d with
  | [] => [e]
  | e' :: d' =>
      if String.eqb (agg_key e) (agg_key e') then e :: d'
      else e' :: agg_set d' e
  end.

Definition agg_update (d es : list agg_entry) : list agg_entry :=
  fold_left agg_set es d.

Definition agg_missing (df : DataFrame) (agg_dict : list agg_entry)
  : list agg_entry :=
  filter (fun e => match e with
                   | AggSum c => match df_metric df c with
                                 | Some _ => false
                                 | None => true
                                 end
                   | AggNunique _ => false
                   end) agg_dict.

Definition nunique (names : list string) : Q :=
  inject_Z (Z.of_nat (List.length (drop_duplicates string_dec names))).

Definition agg_cell (e : agg_entry) (rows : list TrafficRecord) : Q :=
  match e with
  | AggSum c => qsum (map (metric_or_zero c) rows)
  | AggNunique c => nunique (map (name_value c) rows)
  end.

(** [df.groupby(group_col).agg(agg_dict).reset_index()]: the group key
    becomes the first column, named after [group_col], followed by one
    column per entry.  A metric the frame does not have raises
    [KeyError]; an empty dictionary leaves nothing to concatenate
    ([ValueError] in pandas 1.x and 2.x; the behaviour depends on the
    pandas release, and every statement about aggregated tables takes a
    dictionary with an entry). *)
Definition groupby_agg (group_col : name_column) (agg_dict : list agg_entry)
    (df : DataFrame) : result Grouped :=
  match agg_dict with
  | [] => raise (ValueError "No objects to concatenate")
  | _ :: _ =>
      match agg_missing df agg_dict with
      | [] =>
          ret (mkGrouped (column_name group_col :: map agg_key agg_dict)
                 (map (fun k =>
                         (k, map (fun e =>
                                    agg_cell e
                                      (group_rows (name_value group_col) k
                                         (df_rows df)))
                               agg_dict))
                    (group_keys (name_value group_col) (df_rows df))))
      | _ :: _ => raise (KeyError "Column(s) do not exist")
      end
  end.

(** The value of the [i]-th aggregated column of a row (the key column
    is not counted). *)
Definition agg_value (i : nat) (row : string * list Q) : Q := g_value i row.

Definition PeriodResult : Type := (Z * option Z * Grouped)%type.

Definition filter_and_aggregate_by_period (df : DataFrame)
    (start_year start_month end_year end_month : Z)
    (group_col : name_column) (agg_dict : list agg_entry)
    (aggregate_by : string) : result (list PeriodResult) :=
  let filtered_df :=
    filter_data_by_period df start_year start_month end_year end_month in
  if String.eqb aggregate_by "Month" then
    map_result
      (fun ym =>
         let year := fst ym in
         let month := snd ym in
         let period_data :=
           df_select (fun r => (Year r =? year) && (Month r =? month))
             filtered_df in
         aggregated <- groupby_agg group_col agg_dict period_data ;;
         ret (year, Some month, aggregated))
      (observed_months filtered_df)
  else
    map_result
      (fun year =>
         let period_data := df_select (fun r => Year r =? year) filtered_df in
         aggregated <- groupby_agg group_col agg_dict period_data ;;
         ret (year, None, aggregated))
      (observed_years filtered_df).

Section TopN.
Context {A : Type}.
Variable score : A -> xnum.

Definition has_score (a : A) : bool := negb (is_nan (score a)).

(** [data.nlargest(n, col)]: the rows are ranked by a stable sort,
    rows without a score come last, the first [n] are kept. *)
Definition nlargest (n : Z) (data : list A) : list A :=
  if n <=? 0 then []
  else firstn (Z.to_nat n)
         (sort_by (fun a b => xleb (score b) (score a))
            (filter has_score data)
          ++ filter (fun a => is_nan (score a)) data)%list.

Definition nsmallest (n : Z) (data : list A) : list A :=
  if n <=? 0 then []
  else firstn (Z.to_nat n)
         (sort_by (fun a b => xleb (score a) (score b))
            (filter has_score data)
          ++ filter (fun a => is_nan (score a)) data)%list.

Definition get_top_entities (data : list A) (level : string) (top_n : Z)
  : list A :=
  match data with
  | [] => data
  | _ :: _ =>
      let sort_ascending := String.eqb level "Least" in
      if sort_ascending then nsmallest top_n data else nlargest top_n data
  end.
End TopN.

(** [df.head(n)]: a negative [n] drops the last [-n] rows. *)
Definition head {A : Type} (n : Z) (l : list A) : list A :=
  if 0 <=? n then firstn (Z.to_nat n) l
  else firstn (List.length l - Z.to_nat (- n)) l.

Definition q_mean (l : list Q) : Q :=
  (qsum l / inject_Z (Z.of_nat (List.length l)))%Q.

(** [format_results_summary(entities, metric_col, entity_col, year, month)],
    [entity_col] being the key column of [entities]. *)
Definition format_results_summary (entities : Grouped)
    (metric_col : option string) (year : Z) (month : option Z)
  : Row * string * string :=
  let names_metric :=
    match g_rows entities with
    | [] => ("No data", "No data")
    | _ :: _ =>
        (join (map fst (g_rows entities)),
         match metric_col with
         | Some c =>
             match col_index c (tl (g_columns entities)) with
             | Some i =>
                 format_fixed 3 (q_mean (map (agg_value i) (g_rows entities)))
             | None => "No data"
             end
         | None => "No data"
         end)
    end in
  let result :=
    match month with
    | Some m => [("Year", CInt year); ("Month", CInt m)]
    | None => [("Year", CInt year)]
    end in
  (result, fst names_metric, snd names_metric).

Record cargo_columns : Type := mkCargo {
  cargo_in : string;
  cargo_out : string;
  cargo_total : string
}.

Definition get_cargo_columns (cargo_type : string) : option cargo_columns :=
  if String.eqb cargo_type "passengers" then
    Some (mkCargo "Passengers_In" "Passengers_Out" "Passengers_Total")
  else if String.eqb cargo_type "freight" then
    Some (mkCargo "Freight_In_(tonnes)" "Freight_Out_(tonnes)"
            "Freight_Total_(tonnes)")
  else if String.eqb cargo_type "mail" then
    Some (mkCargo "Mail_In_(tonnes)" "Mail_Out_(tonnes)" "Mail_Total_(tonnes)")
  else None.

Record cargo_weights : Type := mkWeights {
  w_passengers : Q;
  w_freight : Q;
  w_mail : Q
}.

Definition get_default_cargo_weights : cargo_weights :=
  mkWeights 1 10 20.

(** ** analysis_functions.py: [analyze_port_flow_efficiency] *)

(** [cargo_type.title()] on the three cargo types. *)
Definition title (cargo_type : string) : string :=
  if String.eqb cargo_type "passengers" then "Passengers"
  else if String.eqb cargo_type "freight" then "Freight"
  else if String.eqb cargo_type "mail" then "Mail"
  else cargo_type.

(** [epsilon = 1 if cargo_type == 'passengers' else 0.001].  The
    literal [0.001] is the binary64 number nearest to 1/1000 in the code
    and the rational 1/1000 here; the passenger epsilon 1 is exact in
    both. *)
Definition epsilon_of (cargo_type : string) : Q :=
  if String.eqb cargo_type "passengers" then 1%Q else (1 # 1000)%Q.

(** [port_data[in] / (port_data[out] + epsilon)] *)
Definition balance_ratio (cargo_type : string) (v_in v_out : Q) : xnum :=
  qdiv v_in (v_out + epsilon_of cargo_type).

(** [1 - abs(1 - balance_ratio)] *)
Definition efficiency (ratio : xnum) : xnum :=
  xsub (Fin 1) (xabs (xsub (Fin 1) ratio)).

(** A row of [port_data] with the three columns computed for one cargo
    type. *)
Record ScoreEntity : Type := mkScore {
  se_port : string;
  se_balance_ratio : xnum;
  se_efficiency : xnum;
  se_total_volume : Q
}.

Definition score_entities (cargo_type : string) (i_in i_out : nat)
    (port_data : Grouped) : list ScoreEntity :=
  map (fun row =>
         let v_in := agg_value i_in row in
         let v_out := agg_value i_out row in
         let ratio := balance_ratio cargo_type v_in v_out in
         mkScore (fst row) ratio (efficiency ratio) (v_in + v_out)%Q)
    (g_rows port_data).

(** Lines 111-137: the fields of one cargo type in one period. *)
Definition flow_fields (cargo_type : string) (mapping : cargo_columns)
    (port_data : Grouped) (efficiency_level : string)
    (min_volume_threshold : Q) (top_n : Z) (result_row : Row) : Row :=
  match col_index (cargo_in mapping) (tl (g_columns port_data)),
        col_index (cargo_out mapping) (tl (g_columns port_data)) with
  | Some i_in, Some i_out =>
      let filtered_ports :=
        filter (fun e => Qle_bool min_volume_threshold (se_total_volume e))
          (score_entities cargo_type i_in i_out port_data) in
      let top_ports :=
        get_top_entities se_efficiency filtered_ports efficiency_level top_n in
      match top_ports with
      | _ :: _ =>
          dict_update result_row
            [ (title cargo_type ++ "_Ports",
               CStr (join (map se_port top_ports)));
              (title cargo_type ++ "_Avg_Efficiency",
               CStr (format_float 3 (xmean (map se_efficiency top_ports)))) ]
      | [] =>
          dict_update result_row
            [ (title cargo_type ++ "_Ports", CStr "No data");
              (title cargo_type ++ "_Avg_Efficiency", CStr "No data") ]
      end
  | _, _ => result_row
  end.

Definition flow_agg_dict (cargo_types : list string) : list agg_entry :=
  fold_left
    (fun agg_dict cargo_type =>
       match get_cargo_columns cargo_type with
       | Some mapping =>
           agg_update agg_dict
             [AggSum (cargo_in mapping); AggSum (cargo_out mapping)]
       | None => agg_dict
       end)
    cargo_types [].

(** [if specific_ports: df = df[df['AustralianPort'].isin(specific_ports)]] *)
Definition restrict_ports (specific_ports : option (list string))
    (df : DataFrame) : DataFrame :=
  match specific_ports with
  | Some (p :: ports) => df_select (fun r => mem (AustralianPort r) (p :: ports)) df
  | _ => df
  end.

(** Lines 105-139: the row of one period. *)
Definition flow_row (cargo_types : list string) (efficiency_level : string)
    (min_volume_threshold : Q) (top_n : Z) (pr : PeriodResult) : Row :=
  let '(year, month, port_data) := pr in
  let result_row :=
    fst (fst (format_results_summary port_data None year month)) in
  fold_left
    (fun row cargo_type =>
       match get_cargo_columns cargo_type with
       | Some mapping =>
           flow_fields cargo_type mapping port_data
             efficiency_level min_volume_threshold top_n row
       | None => row
       end)
    cargo_types result_row.

Definition analyze_port_flow_efficiency (df : DataFrame)
    (start_year start_month end_year end_month : Z)
    (cargo_types : list string) (aggregate_by efficiency_level : string)
    (specific_ports : option (list string))
    (min_volume_threshold : Q) (top_n : Z) : result (list Row) :=
  let filtered_df :=
    restrict_ports specific_ports
      (filter_data_by_period df start_year start_month end_year end_month) in
  let agg_dict := flow_agg_dict cargo_types in
  period_results <-
    filter_and_aggregate_by_period filtered_df
      start_year start_month end_year end_month
      ColAustralianPort agg_dict aggregate_by ;;
  ret (map (flow_row cargo_types efficiency_level min_volume_threshold top_n)
         period_results).

Definition default_cargo_types : list string :=
  ["passengers"; "freight"; "mail"].

(** ** analysis_functions.py: [analyze_hub_utilization] *)

Definition hub_agg_dict : list agg_entry :=
  [ AggSum "Passengers_Total"; AggSum "Freight_Total_(tonnes)";
    AggSum "Mail_Total_(tonnes)"; AggNunique ColRoute ].

(** A row of [hub_data] after the columns are renamed to
    Port, Total_Passengers, Total_Freight, Total_Mail, Unique_Routes. *)
Record HubEntity : Type := mkHub {
  Port : string;
  Total_Passengers : Q;
  Total_Freight : Q;
  Total_Mail : Q;
  Unique_Routes : Q;
  totalPassengerEquiv : Q;
  utilizationScore : xnum
}.

Definition hub_entity (weights : cargo_weights) (row : string * list Q)
  : HubEntity :=
  let equiv :=
    (agg_value 0 row + agg_value 1 row * w_freight weights
     + agg_value 2 row * w_mail weights)%Q in
  mkHub (fst row) (agg_value 0 row) (agg_value 1 row) (agg_value 2 row)
    (agg_value 3 row) equiv (qdiv equiv (agg_value 3 row)).

(** Line 173 then lines 176-181: the hubs that pass the route threshold,
    with their score. *)
Definition hub_entities (weights : cargo_weights) (min_routes_threshold : Q)
    (hub_data : Grouped) : list HubEntity :=
  map (hub_entity weights)
    (filter (fun row => Qle_bool min_routes_threshold (agg_value 3 row))
       (g_rows hub_data)).

Definition hub_no_data : list (string * cell) :=
  [ ("Hub_Ports", CStr "No data");
    ("Avg_Utilization_Score", CStr "No data");
    ("Avg_Routes", CStr "No data") ].

Definition hub_fields (hub_data : Grouped) (utilization_level : string)
    (min_routes_threshold : Q) (weights : cargo_weights) (top_n : Z)
    (result_row : Row) : Row :=
  match g_rows hub_data with
  | [] => dict_update result_row hub_no_data
  | _ :: _ =>
      match hub_entities weights min_routes_threshold hub_data with
      | [] => dict_update result_row hub_no_data
      | e :: es =>
          let top_hubs :=
            get_top_entities utilizationScore (e :: es)
              utilization_level top_n in
          dict_update result_row
            [ ("Hub_Ports", CStr (join (map Port top_hubs)));
              ("Avg_Utilization_Score",
               CStr (format_float 1 (xmean (map utilizationScore top_hubs))));
              ("Avg_Routes",
               CStr (format_float 1
                       (xmean (map (fun h => Fin (Unique_Routes h))
                                 top_hubs)))) ]
      end
  end.

(** Lines 169-207: the row of one period. *)
Definition hub_row (utilization_level : string) (min_routes_threshold : Q)
    (weights : cargo_weights) (top_n : Z) (pr : PeriodResult) : Row :=
  let '(year, month, hub_data) := pr in
  let result_row :=
    fst (fst (format_results_summary hub_data None year month)) in
  hub_fields hub_data utilization_level min_routes_threshold
    weights top_n result_row.

Definition analyze_hub_utilization (df : DataFrame)
    (start_year start_month end_year end_month : Z)
    (aggregate_by utilization_level : string)
    (specific_ports : option (list string)) (min_routes_threshold : Q)
    (cargo_weights : option cargo_weights) (top_n : Z)
  : result (list Row) :=
  let weights :=
    match cargo_weights with
    | None => get_default_cargo_weights
    | Some w => w
    end in
  let filtered_df :=
    restrict_ports specific_ports
      (filter_data_by_period df start_year start_month end_year end_month) in
  period_results <-
    filter_and_aggregate_by_period filtered_df
      start_year start_month end_year end_month
      ColAustralianPort hub_agg_dict aggregate_by ;;
  ret (map (hub_row utilization_level min_routes_threshold weights top_n)
         period_results).

(** ** analysis_functions.py: [analyze_geographical_patterns] *)

(** [sort_values(col, ascending=False)] on the [i]-th aggregated column.
    The order of rows with equal values is that of a stable sort here;
    pandas' default quicksort may order them otherwise, and nothing
    below is stated about the order of ties. *)
Definition sort_desc_by_column (i : nat) (rows : list (string * list Q))
  : list (string * list Q) :=
  sort_by (fun a b => Qle_bool (agg_value i b) (agg_value i a)) rows.

Definition year_country_leb (p q : Z * string) : bool :=
  (fst p <? fst q) || ((fst p =? fst q) && String.leb (snd p) (snd q)).

Definition year_country_dec (p q : Z * string) : {p = q} + {p <> q}.
Proof. decide equality; [apply string_dec | apply Z.eq_dec]. Defined.

(** A row of [yearly_country]: Year, Country, Passengers_Total. *)
Definition YearCountry : Type := (Z * string * Q)%type.

(** The sum of Passengers_Total over the records of one country in one
    year. *)
Definition country_year_total (rows : list TrafficRecord)
    (year : Z) (country : string) : Q :=
  qsum (map Passengers_Total
          (filter (fun r => (Year r =? year)
                            && String.eqb (Country r) country)
             rows)).

(** The group keys of [groupby(['Year', 'Country'])], ascending. *)
Definition year_country_keys (rows : list TrafficRecord)
  : list (Z * string) :=
  sort_by year_country_leb
    (drop_duplicates year_country_dec
       (map (fun r => (Year r, Country r)) rows)).

(** [groupby(['Year', 'Country']).agg({'Passengers_Total': 'sum'})
     .reset_index()] *)
Definition yearly_country_totals (rows : list TrafficRecord)
  : list YearCountry :=
  map (fun yc => (fst yc, snd yc, country_year_total rows (fst yc) (snd yc)))
    (year_country_keys rows).

Definition previous_of (last : list (string * Q)) (country : string) : xnum :=
  match dict_get last country with
  | Some previous => Fin previous
  | None => NaN
  end.

(** [groupby('Country')['Passengers_Total'].shift(1)]: each row gets the
    value of the row before it in its own country group, NaN for the
    first row of a group.  [last] holds the latest value met per country. *)
Fixpoint shift_by_country (rows : list YearCountry) (last : list (string * Q))
  : list xnum :=
  match rows with
  | [] => []
  | (_, country, total) :: rest =>
      previous_of last country
      :: shift_by_country rest (dict_set last country total)
  end.

Record GrowthRow : Type := mkGrowth {
  gr_year : Z;
  gr_country : string;
  gr_passengers : Q;
  prev_year_passengers : xnum;
  growth_rate : xnum
}.

(** [(total - prev) / prev * 100] *)
Definition growth_of (total : Q) (prev : xnum) : xnum :=
  xmul (xdiv (xsub (Fin total) prev) prev) (Fin 100).

(** [yearly_country] with its two computed columns. *)
Definition with_growth (yearly : list YearCountry) : list GrowthRow :=
  map (fun rp : YearCountry * xnum =>
         let '((year, country, total), prev) := rp in
         mkGrowth year country total prev (growth_of total prev))
    (combine yearly (shift_by_country yearly [])).

(** [yearly_country['Year'].max()]; nothing on an empty table. *)
Definition max_year (rows : list GrowthRow) : option Z :=
  match rows with
  | [] => None
  | r :: rest => Some (fold_left Z.max (map gr_year rest) (gr_year r))
  end.

(** [.dropna()]: the rows with a NaN in any column are dropped. *)
Definition dropna (rows : list GrowthRow) : list GrowthRow :=
  filter (fun r => negb (is_nan (prev_year_passengers r))
                   && negb (is_nan (growth_rate r))) rows.

(** [yearly_country[yearly_country['Year'] == latest_year].dropna()] *)
Definition latest_growth (yearly : list GrowthRow) : list GrowthRow :=
  match max_year yearly with
  | Some latest_year =>
      dropna (filter (fun r => gr_year r =? latest_year) yearly)
  | None => []
  end.

(** [sort_values('growth_rate', ascending=False)], on rows without NaN;
    ties as for [sort_desc_by_column]. *)
Definition sort_by_growth_desc (rows : list GrowthRow) : list GrowthRow :=
  sort_by (fun a b => xleb (growth_rate b) (growth_rate a)) rows.

Definition regional_growth (rows : list TrafficRecord) (top_n : Z)
  : list GrowthRow :=
  head top_n
    (sort_by_growth_desc
       (latest_growth (with_growth (yearly_country_totals rows)))).

Inductive GeoTable : Type :=
| CountryPerformance (table : Grouped)
| PortConnectivity (table : Grouped)
| RegionalGrowth (table : list GrowthRow)
| EmptyFrame.

Definition analyze_geographical_patterns (df : DataFrame)
    (start_year start_month end_year end_month : Z)
    (pattern_type : string) (top_n : Z) : result GeoTable :=
  let filtered_df :=
    filter_data_by_period df start_year start_month end_year end_month in
  if String.eqb pattern_type "country_performance" then
    country_totals <-
      groupby_agg ColCountry
        [ AggSum "Passengers_Total"; AggSum "Freight_Total_(tonnes)";
          AggSum "Mail_Total_(tonnes)"; AggNunique ColRoute ]
        filtered_df ;;
    ret (CountryPerformance
           (mkGrouped (g_columns country_totals)
              (head top_n (sort_desc_by_column 0 (g_rows country_totals)))))
  else if String.eqb pattern_type "port_connectivity" then
    port_connectivity <-
      groupby_agg ColAustralianPort
        [ AggNunique ColCountry; AggNunique ColForeignPort;
          AggSum "Passengers_Total" ]
        filtered_df ;;
    ret (PortConnectivity
           (mkGrouped (g_columns port_connectivity)
              (head top_n (sort_desc_by_column 0 (g_rows port_connectivity)))))
  else if String.eqb pattern_type "regional_growth" then
    match df_metric filtered_df "Passengers_Total" with
    | Some _ =>
        ret (RegionalGrowth (regional_growth (df_rows filtered_df) top_n))
    | None => raise (KeyError "Column(s) do not exist")
    end
  else ret EmptyFrame.

(** ** Sample records *)

Definition sample_record (y m : Z) (aus foreign country : string)
    (p_in p_out : Z) : TrafficRecord :=
  mkTrafficRecord y m aus foreign country
    (inject_Z p_in) (inject_Z p_out) (inject_Z (p_in + p_out))
    0 0 0 0 0 0.

Definition sydney_london_sep85 : TrafficRecord :=
  sample_record 1985 9 "Sydney" "London" "UK" 100 80.

Definition balanced_50_50 : TrafficRecord :=
  sample_record 1985 1 "Sydney" "London" "UK" 50 50.

Definition january_1985 : list TrafficRecord :=
  [ sample_record 1985 1 "Sydney" "London" "UK" 100 80;
    sample_record 1985 1 "Melbourne" "Tokyo" "Japan" 40 40 ].

(** Equality of floats that are not NaN. *)
Definition xeq (x y : xnum) : Prop :=
  match x, y with
  | Fin a, Fin b => (a == b)%Q
  | PosInf, PosInf | NegInf, NegInf => True
  | _, _ => False
  end.

(** The values a granularity or a level is read as by the analyses that
    compare it with one name only. *)
Definition read_granularity (aggregate_by : string) : string :=
  if String.eqb aggregate_by "Month" then "Month" else "Year".

Definition read_level (level : string) : string :=
  if String.eqb level "Least" then "Least" else "Most".

(** ** Reading result rows *)

(** The period key of an output row. *)
Definition row_period (row : Row) : option (Z * option Z) :=
  match dict_get row "Year" with
  | Some (CInt y) =>
      match dict_get row "Month" with
      | Some (CInt m) => Some (y, Some m)
      | Some (CStr _) => None
      | None => Some (y, None)
      end
  | _ => None
  end.

Definition months_of (rows : list TrafficRecord) : list (Z * Z) :=
  map (fun r => (Year r, Month r)) rows.

(** The number of distinct (Year, Month) pairs of a record set. *)
Definition distinct_months (rows : list TrafficRecord) : nat :=
  List.length (nodup period_dec (months_of rows)).

Definition january_1985_hubs : Grouped :=
  mkGrouped
    [ "AustralianPort"; "Passengers_Total"; "Freight_Total_(tonnes)";
      "Mail_Total_(tonnes)"; "Route" ]
    [ ("Melbourne", [80; 0; 0; 1]%Q); ("Sydney", [180; 0; 0; 1]%Q) ].

(** ** Reading the growth table *)

Definition year_country_lt (p q : Z * string) : Prop :=
  fst p < fst q \/ (fst p = fst q /\ str_lt (snd p) (snd q)).

Definition yc_key (r : YearCountry) : Z * string := fst r.

(** The latest totals per country after the rows [pre], starting from
    [last]. *)
Definition latest_totals (pre : list YearCountry) (last : list (string * Q))
  : list (string * Q) :=
  fold_left (fun d r => dict_set d (snd (fst r)) (snd r)) pre last.

Definition growth_row (r : YearCountry) (prev : xnum) : GrowthRow :=
  mkGrowth (fst (fst r)) (snd (fst r)) (snd r) prev (growth_of (snd r) prev).


(** Records over 1985-1988: the UK and Japan have a baseline, New
    Zealand is seen in 1988 only, Italy carries no passengers. *)
Definition growth_sample : list TrafficRecord :=
  [ sample_record 1985 1 "Sydney" "London" "UK" 100 80;
    sample_record 1985 1 "Melbourne" "Tokyo" "Japan" 40 40;
    sample_record 1986 2 "Melbourne" "Tokyo" "Japan" 50 50;
    sample_record 1988 2 "Adelaide" "Tokyo" "Japan" 51 50;
    sample_record 1988 2 "Adelaide" "Auckland" "NZ" 51 50;
    sample_record 1985 2 "Adelaide" "Rome" "Italy" 0 0;
    sample_record 1988 2 "Adelaide" "Rome" "Italy" 0 0;
    sample_record 1988 2 "Adelaide" "London" "UK" 100 100 ].

(** ** Further readings of the period filter *)

(** (Year, Month) lies between (startYear, startMonth) and
    (endYear, endMonth), both included. *)
Definition within_range (start_year start_month end_year end_month : Z)
    (r : TrafficRecord) : Prop :=
  (start_year < Year r \/ (start_year = Year r /\ start_month <= Month r))
  /\ (Year r < end_year \/ (Year r = end_year /\ Month r <= end_month)).

Definition sydney_london_mar86 : TrafficRecord :=
  sample_record 1986 3 "Sydney" "London" "UK" 120 90.

(** The number of distinct years of a record set. *)
Definition distinct_years (rows : list TrafficRecord) : nat :=
  List.length (nodup Z.eq_dec (map Year rows)).

(** The keys of the rows of [analyze_traffic_routes], in column order. *)
Definition monthly_route_columns : list string :=
  [ "Year"; "Month"; "In_Route"; "In_Value"; "Out_Route"; "Out_Value";
    "Total_Route"; "Total_Value" ].

Definition yearly_route_columns : list string :=
  [ "Year"; "In_Route"; "In_Value"; "Out_Route"; "Out_Value";
    "Total_Route"; "Total_Value" ].

Definition is_text (c : cell) : Prop :=
  match c with
  | CStr _ => True
  | CInt _ => False
  end.

(** The records of one bucket: those of the year, and of the month when
    the bucket has one. *)
Definition in_bucket (year : Z) (month : option Z) (r : TrafficRecord)
  : Prop :=
  Year r = year
  /\ match month with
     | Some m => Month r = m
     | None => True
     end.

(** The table that [groupby(group_col).agg(agg_dict).reset_index()]
    builds from the records [bucket]. *)
Definition aggregated_table (group_col : name_column)
    (agg_dict : list agg_entry) (bucket : list TrafficRecord) : Grouped :=
  mkGrouped (column_name group_col :: map agg_key agg_dict)
    (map (fun k =>
            (k, map (fun e =>
                       agg_cell e (group_rows (name_value group_col) k bucket))
                  agg_dict))
       (group_keys (name_value group_col) bucket)).

Definition january_1985_sydney : Grouped :=
  mkGrouped
    [ "AustralianPort"; "Passengers_Total"; "Freight_Total_(tonnes)";
      "Mail_Total_(tonnes)"; "Route" ]
    [ ("Sydney", [180; 0; 0; 1]%Q) ].

Definition january_1985_routes : Grouped :=
  mkGrouped ["Passengers_In"; "Passengers_Out"; "Passengers_Total"]
    [ ("Melbourne-Tokyo", [40; 40; 80]%Q);
      ("Sydney-London", [100; 80; 180]%Q) ].

Definition january_1985_hub_entities : list HubEntity :=
  map (hub_entity get_default_cargo_weights) (g_rows january_1985_hubs).

(** Ascending and descending order of a score. *)
Definition score_le {A : Type} (score : A -> xnum) (a b : A) : Prop :=
  xleb (score a) (score b) = true.

Definition score_ge {A : Type} (score : A -> xnum) (a b : A) : Prop :=
  xleb (score b) (score a) = true.

(** ** utilities.py: [calculate_passenger_equivalents] *)

Module PassengerEquiv.
(** A row of the frame with the three columns that
    [calculate_passenger_equivalents] adds. *)
Record row : Type := mkRow {
  record : TrafficRecord;
  freightPassengerEquiv : Q;
  mailPassengerEquiv : Q;
  totalPassengerEquiv : Q
}.
End PassengerEquiv.

(** [df[c]] raises [KeyError(c)] when the frame has no column [c]. *)
Definition get_metric (df : DataFrame) (c : string)
  : result (TrafficRecord -> Q) :=
  match df_metric df c with
  | Some f => ret f
  | None => raise (KeyError c)
  end.

Definition calculate_passenger_equivalents (df : DataFrame)
    (cargo_weights : option cargo_weights)
  : result (list PassengerEquiv.row) :=
  let weights :=
    match cargo_weights with
    | None => get_default_cargo_weights
    | Some w => w
    end in
  freight <- get_metric df "Freight_Total_(tonnes)" ;;
  mail <- get_metric df "Mail_Total_(tonnes)" ;;
  passengers <- get_metric df "Passengers_Total" ;;
  ret (map (fun r =>
              let freight_equiv := (freight r * w_freight weights)%Q in
              let mail_equiv := (mail r * w_mail weights)%Q in
              PassengerEquiv.mkRow r freight_equiv mail_equiv
                (passengers r + freight_equiv + mail_equiv)%Q)
         (df_rows df)).

(** The cargo types that [get_cargo_columns] knows. *)
Definition known_cargo_type (cargo_type : string) : bool :=
  match get_cargo_columns cargo_type with
  | Some _ => true
  | None => false
  end.

Definition freight_and_mail : TrafficRecord :=
  mkTrafficRecord 1985 1 "Sydney" "London" "UK" 100 80 180 3 2 5 1 1 2.

(** ** Reading the ranking tables *)

(** Descending order of the first aggregated column. *)
Definition first_column_ge (a b : string * list Q) : Prop :=
  (agg_value 0 b <= agg_value 0 a)%Q.

Definition country_agg_dict : list agg_entry :=
  [ AggSum "Passengers_Total"; AggSum "Freight_Total_(tonnes)";
    AggSum "Mail_Total_(tonnes)"; AggNunique ColRoute ].

Definition connectivity_agg_dict : list agg_entry :=
  [ AggNunique ColCountry; AggNunique ColForeignPort;
    AggSum "Passengers_Total" ].

(** Japan has no passengers in 1985 and some in 1986. *)
Definition new_market_sample : list TrafficRecord :=
  [ sample_record 1985 1 "Sydney" "Tokyo" "Japan" 0 0;
    sample_record 1985 1 "Sydney" "London" "UK" 100 100;
    sample_record 1986 1 "Sydney" "Tokyo" "Japan" 30 20;
    sample_record 1986 1 "Sydney" "London" "UK" 150 150 ].

(** The key columns of a row: Year, and Month under monthly granularity. *)
Definition period_columns (aggregate_by : string) : list string :=
  if String.eqb aggregate_by "Month" then ["Year"; "Month"] else ["Year"].

Definition hub_columns : list string :=
  ["Hub_Ports"; "Avg_Utilization_Score"; "Avg_Routes"].

Definition flow_columns : list string :=
  [ "Passengers_Ports"; "Passengers_Avg_Efficiency";
    "Freight_Ports"; "Freight_Avg_Efficiency";
    "Mail_Ports"; "Mail_Avg_Efficiency" ].

(** ** visualizations.py: the data behind the charts

    The chart functions filter the frame, compute a small table and draw
    it.  The tables and the exceptions raised while they are built are
    modelled; the drawing is not. *)

(** [groupby(...)[c]]: selecting a column the frame does not have. *)
Definition select_metric (df : DataFrame) (c : string)
  : result (TrafficRecord -> Q) :=
  match df_metric df c with
  | Some f => ret f
  | None => raise (KeyError ("Column not found: " ++ c))
  end.

(** [create_investment_priority_analysis], lines 16-35: the bars
    [route_totals] (route and total passengers, the ten largest) and
    [max_value], used to place the value labels.  [max] of an empty
    sequence raises [ValueError]; the message is that of CPython up to
    3.11. *)
Definition investment_priority_data (df : DataFrame)
    (start_year start_month end_year end_month : Z)
  : result (list (string * Q) * Q) :=
  let filtered_df :=
    filter_data_by_period df start_year start_month end_year end_month in
  passengers <- select_metric filtered_df "Passengers_Total" ;;
  let totals :=
    map (fun route =>
           (route, qsum (map passengers
                           (group_rows Route route (df_rows filtered_df)))))
      (group_keys Route (df_rows filtered_df)) in
  let route_totals := nlargest (fun kv => Fin (snd kv)) 10 totals in
  match route_totals with
  | [] => raise (ValueError "max() arg is an empty sequence")
  | _ :: _ => ret (route_totals, q_max (map snd route_totals))
  end.

Module Market.
(** An entry of [country_metrics]. *)
Record metric : Type := mkMetric {
  Country : string;
  Total_Passengers : Q;
  Growth_Rate : Q
}.
End Market.

(** [yearly_country[yearly_country['Country'] == country]
     .sort_values('Year')] *)
Definition country_data (yearly : list YearCountry) (country : string)
  : list YearCountry :=
  sort_by (fun a b => fst (fst a) <=? fst (fst b))
    (filter (fun r => String.eqb (snd (fst r)) country) yearly).

(** Lines 58-73: one entry per country with at least three yearly rows,
    in order of first appearance of the country. *)
Definition country_metrics (rows : list TrafficRecord)
  : list Market.metric :=
  let yearly_country := yearly_country_totals rows in
  flat_map
    (fun country =>
       let data := country_data yearly_country country in
       match data with
       | first :: _ =>
           if (3 <=? Z.of_nat (List.length data)) then
             let total_passengers := qsum (map snd data) in
             let first_year := snd first in
             let last_year := snd (last data first) in
             let growth_rate :=
               if Qltb 0 first_year
               then ((last_year - first_year) / first_year * 100)%Q
               else 0%Q in
             [Market.mkMetric country total_passengers growth_rate]
           else []
       | [] => []
       end)
    (drop_duplicates string_dec (map Country rows)).

(** ['red' if growth > 20 else 'orange' if growth > 0 else 'gray'] *)
Definition market_color (growth : Q) : string :=
  if Qltb 20 growth then "red"
  else if Qltb 0 growth then "orange" else "gray".

(** [create_market_expansion_opportunities], lines 52-81: the markets
    drawn ([top_markets], the twelve largest by total passengers) and
    their colours.  A frame built from an empty list has no column, so
    [nlargest] raises [KeyError] on it. *)
Definition market_expansion_data (df : DataFrame)
    (start_year start_month end_year end_month : Z)
  : result (list Market.metric * list string) :=
  let filtered_df :=
    filter_data_by_period df start_year start_month end_year end_month in
  _ <- select_metric filtered_df "Passengers_Total" ;;
  match country_metrics (df_rows filtered_df) with
  | [] => raise (KeyError "Total_Passengers")
  | m :: ms =>
      let top_markets :=
        nlargest (fun x => Fin (Market.Total_Passengers x)) 12 (m :: ms) in
      ret (top_markets, map (fun x => market_color (Market.Growth_Rate x))
                          top_markets)
  end.

(** Descending order of the value of a bar. *)
Definition bar_ge (a b : string * Q) : Prop := (snd b <= snd a)%Q.

(** ** Whole numbers

    Passenger counts are whole numbers.  On whole numbers whose absolute
    values add up to less than 2^53 every sum and product the code forms
    is computed without rounding, in int64 and in binary64 alike, so
    the exact sums of the model are the sums of the code. *)

Definition whole (q : Q) : bool := Z.rem (Qnum q) (Zpos (Qden q)) =? 0.

Definition exact_total (l : list Q) : Prop :=
  (forall q, In q l -> whole q = true)
  /\ (qsum (map Qabs l) < inject_Z (2 ^ 53))%Q.

(** A passenger count: a whole number that binary64 holds exactly. *)
Definition passenger_count (n : Z) : Prop := 0 <= n < 2 ^ 53.

(** ** A tie between two routes *)



(** The records of a hub whose passenger equivalents are formed without
    rounding: whole weights, whole totals, and weighted absolute values
    that add up to less than 2^53. *)
Definition exact_equivalents (weights : cargo_weights)
    (rows : list TrafficRecord) : Prop :=
  whole (w_freight weights) = true
  /\ whole (w_mail weights) = true
  /\ (forall r, In r rows ->
        whole (Passengers_Total r) = true
        /\ whole (Freight_Total r) = true
        /\ whole (Mail_Total r) = true)
  /\ (qsum (map (fun r =>
                   Qabs (Passengers_Total r)
                   + Qabs (Freight_Total r) * Qabs (w_freight weights)
                   + Qabs (Mail_Total r) * Qabs (w_mail weights))
              rows)
      < inject_Z (2 ^ 53))%Q.
(** * Properties *)

(** ** Sorting *)

Section InsertionSortFacts.
Context {A : Type}.
Variable le : A -> A -> bool.

Lemma insert_sorted_perm x l : Permutation (x :: l) (insert_sorted le x l).
Proof.
  induction l as [|y l IH]; simpl; [reflexivity|].
  destruct (le x y); [reflexivity|].
  rewrite perm_swap. now constructor.
Qed.

Lemma sort_by_perm l : Permutation l (sort_by le l).
Proof.
  induction l as [|x l IH]; simpl; [constructor|].
  rewrite <- insert_sorted_perm. now constructor.
Qed.

Lemma sort_by_In x l : In x (sort_by le l) <-> In x l.
Proof.
  split; apply Permutation_in;
    [symmetry|]; apply sort_by_perm.
Qed.

Lemma sort_by_length l : List.length (sort_by le l) = List.length l.
Proof. symmetry. apply Permutation_length, sort_by_perm. Qed.

(** Sortedness, for an order that is total and transitive on the
    elements that satisfy [P]. *)
Variable P : A -> Prop.
Hypothesis le_total : forall x y, P x -> P y -> le x y = true \/ le y x = true.
Hypothesis le_trans : forall x y z, P x -> P y -> P z ->
    le x y = true -> le y z = true -> le x z = true.

Let leP (x y : A) : Prop := le x y = true.

Lemma insert_sorted_sorted_on x l :
  P x -> Forall P l ->
  StronglySorted leP l -> StronglySorted leP (insert_sorted le x l).
Proof.
  intros Hx HP. induction 1 as [|y l Hs IH Hall]; simpl.
  - repeat constructor.
  - inversion HP as [|? ? Hy HPl]; subst.
    destruct (le x y) eqn:E.
    + constructor; [now constructor|].
      constructor; [exact E|].
      rewrite Forall_forall in *. intros z Hz.
      apply le_trans with y; auto. now apply Hall.
    + constructor; [now apply IH|].
      rewrite Forall_forall in *. intros z Hz.
      apply (Permutation_in _ (Permutation_sym (insert_sorted_perm x l)))
        in Hz.
      destruct Hz as [<-|Hz]; [|now apply Hall].
      destruct (le_total x y Hx Hy) as [H|H]; [congruence|exact H].
Qed.

Lemma sort_by_sorted_on l :
  Forall P l -> StronglySorted leP (sort_by le l).
Proof.
  induction 1 as [|x l Hx Hl IH]; simpl; [constructor|].
  apply insert_sorted_sorted_on; auto.
  rewrite Forall_forall in *. intros y Hy. apply Hl.
  now apply sort_by_In.
Qed.
End InsertionSortFacts.

Lemma sort_by_sorted {A : Type} (le : A -> A -> bool) (l : list A) :
  (forall x y, le x y = true \/ le y x = true) ->
  (forall x y z, le x y = true -> le y z = true -> le x z = true) ->
  StronglySorted (fun x y => le x y = true) (sort_by le l).
Proof.
  intros Htot Htrans.
  apply (sort_by_sorted_on le (fun _ => True)); auto.
  - intros x y z _ _ _. apply Htrans.
  - apply Forall_forall. auto.
Qed.


(** *** The order on strings *)

Lemma string_compare_OT s t : String.compare s t = String_as_OT.compare s t.
Proof.
  revert t. induction s as [|a s IH]; intros [|b t]; simpl; try reflexivity.
Qed.

Lemma str_lt_iff s t : str_lt s t <-> String_as_OT.lt s t.
Proof.
  unfold str_lt, String.ltb, String_as_OT.lt.
  rewrite string_compare_OT.
  destruct (String_as_OT.compare s t); split; congruence.
Qed.

Lemma str_leb_iff s t : String.leb s t = true <-> str_lt s t \/ s = t.
Proof.
  unfold str_lt, String.leb, String.ltb.
  destruct (String.compare s t) eqn:E.
  - apply String.compare_eq_iff in E. tauto.
  - tauto.
  - split; [discriminate|]. intros [H|H]; [discriminate|].
    subst. rewrite string_compare_OT in E.
    pose proof (String_as_OT.compare_spec t t) as C.
    rewrite E in C. inversion C as [| |C'].
    exfalso. revert C'. apply (StrictOrder_Irreflexive (R := String_as_OT.lt)).
Qed.

Lemma str_lt_trans s t u : str_lt s t -> str_lt t u -> str_lt s u.
Proof.
  rewrite !str_lt_iff. apply (StrictOrder_Transitive (R := String_as_OT.lt)).
Qed.

Lemma str_lt_irrefl s : ~ str_lt s s.
Proof.
  rewrite str_lt_iff. apply (StrictOrder_Irreflexive (R := String_as_OT.lt)).
Qed.

Lemma str_leb_trans s t u :
  String.leb s t = true -> String.leb t u = true -> String.leb s u = true.
Proof.
  rewrite !str_leb_iff.
  intros [H1 | ->] [H2 | ->]; auto.
  left. eapply str_lt_trans; eauto.
Qed.

(** *** The order on period keys *)

Lemma period_leb_iff p q : period_leb p q = true <-> period_lt p q \/ p = q.
Proof.
  destruct p as [y m], q as [y' m']; unfold period_leb, period_lt; simpl.
  rewrite orb_true_iff, andb_true_iff, Z.ltb_lt, Z.eqb_eq, Z.leb_le.
  split.
  - intros [H|[H1 H2]]; [tauto|].
    destruct (Z.eq_dec m m'); [right; congruence|left; right; lia].
  - intros [[H|[H1 H2]]|H]; [tauto|right; lia|].
    inversion H; subst. right; lia.
Qed.

Lemma period_leb_total p q : period_leb p q = true \/ period_leb q p = true.
Proof.
  destruct p as [y m], q as [y' m']; unfold period_leb; simpl.
  rewrite !orb_true_iff, !andb_true_iff, !Z.ltb_lt, !Z.eqb_eq, !Z.leb_le. lia.
Qed.

Lemma period_leb_trans p q r :
  period_leb p q = true -> period_leb q r = true -> period_leb p r = true.
Proof.
  destruct p as [y m], q as [y' m'], r as [y'' m'']; unfold period_leb; simpl.
  rewrite !orb_true_iff, !andb_true_iff, !Z.ltb_lt, !Z.eqb_eq, !Z.leb_le. lia.
Qed.

(** ** The period filter *)

Lemma period_mask_spec sy sm ey em r :
  ((Year r =? sy) && (Month r >=? sm))
  || ((Year r >? sy) && (Year r <? ey))
  || ((Year r =? ey) && (Month r <=? em)) = true
  <-> in_period sy sm ey em r.
Proof.
  unfold in_period.
  rewrite !orb_true_iff, !andb_true_iff, !Z.eqb_eq, Z.geb_le, Z.gtb_lt,
    Z.ltb_lt, Z.leb_le.
  lia.
Qed.

Lemma traffic_routes_filter_same df sy sm ey em :
  traffic_routes_filtered_df df sy sm ey em
  = filter_data_by_period df sy sm ey em.
Proof. reflexivity. Qed.

Lemma filter_data_by_period_In data sy sm ey em r :
  In r (df_rows (filter_data_by_period data sy sm ey em))
  <-> In r (df_rows data) /\ in_period sy sm ey em r.
Proof.
  unfold filter_data_by_period, df_select; simpl.
  rewrite filter_In, period_mask_spec. reflexivity.
Qed.

Lemma traffic_routes_filtered_df_In df sy sm ey em r :
  In r (df_rows (traffic_routes_filtered_df df sy sm ey em))
  <-> In r (df_rows df) /\ in_period sy sm ey em r.
Proof.
  unfold traffic_routes_filtered_df, df_select; simpl.
  rewrite filter_In, period_mask_spec. reflexivity.
Qed.

(** C1: a record is kept by the period filter ([filter_data_by_period]
    and the copy inside [analyze_traffic_routes]) exactly when
    (Y = startYear and M >= startMonth) or (startYear < Y < endYear) or
    (Y = endYear and M <= endMonth); when startYear = endYear and
    startMonth <= endMonth every record of that year satisfies the
    disjunction and is kept, whatever its month. *)
Theorem period_filter_inclusion
    (data : DataFrame) (sy sm ey em : Z) (r : TrafficRecord) :
  (In r (df_rows (filter_data_by_period data sy sm ey em))
   <-> In r (df_rows data) /\ in_period sy sm ey em r)
  /\ (In r (df_rows (traffic_routes_filtered_df data sy sm ey em))
      <-> In r (df_rows data) /\ in_period sy sm ey em r)
  /\ (sy = ey -> sm <= em -> Year r = sy ->
      in_period sy sm ey em r
      /\ (In r (df_rows data) ->
          In r (df_rows (filter_data_by_period data sy sm ey em))
          /\ In r (df_rows (traffic_routes_filtered_df data sy sm ey em)))).
Proof.
  split; [apply filter_data_by_period_In|].
  split; [apply traffic_routes_filtered_df_In|].
  intros Hy Hm Hr.
  assert (Hin : in_period sy sm ey em r) by (unfold in_period; lia).
  split; [exact Hin|]. intros Hd.
  rewrite traffic_routes_filtered_df_In, filter_data_by_period_In. tauto.
Qed.

Lemma period_filter_inclusion_witness :
  In sydney_london_sep85
     (df_rows (filter_data_by_period (full_frame [sydney_london_sep85])
                 1985 3 1985 6)).
Proof.
  apply (proj2 (proj2 (period_filter_inclusion
                         (full_frame [sydney_london_sep85])
                         1985 3 1985 6 sydney_london_sep85)));
    simpl; auto; lia.
Defined.

(** ** Balance ratio and efficiency *)

Lemma qdiv_nonzero (a b : Q) : ~ (b == 0)%Q -> qdiv a b = Fin (a / b).
Proof.
  intros H. unfold qdiv.
  destruct (Qeq_bool b 0) eqn:E; [|reflexivity].
  apply Qeq_bool_iff in E. contradiction.
Qed.

(** With In = 50 and Out = 50 the passenger balance ratio is 50/51, and
    so is the efficiency: neither is 1. *)
Lemma balance_50_50_not_one :
  ~ (xeq (balance_ratio "passengers" 50 50) (Fin 1)
     /\ xeq (efficiency (balance_ratio "passengers" 50 50)) (Fin 1)).
Proof.
  intros [H _]. vm_compute in H. discriminate H.
Qed.

(** The passenger ratio of two counts is 1 exactly when
    In = Out + 1. *)
Lemma passenger_ratio_one (n_in n_out : Z) :
  0 <= n_out ->
  exists ratio,
    balance_ratio "passengers" (inject_Z n_in) (inject_Z n_out) = Fin ratio
    /\ ((ratio == 1)%Q <-> n_in = n_out + 1).
Proof.
  intros Hout.
  assert (Hnz : ~ (inject_Z n_out + epsilon_of "passengers" == 0)%Q).
  { change (epsilon_of "passengers") with (inject_Z 1).
    rewrite <- inject_Z_plus. change 0%Q with (inject_Z 0).
    rewrite inject_Z_injective. lia. }
  exists (inject_Z n_in / (inject_Z n_out + epsilon_of "passengers"))%Q.
  unfold balance_ratio. rewrite (qdiv_nonzero _ _ Hnz).
  split; [reflexivity|].
  assert (Hq : (inject_Z n_in == inject_Z n_out + epsilon_of "passengers")%Q
               <-> n_in = n_out + 1).
  { change (epsilon_of "passengers") with (inject_Z 1).
    rewrite <- inject_Z_plus. apply inject_Z_injective. }
  rewrite <- Hq. split; intros H.
  - rewrite <- (Qmult_div_r (inject_Z n_in)
                  (inject_Z n_out + epsilon_of "passengers") Hnz).
    rewrite H. ring.
  - rewrite H. now apply Qmult_inv_r.
Qed.

(** C2 (amended): epsilon is 1 for passengers and 0.001 for freight and
    mail; when Out + epsilon is not zero the balance ratio is
    In / (Out + epsilon) and the efficiency is 1 - |1 - ratio|.  So for
    passengers In = 50, Out = 50 gives ratio 50/51 and efficiency 50/51
    (reported as 0.980), not 1.  For passenger counts the ratio and the
    efficiency are exactly 1 if and only if In = Out + 1, as with
    In = 51, Out = 50. *)
Theorem balance_ratio_spec
    (cargo_type : string) (v_in v_out : Q) (n_in n_out : Z) :
  epsilon_of "passengers" = 1%Q
  /\ epsilon_of "freight" = (1 # 1000)%Q
  /\ epsilon_of "mail" = (1 # 1000)%Q
  /\ (~ (v_out + epsilon_of cargo_type == 0)%Q ->
      exists ratio,
        balance_ratio cargo_type v_in v_out = Fin ratio
        /\ (ratio == v_in / (v_out + epsilon_of cargo_type))%Q
        /\ efficiency (Fin ratio) = Fin (1 - Qabs (1 - ratio)))
  /\ (passenger_count n_in -> passenger_count n_out ->
      (xeq (balance_ratio "passengers" (inject_Z n_in) (inject_Z n_out))
         (Fin 1)
       <-> n_in = n_out + 1)
      /\ (xeq (efficiency
                 (balance_ratio "passengers" (inject_Z n_in)
                    (inject_Z n_out)))
            (Fin 1)
          <-> n_in = n_out + 1))
  /\ xeq (balance_ratio "passengers" 50 50) (Fin (50 # 51))
  /\ xeq (efficiency (balance_ratio "passengers" 50 50)) (Fin (50 # 51))
  /\ xeq (balance_ratio "passengers" 51 50) (Fin 1)
  /\ xeq (efficiency (balance_ratio "passengers" 51 50)) (Fin 1)
  /\ analyze_port_flow_efficiency (full_frame [balanced_50_50])
       1985 1 1985 12 ["passengers"] "Year" "Most" None 0 10
     = ret [[ ("Year", CInt 1985);
              ("Passengers_Ports", CStr "Sydney");
              ("Passengers_Avg_Efficiency", CStr "0.980") ]].
Proof.
  split; [reflexivity|]. split; [reflexivity|]. split; [reflexivity|].
  split.
  { intros Hnz. exists (v_in / (v_out + epsilon_of cargo_type))%Q.
    unfold balance_ratio. rewrite (qdiv_nonzero _ _ Hnz).
    repeat split; reflexivity. }
  split.
  { intros _ [Hout _].
    destruct (passenger_ratio_one n_in n_out Hout) as (ratio & -> & Hr).
    split; [exact Hr|]. rewrite <- Hr.
    unfold efficiency, xsub, xneg, xadd, xabs, xeq.
    pose proof (Qabs_nonneg (1 + - ratio)) as Hpos.
    split; intros H.
    - assert (Ha : (Qabs (1 + - ratio) == 0)%Q) by lra.
      revert Ha. apply Qabs_case; intros; lra.
    - assert (Ha : (1 + - ratio == 0)%Q) by lra.
      rewrite Ha. reflexivity. }
  repeat split; reflexivity.
Qed.

Lemma balance_ratio_spec_witness :
  (xeq (balance_ratio "passengers" (inject_Z 51) (inject_Z 50)) (Fin 1)
   <-> 51 = 50 + 1)
  /\ (xeq (efficiency
             (balance_ratio "passengers" (inject_Z 51) (inject_Z 50)))
        (Fin 1)
      <-> 51 = 50 + 1).
Proof.
  apply (proj1 (proj2 (proj2 (proj2 (proj2
           (balance_ratio_spec "passengers" 51 50 51 50))))));
    unfold passenger_count; lia.
Defined.

(** ** Formatting of the extreme value *)

Lemma string_append_assoc (s t u : string) : (s ++ t) ++ u = s ++ (t ++ u).
Proof.
  induction s as [|c s IH]; simpl; [reflexivity|]. now rewrite IH.
Qed.

Lemma string_of_digit_length (d : Z) :
  0 <= d <= 9 -> String.length (string_of_Z d) = 1%nat.
Proof.
  intros H.
  assert (E : d = 0 \/ d = 1 \/ d = 2 \/ d = 3 \/ d = 4 \/ d = 5 \/ d = 6
              \/ d = 7 \/ d = 8 \/ d = 9) by lia.
  repeat (destruct E as [E|E]; [subst d; reflexivity|]).
  subst d; reflexivity.
Qed.

Lemma truncate_bounds (q : Q) :
  (inject_Z (Z.abs (truncate q)) <= Qabs q
   /\ Qabs q < inject_Z (Z.abs (truncate q)) + 1)%Q
  /\ ((0 <= q)%Q -> 0 <= truncate q)
  /\ ((q <= 0)%Q -> truncate q <= 0).
Proof.
  destruct q as [n d]. unfold truncate; simpl Qnum; simpl Qden.
  assert (Hd : 0 < Z.pos d) by lia.
  assert (Habs : Z.abs (n ÷ Z.pos d) = Z.abs n / Z.pos d).
  { rewrite <- Z.quot_abs by lia.
    rewrite (Z.abs_eq (Z.pos d)) by lia.
    apply Z.quot_div_nonneg; lia. }
  split; [|split].
  - rewrite Habs. unfold Qabs, Qle, Qlt, Qplus, inject_Z; simpl.
    pose proof (Z.mul_div_le (Z.abs n) (Z.pos d) Hd).
    pose proof (Z.mul_succ_div_gt (Z.abs n) (Z.pos d) Hd).
    nia.
  - unfold Qle; simpl. intros H.
    apply Z.quot_pos; lia.
  - unfold Qle; simpl. intros H.
    assert (E : n ÷ Z.pos d = - (- n ÷ Z.pos d)).
    { rewrite Z.quot_opp_l by lia. lia. }
    rewrite E.
    assert (0 <= - n ÷ Z.pos d) by (apply Z.quot_pos; lia).
    lia.
Qed.

Lemma round_half_even_nearest (q : Q) :
  (inject_Z (round_half_even q) - (1 # 2) <= q
   /\ q <= inject_Z (round_half_even q) + (1 # 2))%Q.
Proof.
  unfold round_half_even.
  pose proof (Qfloor_le q) as Hlo.
  pose proof (Qlt_floor q) as Hhi.
  rewrite inject_Z_plus in Hhi. change (inject_Z 1) with 1%Q in Hhi.
  destruct (Qcompare_spec (2 * (q - inject_Z (Qfloor q))) 1) as [E|E|E].
  - destruct (Z.even (Qfloor q));
      [|rewrite inject_Z_plus; change (inject_Z 1) with 1%Q]; lra.
  - lra.
  - rewrite inject_Z_plus. change (inject_Z 1) with 1%Q. lra.
Qed.

Lemma round_half_even_nonneg (q : Q) : (0 <= q)%Q -> 0 <= round_half_even q.
Proof.
  intros H. unfold round_half_even.
  assert (0 <= Qfloor q).
  { change 0 with (Qfloor 0). now apply Qfloor_resp_le. }
  destruct (Qcompare _ _); [destruct (Z.even _)| |]; lia.
Qed.

Lemma format_fixed_one (q : Q) :
  exists n d : Z,
    0 <= n /\ 0 <= d <= 9
    /\ 10 * n + d = round_half_even (Qabs q * 10)
    /\ String.length (string_of_Z d) = 1%nat
    /\ format_fixed 1 q
       = (if Qltb q 0 then "-" else "")
         ++ string_of_Z n ++ "." ++ string_of_Z d.
Proof.
  set (r := round_half_even (Qabs q * 10)).
  assert (Hr : 0 <= r).
  { apply round_half_even_nonneg.
    apply Qmult_le_0_compat; [apply Qabs_nonneg|discriminate]. }
  exists (r / 10), (r mod 10).
  pose proof (Z.mod_pos_bound r 10 ltac:(lia)) as Hm.
  assert (Hlen : String.length (string_of_Z (r mod 10)) = 1%nat)
    by (apply string_of_digit_length; lia).
  repeat split; try lia.
  - apply Z.div_pos; lia.
  - symmetry. apply Z.div_mod. lia.
  - unfold format_fixed. change (10 ^ Z.of_nat 1) with 10.
    change (inject_Z 10) with 10%Q. fold r.
    unfold zero_pad. rewrite Hlen. reflexivity.
Qed.

(** C5: the value of an extreme is printed as the integer got by cutting
    off its fractional part when the traffic type has no unit suffix
    (Passengers), and otherwise with exactly one decimal digit, rounded
    to the nearest tenth, directly followed by the suffix ("123.4t" for
    Freight and Mail). *)
Theorem format_value_spec (extreme : Q) (unit_suffix : string) :
  unit_suffix_of "Passengers" = Some ""
  /\ unit_suffix_of "Freight" = Some "t"
  /\ unit_suffix_of "Mail" = Some "t"
  /\ format_value extreme "" = string_of_Z (truncate extreme)
  /\ (inject_Z (Z.abs (truncate extreme)) <= Qabs extreme
      /\ Qabs extreme < inject_Z (Z.abs (truncate extreme)) + 1)%Q
  /\ ((0 <= extreme)%Q -> 0 <= truncate extreme)
  /\ ((extreme <= 0)%Q -> truncate extreme <= 0)
  /\ (unit_suffix <> "" ->
      exists n d : Z,
        0 <= n /\ 0 <= d <= 9
        /\ (inject_Z (10 * n + d) - (1 # 2) <= Qabs extreme * 10
            /\ Qabs extreme * 10 <= inject_Z (10 * n + d) + (1 # 2))%Q
        /\ String.length (string_of_Z d) = 1%nat
        /\ format_value extreme unit_suffix
           = (if Qltb extreme 0 then "-" else "")
             ++ string_of_Z n ++ "." ++ string_of_Z d ++ unit_suffix)
  /\ format_value (1234 # 10) "t" = "123.4t".
Proof.
  pose proof (truncate_bounds extreme) as [Hb [Hpos Hneg]].
  repeat split; try reflexivity; try tauto.
  intros Hs.
  destruct (format_fixed_one extreme) as (n & d & Hn & Hd & Hnd & Hlen & Hfmt).
  exists n, d. rewrite Hnd.
  repeat split; try tauto; try apply round_half_even_nearest.
  unfold format_value.
  destruct (String.eqb_spec unit_suffix "") as [E|_]; [contradiction|].
  rewrite Hfmt, !string_append_assoc. reflexivity.
Qed.

Lemma format_value_spec_witness :
  exists n d : Z,
    0 <= n /\ 0 <= d <= 9
    /\ (inject_Z (10 * n + d) - (1 # 2) <= Qabs (1234 # 10) * 10
        /\ Qabs (1234 # 10) * 10 <= inject_Z (10 * n + d) + (1 # 2))%Q
    /\ String.length (string_of_Z d) = 1%nat
    /\ format_value (1234 # 10) "t"
       = (if Qltb (1234 # 10) 0 then "-" else "")
         ++ string_of_Z n ++ "." ++ string_of_Z d ++ "t".
Proof.
  apply (proj2 (proj2 (proj2 (proj2 (proj2 (proj2 (proj2
           (format_value_spec (1234 # 10) "t")))))))).
  discriminate.
Defined.

(** ** Enumerated parameters *)

Lemma col_mapping_None (traffic_type : string) :
  mem traffic_type ["Passengers"; "Freight"; "Mail"] = false
  <-> col_mapping traffic_type = None.
Proof.
  unfold mem, col_mapping; simpl.
  destruct (String.eqb traffic_type "Passengers");
    destruct (String.eqb traffic_type "Freight");
    destruct (String.eqb traffic_type "Mail"); simpl;
    split; congruence.
Qed.

Lemma filter_and_aggregate_read_granularity
    df sy sm ey em group_col agg_dict aggregate_by :
  filter_and_aggregate_by_period df sy sm ey em group_col agg_dict aggregate_by
  = filter_and_aggregate_by_period df sy sm ey em group_col agg_dict
      (read_granularity aggregate_by).
Proof.
  unfold filter_and_aggregate_by_period, read_granularity.
  destruct (String.eqb aggregate_by "Month"); reflexivity.
Qed.

Lemma get_top_entities_read_level {A : Type} (score : A -> xnum)
    (data : list A) (level : string) (top_n : Z) :
  get_top_entities score data level top_n
  = get_top_entities score data (read_level level) top_n.
Proof.
  unfold get_top_entities, read_level.
  destruct data; [reflexivity|].
  destruct (String.eqb level "Least"); reflexivity.
Qed.

Lemma flow_row_read_level cargo_types level threshold top_n pr :
  flow_row cargo_types level threshold top_n pr
  = flow_row cargo_types (read_level level) threshold top_n pr.
Proof.
  destruct pr as [[year month] port_data]. unfold flow_row.
  generalize (fst (fst (format_results_summary port_data None year month))).
  induction cargo_types as [|c cs IH]; intros row; simpl; [reflexivity|].
  rewrite IH. f_equal.
  destruct (get_cargo_columns c) as [mapping|]; [|reflexivity].
  unfold flow_fields.
  destruct (col_index (cargo_in mapping) _); [|reflexivity].
  destruct (col_index (cargo_out mapping) _); [|reflexivity].
  rewrite get_top_entities_read_level. reflexivity.
Qed.

Lemma hub_row_read_level level threshold weights top_n pr :
  hub_row level threshold weights top_n pr
  = hub_row (read_level level) threshold weights top_n pr.
Proof.
  destruct pr as [[year month] hub_data]. unfold hub_row, hub_fields.
  destruct (g_rows hub_data); [reflexivity|].
  destruct (hub_entities _ _ _); [reflexivity|].
  rewrite get_top_entities_read_level. reflexivity.
Qed.

(** An unknown pattern type makes [analyze_geographical_patterns] return
    an empty frame, and an unknown level or granularity does not stop
    [analyze_port_flow_efficiency]: neither raises. *)
Lemma unknown_parameter_accepted :
  mem "continental" ["country_performance"; "port_connectivity";
                     "regional_growth"] = false
  /\ mem "Best" ["Most"; "Least"] = false
  /\ mem "Decade" ["Month"; "Year"] = false
  /\ ~ raises (analyze_geographical_patterns (full_frame january_1985)
                 1985 1 1985 12 "continental" 10)
  /\ ~ raises (analyze_port_flow_efficiency (full_frame january_1985)
                 1985 1 1985 12 ["passengers"] "Decade" "Best" None 0 10).
Proof.
  repeat split; intros [e H]; vm_compute in H; discriminate H.
Qed.

(** C3 (amended): [analyze_traffic_routes] fails with a [ValueError]
    when its traffic type, level or granularity is outside the closed
    set, and does so without looking at the records (the error is the
    same for every frame).  [analyze_geographical_patterns] does not
    raise on an unknown pattern type: it returns an empty frame.
    [analyze_port_flow_efficiency] and [analyze_hub_utilization] do not
    check their level and granularity: a granularity other than Month is
    read as Year and a level other than Least is read as Most. *)
Theorem enumerated_parameters
    (df df' : DataFrame) (sy sm ey em : Z)
    (level traffic_type aggregate_by pattern_type : string)
    (cargo_types : list string) (specific_ports : option (list string))
    (threshold : Q) (weights : option cargo_weights) (top_n : Z) :
  (mem traffic_type ["Passengers"; "Freight"; "Mail"] = false
   \/ mem level ["Most"; "Least"] = false
   \/ mem aggregate_by ["Month"; "Year"] = false ->
   exists msg,
     analyze_traffic_routes df sy sm ey em level traffic_type aggregate_by
     = raise (ValueError msg)
     /\ analyze_traffic_routes df' sy sm ey em level traffic_type aggregate_by
        = raise (ValueError msg))
  /\ (mem pattern_type ["country_performance"; "port_connectivity";
                        "regional_growth"] = false ->
      analyze_geographical_patterns df sy sm ey em pattern_type top_n
      = ret EmptyFrame)
  /\ analyze_port_flow_efficiency df sy sm ey em cargo_types
       aggregate_by level specific_ports threshold top_n
     = analyze_port_flow_efficiency df sy sm ey em cargo_types
         (read_granularity aggregate_by) (read_level level)
         specific_ports threshold top_n
  /\ analyze_hub_utilization df sy sm ey em aggregate_by level
       specific_ports threshold weights top_n
     = analyze_hub_utilization df sy sm ey em
         (read_granularity aggregate_by) (read_level level)
         specific_ports threshold weights top_n.
Proof.
  split; [|split; [|split]].
  - unfold analyze_traffic_routes.
    destruct (col_mapping traffic_type) as [[[[i o] t] u]|] eqn:Hc.
    + intros [H|[H|H]].
      * apply col_mapping_None in H. congruence.
      * rewrite H; cbn [negb]. eauto.
      * destruct (mem level ["Most"; "Least"]); cbn [negb]; [|eauto].
        rewrite H; cbn [negb]. eauto.
    + eauto.
  - unfold analyze_geographical_patterns, mem; simpl.
    destruct (String.eqb pattern_type "country_performance");
      destruct (String.eqb pattern_type "port_connectivity");
      destruct (String.eqb pattern_type "regional_growth"); simpl;
      intros H; try discriminate H; reflexivity.
  - unfold analyze_port_flow_efficiency.
    rewrite filter_and_aggregate_read_granularity.
    destruct (filter_and_aggregate_by_period _ _ _ _ _ _ _ _); simpl;
      [reflexivity|].
    unfold ret. f_equal. apply map_ext. intros pr.
    apply flow_row_read_level.
  - unfold analyze_hub_utilization.
    rewrite filter_and_aggregate_read_granularity.
    destruct (filter_and_aggregate_by_period _ _ _ _ _ _ _ _); simpl;
      [reflexivity|].
    unfold ret. f_equal. apply map_ext. intros pr.
    apply hub_row_read_level.
Qed.

Lemma enumerated_parameters_witness :
  (exists msg,
     analyze_traffic_routes (full_frame january_1985) 1985 1 1985 12
       "Most" "Passengers" "Decade" = raise (ValueError msg)
     /\ analyze_traffic_routes (full_frame []) 1985 1 1985 12
          "Most" "Passengers" "Decade" = raise (ValueError msg))
  /\ analyze_geographical_patterns (full_frame january_1985) 1985 1 1985 12
       "continental" 10 = ret EmptyFrame.
Proof.
  pose proof (enumerated_parameters (full_frame january_1985) (full_frame [])
                1985 1 1985 12 "Most" "Passengers" "Decade" "continental"
                [] None 0 None 10) as [H1 [H2 _]].
  split; [apply H1; right; right; reflexivity | apply H2; reflexivity].
Defined.

(** ** Lists without repetition and strict order *)

Lemma drop_duplicates_In {A : Type} (dec : forall x y : A, {x = y} + {x <> y})
    (x : A) (l : list A) :
  In x (drop_duplicates dec l) <-> In x l.
Proof.
  unfold drop_duplicates.
  rewrite <- in_rev, nodup_In, <- in_rev. reflexivity.
Qed.

Lemma drop_duplicates_NoDup {A : Type}
    (dec : forall x y : A, {x = y} + {x <> y}) (l : list A) :
  NoDup (drop_duplicates dec l).
Proof.
  unfold drop_duplicates. apply NoDup_rev, NoDup_nodup.
Qed.

Lemma drop_duplicates_length {A : Type}
    (dec : forall x y : A, {x = y} + {x <> y}) (l : list A) :
  List.length (drop_duplicates dec l) = List.length (nodup dec l).
Proof.
  apply Permutation_length, NoDup_Permutation.
  - apply drop_duplicates_NoDup.
  - apply NoDup_nodup.
  - intros x. rewrite drop_duplicates_In, nodup_In. reflexivity.
Qed.

Lemma drop_duplicates_nonempty {A : Type}
    (dec : forall x y : A, {x = y} + {x <> y}) (l : list A) :
  l <> [] -> drop_duplicates dec l <> [].
Proof.
  destruct l as [|x l]; [congruence|]. intros _ E.
  assert (H : In x (drop_duplicates dec (x :: l)))
    by (apply drop_duplicates_In; now left).
  rewrite E in H. exact H.
Qed.

Section StrictlySorted.
Context {A : Type}.
Variables (le : A -> A -> bool) (lt : A -> A -> Prop).
Hypothesis le_lt : forall x y, le x y = true -> x <> y -> lt x y.

Lemma sorted_nodup_strict (l : list A) :
  StronglySorted (fun x y => le x y = true) l -> NoDup l ->
  StronglySorted lt l.
Proof.
  induction 1 as [|x l Hs IH Hall]; intros Hnd; constructor.
  - apply IH. now inversion Hnd.
  - inversion Hnd as [|? ? Hx _]; subst.
    rewrite Forall_forall in *. intros y Hy.
    apply le_lt; [now apply Hall|]. intros ->. contradiction.
Qed.
End StrictlySorted.


Lemma group_keys_In key rows k :
  In k (group_keys key rows) <-> exists r, In r rows /\ key r = k.
Proof.
  unfold group_keys.
  rewrite sort_by_In, drop_duplicates_In, in_map_iff.
  split; intros (r & H1 & H2); exists r; tauto.
Qed.

Lemma group_keys_sorted key rows :
  StronglySorted str_lt (group_keys key rows).
Proof.
  unfold group_keys.
  apply (sorted_nodup_strict String.leb).
  - intros x y Hle Hne. apply str_leb_iff in Hle. tauto.
  - apply sort_by_sorted; [apply String.leb_total|apply str_leb_trans].
  - eapply Permutation_NoDup; [apply sort_by_perm|].
    apply drop_duplicates_NoDup.
Qed.

Lemma group_keys_nonempty key rows : rows <> [] -> group_keys key rows <> [].
Proof.
  destruct rows as [|r rows]; [congruence|]. intros _ E.
  assert (H : In (key r) (group_keys key (r :: rows))).
  { apply group_keys_In. exists r. split; [now left|reflexivity]. }
  rewrite E in H. exact H.
Qed.

Lemma group_rows_nonempty key rows k :
  In k (group_keys key rows) -> group_rows key k rows <> [].
Proof.
  intros H. apply group_keys_In in H as (r & Hr & Hk).
  assert (Hin : In r (group_rows key k rows)).
  { apply filter_In. split; [exact Hr|]. now apply String.eqb_eq. }
  intros E. rewrite E in Hin. exact Hin.
Qed.

(** ** Extremes *)

Lemma mem_In c cs : mem c cs = true <-> In c cs.
Proof.
  unfold mem. rewrite existsb_exists. split.
  - intros (x & Hx & E). apply String.eqb_eq in E. now subst.
  - intros H. exists c. split; [exact H|apply String.eqb_refl].
Qed.

Lemma col_index_In c cs : In c cs -> exists i, col_index c cs = Some i.
Proof.
  induction cs as [|c' cs IH]; simpl; [tauto|].
  intros H. destruct (String.eqb_spec c c') as [->|Hne]; [eauto|].
  destruct H as [H|H]; [congruence|].
  destruct (IH H) as [i ->]. simpl. eauto.
Qed.

Lemma fold_max_spec (l : list Q) (a : Q) :
  let m := fold_left (fun a b => if Qle_bool a b then b else a) l a in
  (m = a \/ In m l) /\ (a <= m)%Q /\ (forall y, In y l -> y <= m)%Q.
Proof.
  revert a. induction l as [|x l IH]; intros a; simpl.
  - split; [now left|]. split; [apply Qle_refl|tauto].
  - destruct (Qle_bool a x) eqn:E.
    + apply Qle_bool_iff in E.
      destruct (IH x) as (H1 & H2 & H3).
      split; [destruct H1 as [->|H1]; tauto|].
      split; [eapply Qle_trans; eauto|].
      intros y [<-|Hy]; auto.
    + assert (Hlt : (x <= a)%Q).
      { destruct (Qlt_le_dec a x) as [H|H]; [|exact H].
        apply Qlt_le_weak, Qle_bool_iff in H. congruence. }
      destruct (IH a) as (H1 & H2 & H3).
      split; [tauto|]. split; [exact H2|].
      intros y [<-|Hy]; [eapply Qle_trans; eauto|auto].
Qed.


Lemma q_max_spec (l : list Q) :
  l <> [] -> In (q_max l) l /\ (forall y, In y l -> y <= q_max l)%Q.
Proof.
  destruct l as [|x l]; [congruence|]. intros _. unfold q_max.
  destruct (fold_max_spec l x) as (H1 & H2 & H3). simpl.
  split; [destruct H1 as [->|H1]; tauto|].
  intros y [<-|Hy]; auto.
Qed.






(** [', '.join]: one name is reported as it is, and each further name
    follows a comma and a space. *)
Lemma join_one (a : string) : join [a] = a.
Proof. reflexivity. Qed.






(** ** Period buckets *)

Lemma map_result_ok {A B : Type} (f : A -> result B) (g : A -> B)
    (xs : list A) :
  (forall x, In x xs -> f x = ret (g x)) ->
  map_result f xs = ret (map g xs).
Proof.
  induction xs as [|x xs IH]; intros H; simpl; [reflexivity|].
  rewrite (H x) by now left. simpl.
  rewrite IH by (intros y Hy; apply H; now right).
  reflexivity.
Qed.

Lemma observed_months_In df p :
  In p (observed_months df) <-> In p (months_of (df_rows df)).
Proof.
  unfold observed_months. rewrite sort_by_In, drop_duplicates_In.
  reflexivity.
Qed.

Lemma observed_months_length df :
  List.length (observed_months df) = distinct_months (df_rows df).
Proof.
  unfold observed_months. rewrite sort_by_length.
  apply drop_duplicates_length.
Qed.

Lemma observed_months_sorted df :
  StronglySorted period_lt (observed_months df).
Proof.
  unfold observed_months.
  apply (sorted_nodup_strict period_leb).
  - intros x y Hle Hne. apply period_leb_iff in Hle. tauto.
  - apply sort_by_sorted; [apply period_leb_total|apply period_leb_trans].
  - eapply Permutation_NoDup; [apply sort_by_perm|].
    apply drop_duplicates_NoDup.
Qed.

Lemma dict_get_set_other {V : Type} (d : list (string * V)) (k k' : string)
    (v : V) :
  k <> k' -> dict_get (dict_set d k' v) k = dict_get d k.
Proof.
  intros Hne. induction d as [|[k0 v0] d IH]; simpl.
  - destruct (String.eqb_spec k k'); [contradiction|reflexivity].
  - destruct (String.eqb_spec k' k0) as [->|Hk]; simpl.
    + destruct (String.eqb_spec k k0); [contradiction|reflexivity].
    + destruct (String.eqb_spec k k0); [reflexivity|exact IH].
Qed.

Lemma fill_directions_keeps level suffix route_data i o t row k :
  k = "Year" \/ k = "Month" ->
  dict_get (fill_directions level suffix route_data i o t row) k
  = dict_get row k.
Proof.
  intros Hk. unfold fill_directions, dict_update. simpl.
  rewrite !dict_get_set_other; [reflexivity| | | | | |];
    destruct Hk as [-> | ->]; discriminate.
Qed.

Lemma fill_directions_period level suffix route_data i o t row :
  row_period (fill_directions level suffix route_data i o t row)
  = row_period row.
Proof.
  unfold row_period. rewrite !fill_directions_keeps by tauto. reflexivity.
Qed.

Lemma groupby_agg_ok group_col agg_dict df :
  agg_dict <> [] -> agg_missing df agg_dict = [] ->
  exists aggregated,
    groupby_agg group_col agg_dict df = ret aggregated
    /\ g_columns aggregated = column_name group_col :: map agg_key agg_dict
    /\ g_rows aggregated
       = map (fun k =>
                (k, map (fun e =>
                           agg_cell e
                             (group_rows (name_value group_col) k (df_rows df)))
                      agg_dict))
           (group_keys (name_value group_col) (df_rows df)).
Proof.
  intros Hne Hmiss. unfold groupby_agg.
  destruct agg_dict as [|e es]; [congruence|].
  rewrite Hmiss. eexists. split; [reflexivity|]. split; reflexivity.
Qed.

Lemma col_mapping_full_frame traffic_type i o t u rows :
  col_mapping traffic_type = Some (i, o, t, u) ->
  missing_columns (full_frame rows) [i; o; t] = [].
Proof.
  unfold col_mapping.
  destruct (String.eqb traffic_type "Passengers");
    [intros H; inversion H; reflexivity|].
  destruct (String.eqb traffic_type "Freight");
    [intros H; inversion H; reflexivity|].
  destruct (String.eqb traffic_type "Mail");
    [intros H; inversion H; reflexivity|discriminate].
Qed.

(** C7: under monthly granularity there is one output row per distinct
    (Year, Month) pair of the filtered records, the rows come in
    strictly ascending (Year, Month) order, and a month without a
    record in the filtered set has no row. *)
Theorem monthly_buckets
    (rows : list TrafficRecord) (sy sm ey em : Z)
    (traffic_level traffic_type : string)
    (group_col : name_column) (agg_dict : list agg_entry) :
  let filtered :=
    df_rows (filter_data_by_period (full_frame rows) sy sm ey em) in
  mem traffic_type ["Passengers"; "Freight"; "Mail"] = true ->
  mem traffic_level ["Most"; "Least"] = true ->
  agg_dict <> [] -> agg_missing (full_frame rows) agg_dict = [] ->
  exists (periods : list (Z * Z)) (out : list Row)
         (results : list PeriodResult),
    analyze_traffic_routes (full_frame rows) sy sm ey em
      traffic_level traffic_type "Month" = ret out
    /\ filter_and_aggregate_by_period (full_frame rows) sy sm ey em
         group_col agg_dict "Month" = ret results
    /\ map row_period out = map (fun p => Some (fst p, Some (snd p))) periods
    /\ map fst results = map (fun p => (fst p, Some (snd p))) periods
    /\ List.length out = distinct_months filtered
    /\ List.length results = distinct_months filtered
    /\ StronglySorted period_lt periods
    /\ (forall y m, In (y, m) periods
                    <-> exists r, In r filtered /\ Year r = y /\ Month r = m).
Proof.
  intros filtered Htype Hlevel Hne Hmiss.
  set (fdf := filter_data_by_period (full_frame rows) sy sm ey em).
  exists (observed_months fdf).
  assert (Hlen : List.length (observed_months fdf) = distinct_months filtered)
    by apply observed_months_length.
  (* the rows of analyze_traffic_routes *)
  destruct (col_mapping traffic_type) as [[[[i o] t] u]|] eqn:Hc;
    [|apply col_mapping_None in Hc; congruence].
  pose proof (col_mapping_full_frame _ _ _ _ _ rows Hc) as Hcols.
  set (row_of := fun ym : Z * Z =>
         fill_directions traffic_level u
           (mkGrouped [i; o; t]
              (map (fun k =>
                      (k, map (fun c =>
                                 qsum (map (metric_or_zero c)
                                         (group_rows Route k
                                            (filter (fun r =>
                                                       (Year r =? fst ym)
                                                       && (Month r =? snd ym))
                                               (df_rows fdf)))))
                            [i; o; t]))
                 (group_keys Route
                    (filter (fun r => (Year r =? fst ym)
                                      && (Month r =? snd ym))
                       (df_rows fdf)))))
           i o t [("Year", CInt (fst ym)); ("Month", CInt (snd ym))]).
  set (agg_of := fun ym : Z * Z =>
         (fst ym, Some (snd ym),
          mkGrouped (column_name group_col :: map agg_key agg_dict)
            (map (fun k =>
                    (k, map (fun e =>
                               agg_cell e
                                 (group_rows (name_value group_col) k
                                    (filter (fun r =>
                                               (Year r =? fst ym)
                                               && (Month r =? snd ym))
                                       (df_rows fdf))))
                          agg_dict))
               (group_keys (name_value group_col)
                  (filter (fun r => (Year r =? fst ym)
                                    && (Month r =? snd ym))
                     (df_rows fdf))))) : PeriodResult).
  exists (map row_of (observed_months fdf)),
         (map agg_of (observed_months fdf)).
  split.
  { unfold analyze_traffic_routes. rewrite Hc, Hlevel. cbn [negb mem existsb].
    simpl String.eqb. cbn [orb negb].
    apply map_result_ok. intros ym _.
    unfold traffic_routes_row, groupby_sum.
    change (missing_columns _ [i; o; t])
      with (missing_columns (full_frame rows) [i; o; t]).
    rewrite Hcols. reflexivity. }
  split.
  { unfold filter_and_aggregate_by_period. simpl String.eqb. cbv iota.
    apply map_result_ok. intros ym _.
    unfold groupby_agg. destruct agg_dict as [|e es]; [congruence|].
    change (agg_missing _ (e :: es))
      with (agg_missing (full_frame rows) (e :: es)).
    rewrite Hmiss. reflexivity. }
  split.
  { rewrite map_map. apply map_ext. intros ym. unfold row_of.
    rewrite fill_directions_period. reflexivity. }
  split; [rewrite map_map; reflexivity|].
  split; [now rewrite length_map|].
  split; [now rewrite length_map|].
  split; [apply observed_months_sorted|].
  intros y m. rewrite observed_months_In. unfold months_of.
  rewrite in_map_iff. split.
  - intros (r & E & Hr). inversion E; subst. eauto.
  - intros (r & Hr & <- & <-). eauto.
Qed.

Lemma monthly_buckets_witness :
  exists out,
    analyze_traffic_routes (full_frame january_1985) 1985 1 1985 12
      "Most" "Passengers" "Month" = ret out
    /\ List.length out
       = distinct_months
           (df_rows (filter_data_by_period (full_frame january_1985)
                       1985 1 1985 12)).
Proof.
  destruct (monthly_buckets january_1985 1985 1 1985 12 "Most" "Passengers"
              ColAustralianPort hub_agg_dict)
    as (periods & out & results & H1 & _ & _ & _ & H5 & _);
    try reflexivity; [discriminate|].
  exists out. split; assumption.
Defined.

(** ** Hub utilization *)

Lemma map_result_total {A B : Type} (f : A -> result B) (xs : list A) :
  (forall x, In x xs -> exists y, f x = ret y) ->
  exists ys, map_result f xs = ret ys.
Proof.
  induction xs as [|x xs IH]; intros H; simpl; [eexists; reflexivity|].
  destruct (H x) as [y Hy]; [now left|]. rewrite Hy. simpl.
  destruct IH as [ys Hys]; [intros z Hz; apply H; now right|].
  rewrite Hys. simpl. eexists; reflexivity.
Qed.

Lemma map_result_inv {A B : Type} (f : A -> result B) (xs : list A)
    (ys : list B) :
  map_result f xs = ret ys ->
  forall y, In y ys -> exists x, In x xs /\ f x = ret y.
Proof.
  revert ys. induction xs as [|x xs IH]; simpl; intros ys H y Hy.
  - inversion H; subst. destruct Hy.
  - destruct (f x) as [e|b] eqn:Hf; simpl in H; [discriminate|].
    destruct (map_result f xs) as [e|bs] eqn:Hm; simpl in H; [discriminate|].
    inversion H; subst. destruct Hy as [<-|Hy].
    + exists x. split; [now left|exact Hf].
    + destruct (IH bs eq_refl y Hy) as (x' & Hx' & Hfx').
      exists x'. split; [now right|exact Hfx'].
Qed.

Lemma groupby_agg_inv group_col agg_dict df aggregated :
  groupby_agg group_col agg_dict df = ret aggregated ->
  aggregated
  = mkGrouped (column_name group_col :: map agg_key agg_dict)
      (map (fun k =>
              (k, map (fun e =>
                         agg_cell e
                           (group_rows (name_value group_col) k (df_rows df)))
                    agg_dict))
         (group_keys (name_value group_col) (df_rows df))).
Proof.
  unfold groupby_agg. destruct agg_dict as [|e es]; [discriminate|].
  destruct (agg_missing df (e :: es)); [|discriminate].
  intros H. inversion H. reflexivity.
Qed.

(** Each table of [filter_and_aggregate_by_period] is the aggregation of
    some frame. *)
Lemma period_results_inv df sy sm ey em group_col agg_dict aggregate_by
    period_results year month aggregated :
  filter_and_aggregate_by_period df sy sm ey em group_col agg_dict aggregate_by
  = ret period_results ->
  In (year, month, aggregated) period_results ->
  exists period_data,
    groupby_agg group_col agg_dict period_data = ret aggregated.
Proof.
  unfold filter_and_aggregate_by_period.
  destruct (String.eqb aggregate_by "Month"); intros H Hin;
    destruct (map_result_inv _ _ _ H _ Hin) as (x & _ & Hx);
    match type of Hx with
    | bind (groupby_agg _ _ ?pd) _ = _ =>
        exists pd; destruct (groupby_agg group_col agg_dict pd);
        simpl in Hx; [discriminate|]; inversion Hx; reflexivity
    end.
Qed.

Lemma filter_and_aggregate_total df sy sm ey em group_col agg_dict
    aggregate_by :
  agg_dict <> [] -> agg_missing df agg_dict = [] ->
  exists period_results,
    filter_and_aggregate_by_period df sy sm ey em group_col agg_dict
      aggregate_by = ret period_results.
Proof.
  intros Hne Hmiss. unfold filter_and_aggregate_by_period.
  destruct (String.eqb aggregate_by "Month");
    apply map_result_total; intros x _;
    match goal with
    | |- exists y, bind (groupby_agg _ _ ?pd) _ = _ =>
        destruct (groupby_agg_ok group_col agg_dict pd Hne Hmiss)
          as (a & Ha & _); rewrite Ha; simpl; eexists; reflexivity
    end.
Qed.

Lemma restrict_ports_columns specific_ports df :
  df_columns (restrict_ports specific_ports df) = df_columns df.
Proof. destruct specific_ports as [[|p ps]|]; reflexivity. Qed.

Lemma agg_missing_columns df df' agg_dict :
  df_columns df = df_columns df' ->
  agg_missing df agg_dict = agg_missing df' agg_dict.
Proof.
  intros E. unfold agg_missing, df_metric. now rewrite E.
Qed.

Lemma nunique_pos (names : list string) : names <> [] -> (1 <= nunique names)%Q.
Proof.
  intros H. unfold nunique.
  pose proof (drop_duplicates_nonempty string_dec names H) as Hd.
  destruct (drop_duplicates string_dec names) as [|n ns]; [congruence|].
  unfold Qle; simpl. lia.
Qed.

Lemma hub_routes_pos period_data hub_data row :
  groupby_agg ColAustralianPort hub_agg_dict period_data = ret hub_data ->
  In row (g_rows hub_data) -> (1 <= agg_value 3 row)%Q.
Proof.
  intros H Hrow. apply groupby_agg_inv in H. subst hub_data.
  simpl in Hrow. apply in_map_iff in Hrow as (k & <- & Hk).
  unfold agg_value, g_value; simpl.
  apply nunique_pos. intros E. apply map_eq_nil in E.
  revert E. now apply group_rows_nonempty.
Qed.

(** C9: every port of a bucket's grouped table aggregates at least one
    record, so its number of distinct routes is at least 1; whatever the
    route threshold (zero and negative ones included), each
    [utilizationScore] is a quotient by a number that is at least 1. *)
Theorem utilization_division_safe
    (df : DataFrame) (sy sm ey em : Z) (aggregate_by : string)
    (specific_ports : option (list string)) :
  let filtered_df :=
    restrict_ports specific_ports (filter_data_by_period df sy sm ey em) in
  (agg_missing df hub_agg_dict = [] ->
   exists period_results,
     filter_and_aggregate_by_period filtered_df sy sm ey em
       ColAustralianPort hub_agg_dict aggregate_by = ret period_results)
  /\ (forall period_results year month hub_data,
        filter_and_aggregate_by_period filtered_df sy sm ey em
          ColAustralianPort hub_agg_dict aggregate_by = ret period_results ->
        In (year, month, hub_data) period_results ->
        (forall row, In row (g_rows hub_data) -> (1 <= agg_value 3 row)%Q)
        /\ (forall (min_routes_threshold : Q) (weights : cargo_weights) h,
              In h (hub_entities weights min_routes_threshold hub_data) ->
              (1 <= Unique_Routes h)%Q
              /\ utilizationScore h
                 = Fin (totalPassengerEquiv h / Unique_Routes h))).
Proof.
  intros filtered_df. split.
  - intros Hmiss. apply filter_and_aggregate_total; [discriminate|].
    rewrite <- Hmiss. apply agg_missing_columns.
    unfold filtered_df. now rewrite restrict_ports_columns.
  - intros prs year month hub_data Hprs Hin.
    destruct (period_results_inv _ _ _ _ _ _ _ _ _ _ _ _ Hprs Hin)
      as (period_data & Hagg).
    assert (Hrows : forall row, In row (g_rows hub_data) ->
                                (1 <= agg_value 3 row)%Q)
      by (intros row; apply (hub_routes_pos period_data hub_data row Hagg)).
    split; [exact Hrows|].
    intros threshold weights h Hh.
    unfold hub_entities in Hh. apply in_map_iff in Hh as (row & <- & Hrow).
    apply filter_In in Hrow as [Hrow _].
    specialize (Hrows row Hrow). simpl.
    split; [exact Hrows|].
    apply qdiv_nonzero. intros E. rewrite E in Hrows.
    revert Hrows. unfold Qle; simpl. lia.
Qed.

Lemma utilization_division_safe_witness :
  (exists period_results,
     filter_and_aggregate_by_period
       (restrict_ports None
          (filter_data_by_period (full_frame january_1985) 1985 1 1985 12))
       1985 1 1985 12 ColAustralianPort hub_agg_dict "Year"
     = ret period_results)
  /\ (1 <= agg_value 3 ("Sydney", [180; 0; 0; 1]%Q))%Q.
Proof.
  pose proof (utilization_division_safe (full_frame january_1985)
                1985 1 1985 12 "Year" None) as [H1 H2].
  split; [apply H1; reflexivity|].
  apply (proj1 (H2 [(1985, None, january_1985_hubs)] 1985 None
                  january_1985_hubs eq_refl (or_introl eq_refl))).
  simpl. tauto.
Defined.

(** ** Regional growth *)

Lemma year_country_leb_iff p q :
  year_country_leb p q = true <-> year_country_lt p q \/ p = q.
Proof.
  destruct p as [y c], q as [y' c'].
  unfold year_country_leb, year_country_lt; simpl.
  rewrite orb_true_iff, andb_true_iff, Z.ltb_lt, Z.eqb_eq, str_leb_iff.
  split.
  - intros [H|[H1 [H2|H2]]]; subst; tauto.
  - intros [[H|[H1 H2]]|H]; [tauto|tauto|].
    inversion H; subst. tauto.
Qed.

Lemma year_country_lt_trans p q r :
  year_country_lt p q -> year_country_lt q r -> year_country_lt p r.
Proof.
  unfold year_country_lt.
  intros [H1|[H1 H1']] [H2|[H2 H2']]; try (left; lia).
  right. split; [lia|]. eapply str_lt_trans; eauto.
Qed.

Lemma year_country_leb_total p q :
  year_country_leb p q = true \/ year_country_leb q p = true.
Proof.
  destruct p as [y c], q as [y' c']. unfold year_country_leb; simpl.
  rewrite !orb_true_iff, !andb_true_iff, !Z.ltb_lt, !Z.eqb_eq.
  destruct (Z.lt_trichotomy y y') as [L|[L|L]];
    [left; left; exact L| |right; left; exact L].
  subst. destruct (String.leb_total c c'); [left|right]; right; split; auto.
Qed.

Lemma year_country_leb_trans p q r :
  year_country_leb p q = true -> year_country_leb q r = true ->
  year_country_leb p r = true.
Proof.
  rewrite !year_country_leb_iff.
  intros [H1 | ->] [H2 | ->]; auto.
  left. eapply year_country_lt_trans; eauto.
Qed.

Lemma year_country_keys_In rows y c :
  In (y, c) (year_country_keys rows)
  <-> exists r, In r rows /\ Year r = y /\ Country r = c.
Proof.
  unfold year_country_keys.
  rewrite sort_by_In, drop_duplicates_In, in_map_iff. split.
  - intros (r & E & Hr). inversion E; subst. eauto.
  - intros (r & Hr & <- & <-). eauto.
Qed.

Lemma year_country_keys_sorted rows :
  StronglySorted year_country_lt (year_country_keys rows).
Proof.
  unfold year_country_keys.
  apply (sorted_nodup_strict year_country_leb).
  - intros x y Hle Hne. apply year_country_leb_iff in Hle. tauto.
  - apply sort_by_sorted;
      [apply year_country_leb_total|apply year_country_leb_trans].
  - eapply Permutation_NoDup; [apply sort_by_perm|].
    apply drop_duplicates_NoDup.
Qed.

Lemma yearly_keys rows :
  map yc_key (yearly_country_totals rows) = year_country_keys rows.
Proof.
  unfold yearly_country_totals. rewrite map_map.
  rewrite <- (map_id (year_country_keys rows)) at 2.
  apply map_ext. intros [y c]. reflexivity.
Qed.

Lemma yearly_total rows y c v :
  In (y, c, v) (yearly_country_totals rows) ->
  v = country_year_total rows y c.
Proof.
  unfold yearly_country_totals. rewrite in_map_iff.
  intros ([y' c'] & E & _). simpl in E. now inversion E.
Qed.

Lemma yearly_In rows y c :
  In (y, c) (year_country_keys rows) ->
  In (y, c, country_year_total rows y c) (yearly_country_totals rows).
Proof.
  intros H. unfold yearly_country_totals.
  apply in_map_iff. exists (y, c). split; [reflexivity|exact H].
Qed.

(** *** The shifted column *)

Lemma dict_get_set_same {V : Type} (d : list (string * V)) (k : string)
    (v : V) :
  dict_get (dict_set d k v) k = Some v.
Proof.
  induction d as [|[k0 v0] d IH]; simpl.
  - now rewrite String.eqb_refl.
  - destruct (String.eqb_spec k k0) as [->|Hk]; simpl.
    + now rewrite String.eqb_refl.
    + destruct (String.eqb_spec k k0); [contradiction|exact IH].
Qed.

Lemma latest_totals_other pre last c :
  (forall r, In r pre -> snd (fst r) <> c) ->
  dict_get (latest_totals pre last) c = dict_get last c.
Proof.
  revert last. induction pre as [|r pre IH]; intros last H; simpl;
    [reflexivity|].
  unfold latest_totals in *. simpl. rewrite IH.
  - apply dict_get_set_other. intros E. apply (H r); [now left|now symmetry].
  - intros r' Hr'. apply H. now right.
Qed.

Lemma latest_totals_last p1 y c v p2 last :
  (forall r, In r p2 -> snd (fst r) <> c) ->
  dict_get (latest_totals (p1 ++ (y, c, v) :: p2) last) c = Some v.
Proof.
  intros H. unfold latest_totals. rewrite fold_left_app. simpl.
  fold (latest_totals p1 last).
  fold (latest_totals p2 (dict_set (latest_totals p1 last) c v)).
  rewrite latest_totals_other by exact H.
  apply dict_get_set_same.
Qed.


Lemma with_growth_eq yearly :
  with_growth yearly
  = map (fun rp => growth_row (fst rp) (snd rp))
      (combine yearly (shift_by_country yearly [])).
Proof.
  unfold with_growth. apply map_ext. intros [[[y c] v] prev]. reflexivity.
Qed.

Lemma shifted_In yearly last g :
  In g (map (fun rp => growth_row (fst rp) (snd rp))
          (combine yearly (shift_by_country yearly last)))
  <-> exists pre r post,
        yearly = (pre ++ r :: post)%list
        /\ g = growth_row r
                 (previous_of (latest_totals pre last) (snd (fst r))).
Proof.
  revert last. induction yearly as [|[[y c] v] yearly IH]; intros last.
  - simpl. split; [tauto|]. intros (pre & r & post & E & _).
    destruct pre; discriminate.
  - simpl. rewrite IH. split.
    + intros [<-|(pre & r & post & E & ->)].
      * exists [], (y, c, v), yearly. split; reflexivity.
      * exists ((y, c, v) :: pre), r, post. split; [now rewrite E|].
        reflexivity.
    + intros (pre & r & post & E & ->).
      destruct pre as [|r0 pre]; simpl in E; inversion E; subst.
      * left. reflexivity.
      * right. exists pre, r, post. split; reflexivity.
Qed.

Lemma with_growth_In yearly g :
  In g (with_growth yearly)
  <-> exists pre r post,
        yearly = (pre ++ r :: post)%list
        /\ g = growth_row r (previous_of (latest_totals pre []) (snd (fst r))).
Proof. rewrite with_growth_eq. apply shifted_In. Qed.

(** *** The latest year *)

Lemma fold_zmax_spec (l : list Z) (a : Z) :
  let m := fold_left Z.max l a in
  (m = a \/ In m l) /\ a <= m /\ (forall y, In y l -> y <= m).
Proof.
  revert a. induction l as [|x l IH]; intros a; simpl.
  - split; [now left|]. split; [lia|tauto].
  - destruct (IH (Z.max a x)) as (H1 & H2 & H3).
    split.
    + destruct H1 as [H1|H1]; [|tauto].
      rewrite H1. destruct (Z.max_spec a x) as [[_ ->]|[_ ->]]; tauto.
    + split; [lia|]. intros y [<-|Hy]; [lia|auto].
Qed.

Lemma max_year_spec rows m :
  max_year rows = Some m ->
  (exists r, In r rows /\ gr_year r = m)
  /\ (forall r, In r rows -> gr_year r <= m).
Proof.
  destruct rows as [|r rows]; [discriminate|]. simpl.
  intros E. inversion E as [Hm]. clear E.
  destruct (fold_zmax_spec (map gr_year rows) (gr_year r)) as (H1 & H2 & H3).
  simpl in *. split.
  - destruct H1 as [H1|H1].
    + exists r. split; [now left|]. now rewrite H1.
    + apply in_map_iff in H1 as (r' & E & Hr').
      exists r'. split; [now right|exact E].
  - intros r' [<-|Hr']; [exact H2|].
    apply H3. now apply in_map.
Qed.

Lemma latest_growth_In yearly g :
  In g (latest_growth yearly)
  <-> In g yearly
      /\ (forall r, In r yearly -> gr_year r <= gr_year g)
      /\ is_nan (prev_year_passengers g) = false
      /\ is_nan (growth_rate g) = false.
Proof.
  unfold latest_growth, dropna.
  destruct (max_year yearly) as [m|] eqn:Hm.
  - destruct (max_year_spec _ _ Hm) as [(r0 & Hr0 & Hy0) Hmax].
    rewrite !filter_In, andb_true_iff, !negb_true_iff, Z.eqb_eq.
    split.
    + intros [[Hg Hy] [Hp Hr]]. repeat split; auto.
      intros r Hr'. rewrite Hy. now apply Hmax.
    + intros (Hg & Hle & Hp & Hr). repeat split; auto.
      specialize (Hle r0 Hr0). specialize (Hmax g Hg). lia.
  - destruct yearly; [|discriminate]. simpl. tauto.
Qed.

(** *** The order of growth rates *)

Lemma Qle_bool_total (a b : Q) : Qle_bool a b = true \/ Qle_bool b a = true.
Proof.
  rewrite !Qle_bool_iff.
  destruct (Qlt_le_dec a b) as [H|H]; [left; now apply Qlt_le_weak|now right].
Qed.

Lemma xleb_total x y :
  is_nan x = false -> is_nan y = false ->
  xleb x y = true \/ xleb y x = true.
Proof.
  destruct x, y; simpl; try discriminate; auto.
  intros _ _. apply Qle_bool_total.
Qed.

Lemma xleb_trans x y z :
  xleb x y = true -> xleb y z = true -> xleb x z = true.
Proof.
  destruct x, y, z; simpl; try discriminate; auto.
  rewrite !Qle_bool_iff. apply Qle_trans.
Qed.

(** *** [head] *)

Lemma firstn_In {A : Type} (n : nat) (l : list A) (x : A) :
  In x (firstn n l) -> In x l.
Proof.
  intros H. rewrite <- (firstn_skipn n l). apply in_or_app. now left.
Qed.

Lemma firstn_sorted {A : Type} (R : A -> A -> Prop) (n : nat) (l : list A) :
  StronglySorted R l -> StronglySorted R (firstn n l).
Proof.
  intros H. revert n. induction H as [|x l Hs IH Hall]; intros [|n]; simpl;
    try constructor; auto.
  rewrite Forall_forall in *. intros y Hy. apply Hall.
  eapply firstn_In; eauto.
Qed.

Lemma head_In {A : Type} (n : Z) (l : list A) (x : A) :
  In x (head n l) -> In x l.
Proof. unfold head. destruct (0 <=? n); apply firstn_In. Qed.

Lemma head_sorted {A : Type} (R : A -> A -> Prop) (n : Z) (l : list A) :
  StronglySorted R l -> StronglySorted R (head n l).
Proof. unfold head. destruct (0 <=? n); apply firstn_sorted. Qed.

Lemma head_length {A : Type} (n : Z) (l : list A) :
  0 <= n -> Z.of_nat (List.length (head n l)) <= n.
Proof.
  intros H. unfold head. apply Z.leb_le in H as E. rewrite E.
  pose proof (firstn_le_length (Z.to_nat n) l). 
  rewrite length_firstn. lia.
Qed.

Lemma head_all {A : Type} (n : Z) (l : list A) :
  Z.of_nat (List.length l) <= n -> head n l = l.
Proof.
  intros H. unfold head.
  assert (E : (0 <=? n) = true) by (apply Z.leb_le; lia).
  rewrite E. apply firstn_all2. lia.
Qed.

Lemma StronglySorted_app_cross {A : Type} (R : A -> A -> Prop)
    (l1 l2 : list A) :
  StronglySorted R (l1 ++ l2) ->
  forall a b, In a l1 -> In b l2 -> R a b.
Proof.
  induction l1 as [|x l1 IH]; simpl; intros H a b Ha Hb; [destruct Ha|].
  inversion H as [|? ? Hs Hall]; subst.
  destruct Ha as [<-|Ha].
  - rewrite Forall_forall in Hall. apply Hall, in_or_app. now right.
  - now apply IH.
Qed.

(** What [head] leaves out of a sorted table: a row is kept, or the
    table is cut and no kept row comes after it in the order. *)
Lemma firstn_selection {A : Type} (R : A -> A -> Prop) (k : nat)
    (l : list A) (b : A) :
  StronglySorted R l -> In b l ->
  In b (firstn k l)
  \/ (List.length (firstn k l) = k /\ forall a, In a (firstn k l) -> R a b).
Proof.
  intros Hs Hb. rewrite <- (firstn_skipn k l) in Hb, Hs.
  apply in_app_or in Hb as [Hb|Hb]; [now left|]. right. split.
  - apply firstn_length_le.
    destruct (Nat.le_gt_cases k (List.length l)) as [H|H]; [exact H|].
    rewrite skipn_all2 in Hb by lia. destruct Hb.
  - intros a Ha. eapply StronglySorted_app_cross; eauto.
Qed.

Lemma head_selection {A : Type} (R : A -> A -> Prop) (n : Z)
    (l : list A) (b : A) :
  StronglySorted R l -> In b l ->
  In b (head n l)
  \/ ((0 <= n -> Z.of_nat (List.length (head n l)) = n)
      /\ forall a, In a (head n l) -> R a b).
Proof.
  intros Hs Hb. unfold head. destruct (0 <=? n) eqn:E.
  - apply Z.leb_le in E.
    destruct (firstn_selection R (Z.to_nat n) l b Hs Hb) as [H|[H1 H2]];
      [now left|right].
    split; [intros _; rewrite H1; lia|exact H2].
  - apply Z.leb_gt in E.
    destruct (firstn_selection R (List.length l - Z.to_nat (- n)) l b Hs Hb)
      as [H|[H1 H2]]; [now left|right].
    split; [lia|exact H2].
Qed.

Lemma head_NoDup {A B : Type} (key : A -> B) (n : Z) (l : list A) :
  NoDup (map key l) -> NoDup (map key (head n l)).
Proof.
  intros H. unfold head.
  destruct (0 <=? n);
    match goal with
    | |- NoDup (map key (firstn ?k l)) =>
        rewrite <- (firstn_skipn k l), map_app in H;
        now apply NoDup_app_remove_r in H
    end.
Qed.

(** *** The rows of the growth table *)

Lemma StronglySorted_app_inv {A : Type} (R : A -> A -> Prop)
    (l1 l2 : list A) (x : A) :
  StronglySorted R (l1 ++ x :: l2) ->
  Forall (fun a => R a x) l1 /\ Forall (R x) l2.
Proof.
  induction l1 as [|a l1 IH]; simpl; intros H.
  - inversion H; subst. split; [constructor|assumption].
  - inversion H as [|? ? Hs Hall]; subst.
    destruct (IH Hs) as [H1 H2]. split; [|exact H2].
    constructor; [|exact H1].
    rewrite Forall_forall in Hall. apply Hall.
    apply in_or_app. right. now left.
Qed.

Lemma yearly_split rows pre r post :
  yearly_country_totals rows = (pre ++ r :: post)%list ->
  (forall r', In r' pre -> year_country_lt (yc_key r') (yc_key r))
  /\ (forall r', In r' post -> year_country_lt (yc_key r) (yc_key r')).
Proof.
  intros E.
  pose proof (year_country_keys_sorted rows) as Hs.
  rewrite <- yearly_keys, E, map_app in Hs. simpl in Hs.
  apply StronglySorted_app_inv in Hs as [H1 H2].
  rewrite Forall_forall in H1, H2.
  split; intros r' Hr'; [apply H1|apply H2]; now apply in_map.
Qed.

Lemma yearly_record rows r :
  In r (yearly_country_totals rows) ->
  exists t, In t rows /\ Year t = fst (fst r) /\ Country t = snd (fst r).
Proof.
  intros H. apply (in_map yc_key) in H. rewrite yearly_keys in H.
  destruct r as [[y c] v]. now apply year_country_keys_In.
Qed.

Lemma with_growth_record rows g :
  In g (with_growth (yearly_country_totals rows)) ->
  exists t, In t rows /\ Year t = gr_year g /\ Country t = gr_country g.
Proof.
  intros H. apply with_growth_In in H as (pre & r & post & E & ->).
  apply yearly_record. rewrite E. apply in_or_app. right. now left.
Qed.



Lemma analyze_regional_growth rows sy sm ey em top_n :
  analyze_geographical_patterns (full_frame rows) sy sm ey em
    "regional_growth" top_n
  = ret (RegionalGrowth
           (regional_growth
              (df_rows (filter_data_by_period (full_frame rows) sy sm ey em))
              top_n)).
Proof. reflexivity. Qed.

Lemma regional_growth_In rows top_n g :
  In g (regional_growth rows top_n) ->
  In g (latest_growth (with_growth (yearly_country_totals rows))).
Proof.
  unfold regional_growth, sort_by_growth_desc. intros H.
  apply head_In in H. now apply sort_by_In in H.
Qed.


(** *** The baseline of a growth rate *)

Lemma growth_of_nan (cur base : Q) :
  growth_of cur (Fin base) = NaN <-> (base == 0 /\ cur == 0)%Q.
Proof.
  unfold growth_of, xsub, xneg, xadd, xdiv, qdiv, Qltb.
  destruct (Qeq_bool base 0) eqn:Eb.
  - apply Qeq_bool_iff in Eb.
    destruct (Qle_bool (cur + - base) 0) eqn:E1; simpl.
    + destruct (Qle_bool 0 (cur + - base)) eqn:E2; simpl.
      * apply Qle_bool_iff in E1, E2. split; [intros _|reflexivity].
        split; [exact Eb|]. rewrite Eb in *. lra.
      * split; [discriminate|]. intros [_ Hc].
        assert (H : Qle_bool 0 (cur + - base) = true).
        { apply Qle_bool_iff. rewrite Eb, Hc. lra. }
        congruence.
    + split; [discriminate|]. intros [_ Hc].
      assert (H : Qle_bool (cur + - base) 0 = true).
      { apply Qle_bool_iff. rewrite Eb, Hc. lra. }
      congruence.
  - simpl. split; [discriminate|]. intros [Hb _].
    apply Qeq_bool_iff in Hb. congruence.
Qed.

Lemma growth_of_nonzero (cur base : Q) :
  ~ (base == 0)%Q ->
  growth_of cur (Fin base) = Fin ((cur + - base) / base * 100).
Proof.
  intros H. unfold growth_of, xsub, xneg, xadd, xdiv.
  rewrite (qdiv_nonzero _ _ H). reflexivity.
Qed.

Lemma is_nan_false_iff x : is_nan x = false <-> x <> NaN.
Proof. destruct x; simpl; split; congruence. Qed.

Lemma NoDup_split_unique {A B : Type} (key : A -> B) (l p q p' q' : list A)
    (x x' : A) :
  NoDup (map key l) ->
  l = (p ++ x :: q)%list -> l = (p' ++ x' :: q')%list -> key x = key x' ->
  p = p' /\ x = x'.
Proof.
  intros Hnd E. subst l. revert p'.
  induction p as [|a p IH]; intros p' E Hk; simpl in *.
  - destruct p' as [|a' p']; simpl in E; inversion E; subst; [tauto|].
    exfalso. inversion Hnd as [|? ? Hx _]; subst. apply Hx.
    rewrite Hk, map_app. apply in_or_app. right. now left.
  - destruct p' as [|a' p']; simpl in E; inversion E; subst.
    + exfalso. inversion Hnd as [|? ? Hx _]; subst. apply Hx.
      rewrite <- Hk, map_app. apply in_or_app. right. now left.
    + inversion Hnd; subst.
      destruct (IH ltac:(assumption) p' ltac:(assumption) Hk) as [-> ->].
      tauto.
Qed.

Lemma year_country_keys_NoDup rows : NoDup (year_country_keys rows).
Proof.
  unfold year_country_keys.
  eapply Permutation_NoDup; [apply sort_by_perm|].
  apply drop_duplicates_NoDup.
Qed.

(** The row of a country in a year, when its previous observed year is
    [previous]. *)
Lemma growth_row_of_previous rows c latest previous :
  (exists t, In t rows /\ Year t = latest /\ Country t = c) ->
  (exists t, In t rows /\ Year t = previous /\ Country t = c) ->
  previous < latest ->
  (forall t, In t rows -> Country t = c ->
             Year t <= previous \/ latest <= Year t) ->
  exists pre post,
    yearly_country_totals rows
    = (pre ++ (latest, c, country_year_total rows latest c) :: post)%list
    /\ previous_of (latest_totals pre []) c
       = Fin (country_year_total rows previous c).
Proof.
  intros Hl Hp Hlt Hgap.
  apply year_country_keys_In, yearly_In in Hl, Hp.
  destruct (in_split _ _ Hl) as (pre & post & E).
  exists pre, post. split; [exact E|].
  destruct (yearly_split _ _ _ _ E) as [Hpre Hpost].
  assert (Hin : In (previous, c, country_year_total rows previous c) pre).
  { rewrite E in Hp. apply in_app_or in Hp as [Hp|[Hp|Hp]]; [exact Hp| |].
    - inversion Hp. lia.
    - apply Hpost in Hp. unfold year_country_lt, yc_key in Hp; simpl in Hp.
      destruct Hp as [Hp|[Hp _]]; lia. }
  destruct (in_split _ _ Hin) as (p1 & p2 & E1).
  assert (E2 : yearly_country_totals rows
               = (p1 ++ (previous, c, country_year_total rows previous c)
                     :: (p2 ++ (latest, c, country_year_total rows latest c)
                            :: post))%list).
  { rewrite E, E1, <- app_assoc. reflexivity. }
  destruct (yearly_split _ _ _ _ E2) as [_ Hafter].
  unfold previous_of. rewrite E1, latest_totals_last; [reflexivity|].
  intros r Hr Hc.
  assert (Hr1 : year_country_lt (yc_key r) (latest, c)).
  { apply (Hpre r). rewrite E1. apply in_or_app. right. now right. }
  assert (Hr2 : year_country_lt (previous, c) (yc_key r)).
  { apply (Hafter r). apply in_or_app. now left. }
  assert (Hr3 : In r (yearly_country_totals rows)).
  { rewrite E2. apply in_or_app. right. right. apply in_or_app. now left. }
  apply yearly_record in Hr3 as (t & Ht & Hy & Hct).
  rewrite Hc in Hct. specialize (Hgap t Ht Hct).
  destruct r as [[y c'] v]. unfold year_country_lt, yc_key in *; simpl in *.
  subst c'.
  destruct Hr1 as [Hr1|[_ Hr1]]; [|revert Hr1; apply str_lt_irrefl].
  destruct Hr2 as [Hr2|[_ Hr2]]; [|revert Hr2; apply str_lt_irrefl].
  lia.
Qed.





(** Italy is observed in 1985 and in the latest year 1988, three years
    apart, with no passengers in either: its growth rate is 0/0, and it
    is not in the output. *)
Lemma zero_baseline_country_absent :
  let filtered :=
    df_rows (filter_data_by_period (full_frame growth_sample)
               1985 1 1989 12) in
  (exists t, In t filtered /\ Year t = 1988 /\ Country t = "Italy")
  /\ (exists t, In t filtered /\ Year t = 1985 /\ Country t = "Italy")
  /\ (forall t, In t filtered -> Year t <= 1988)
  /\ exists table,
       analyze_geographical_patterns (full_frame growth_sample)
         1985 1 1989 12 "regional_growth" 10 = ret (RegionalGrowth table)
       /\ map gr_country table = ["UK"; "Japan"]
       /\ ~ In "Italy" (map gr_country table).
Proof.
  split.
  { exists (sample_record 1988 2 "Adelaide" "Rome" "Italy" 0 0).
    simpl; tauto. }
  split.
  { exists (sample_record 1985 2 "Adelaide" "Rome" "Italy" 0 0).
    simpl; tauto. }
  split.
  { intros t Ht. simpl in Ht.
    repeat (destruct Ht as [<-|Ht]; [simpl; lia|]). destruct Ht. }
  eexists. split; [vm_compute; reflexivity|].
  split; [reflexivity|].
  simpl. intros [H|[H|H]]; try discriminate H. exact H.
Qed.

(** C10 (amended): the baseline of a country's growth rate is its
    aggregate for its previous observed year in the filtered range,
    however many years lie between that year and the latest one; the
    growth is computed across the gap.  The country has a row whenever
    that growth rate is defined, that is unless both aggregates are
    zero, and the row is in the output when the table is not cut by
    topN. *)
Theorem growth_baseline_previous_observed_year
    (rows : list TrafficRecord) (sy sm ey em top_n : Z)
    (c : string) (latest previous : Z) :
  let filtered :=
    df_rows (filter_data_by_period (full_frame rows) sy sm ey em) in
  let yearly := with_growth (yearly_country_totals filtered) in
  let cur := country_year_total filtered latest c in
  let base := country_year_total filtered previous c in
  let row := mkGrowth latest c cur (Fin base) (growth_of cur (Fin base)) in
  (forall t, In t filtered -> Year t <= latest) ->
  (exists t, In t filtered /\ Year t = latest /\ Country t = c) ->
  (exists t, In t filtered /\ Year t = previous /\ Country t = c) ->
  previous < latest ->
  (forall t, In t filtered -> Country t = c ->
             Year t <= previous \/ latest <= Year t) ->
  analyze_geographical_patterns (full_frame rows) sy sm ey em
    "regional_growth" top_n
  = ret (RegionalGrowth (regional_growth filtered top_n))
  /\ In row yearly
  /\ (~ (base == 0)%Q ->
      growth_rate row = Fin ((cur + - base) / base * 100))
  /\ (In row (latest_growth yearly) <-> ~ (base == 0 /\ cur == 0)%Q)
  /\ (forall g, In g (regional_growth filtered top_n) ->
                gr_country g = c -> g = row)
  /\ (~ (base == 0 /\ cur == 0)%Q ->
      Z.of_nat (List.length (latest_growth yearly)) <= top_n ->
      In row (regional_growth filtered top_n)).
Proof.
  intros filtered yearly cur base row Hmax Hl Hp Hlt Hgap.
  destruct (growth_row_of_previous filtered c latest previous Hl Hp Hlt Hgap)
    as (pre & post & E & Hprev).
  assert (Hrow : In row yearly).
  { apply with_growth_In.
    exists pre, (latest, c, cur), post. split; [exact E|].
    unfold growth_row; simpl. rewrite Hprev. reflexivity. }
  assert (Hlg : In row (latest_growth yearly) <-> ~ (base == 0 /\ cur == 0)%Q).
  { rewrite latest_growth_In, <- growth_of_nan. simpl.
    rewrite is_nan_false_iff. split; [tauto|]. intros Hn.
    repeat split; auto.
    intros r Hr. apply with_growth_record in Hr as (t & Ht & <- & _).
    now apply Hmax. }
  split; [apply analyze_regional_growth|].
  split; [exact Hrow|].
  split; [intros Hb; now apply growth_of_nonzero|].
  split; [exact Hlg|].
  split.
  - intros g Hg Hc.
    apply regional_growth_In, latest_growth_In in Hg as (Hg & Hge & _ & _).
    assert (Hy : gr_year g = latest).
    { specialize (Hge row Hrow). simpl in Hge.
      apply with_growth_record in Hg as (t & Ht & Hy & _).
      specialize (Hmax t Ht). lia. }
    apply with_growth_In in Hg as (pre' & r' & post' & E' & ->).
    simpl in Hc, Hy.
    assert (Hk : yc_key (latest, c, cur) = yc_key r').
    { destruct r' as [[y' c'] v']. simpl in *. now subst. }
    destruct (NoDup_split_unique yc_key _ _ _ _ _ _ _
                ltac:(rewrite yearly_keys; apply year_country_keys_NoDup)
                E E' Hk) as [<- <-].
    unfold growth_row; simpl. rewrite Hprev. reflexivity.
  - intros Hn Hlen. unfold regional_growth, sort_by_growth_desc.
    rewrite head_all by now rewrite sort_by_length.
    apply sort_by_In. now apply Hlg.
Qed.

Lemma growth_baseline_previous_observed_year_witness :
  In (mkGrowth 1988 "UK" 200 (Fin 180) (growth_of 200 (Fin 180)))
     (regional_growth
        (df_rows (filter_data_by_period (full_frame growth_sample)
                    1985 1 1989 12)) 10).
Proof.
  assert (Hmax : forall t,
             In t (df_rows (filter_data_by_period (full_frame growth_sample)
                              1985 1 1989 12)) -> Year t <= 1988).
  { intros t Ht. simpl in Ht.
    repeat (destruct Ht as [<-|Ht]; [simpl; lia|]). destruct Ht. }
  assert (Hgap : forall t,
             In t (df_rows (filter_data_by_period (full_frame growth_sample)
                              1985 1 1989 12)) ->
             Country t = "UK" -> Year t <= 1985 \/ 1988 <= Year t).
  { intros t Ht Hc. simpl in Ht.
    repeat (destruct Ht as [<-|Ht];
            [simpl in Hc |- *; first [discriminate Hc|lia]|]).
    destruct Ht. }
  assert (Hl : exists t,
             In t (df_rows (filter_data_by_period (full_frame growth_sample)
                              1985 1 1989 12))
             /\ Year t = 1988 /\ Country t = "UK").
  { exists (sample_record 1988 2 "Adelaide" "London" "UK" 100 100).
    simpl; tauto. }
  assert (Hp : exists t,
             In t (df_rows (filter_data_by_period (full_frame growth_sample)
                              1985 1 1989 12))
             /\ Year t = 1985 /\ Country t = "UK").
  { exists (sample_record 1985 1 "Sydney" "London" "UK" 100 80).
    simpl; tauto. }
  apply (proj2 (proj2 (proj2 (proj2 (proj2
           (growth_baseline_previous_observed_year growth_sample
              1985 1 1989 12 10 "UK" 1988 1985
              Hmax Hl Hp ltac:(lia) Hgap)))))).
  - vm_compute. intros [H _]. discriminate H.
  - vm_compute. discriminate.
Defined.

(** ** Missing data *)

(** Lines 45 and 54: an empty table or a column that the table does not
    have gives the sentinel for that direction. *)
Lemma direction_fields_no_data level suffix route_data col :
  g_empty route_data = true \/ mem col (g_columns route_data) = false ->
  direction_fields level suffix route_data col = ("No data", "No data").
Proof.
  unfold direction_fields. intros [-> | ->]; [reflexivity|].
  now rewrite andb_false_r.
Qed.

Lemma fill_directions_empty level suffix route_data i o t year month :
  g_empty route_data = true ->
  fill_directions level suffix route_data i o t
    [("Year", CInt year); ("Month", CInt month)]
  = [ ("Year", CInt year); ("Month", CInt month);
      ("In_Route", CStr "No data"); ("In_Value", CStr "No data");
      ("Out_Route", CStr "No data"); ("Out_Value", CStr "No data");
      ("Total_Route", CStr "No data"); ("Total_Value", CStr "No data") ].
Proof.
  intros He. unfold fill_directions. simpl.
  rewrite !direction_fields_no_data by now left. reflexivity.
Qed.

(** The row of a period is computed from the records of that period
    alone. *)
Lemma bucket_row_independent level suffix i o t df1 df2 period row :
  df_columns df1 = df_columns df2 ->
  filter period (df_rows df1) = filter period (df_rows df2) ->
  traffic_routes_row level suffix i o t (df_select period df1) row
  = traffic_routes_row level suffix i o t (df_select period df2) row.
Proof.
  intros Hc Hr. unfold df_select. now rewrite Hc, Hr.
Qed.

Lemma map_result_raise {A B : Type} (f : A -> result B) (x : A)
    (xs : list A) (e : exn) :
  f x = raise e -> map_result f (x :: xs) = raise e.
Proof. intros H. simpl. now rewrite H. Qed.

Lemma sort_by_nonempty {A : Type} (le : A -> A -> bool) (l : list A) :
  l <> [] -> sort_by le l <> [].
Proof.
  intros H E. apply H. apply length_zero_iff_nil.
  now rewrite <- (sort_by_length le), E.
Qed.

(** C6 (code): when a requested metric column is missing from the
    records, [analyze_traffic_routes] does not reach the guard that
    would write "No data": selecting the columns of the grouped table
    raises [KeyError] on the first period, and no row is produced for
    any period. *)
Theorem missing_column_raises
    (df : DataFrame) (sy sm ey em : Z)
    (traffic_level traffic_type aggregate_by : string)
    (in_col out_col total_col unit_suffix : string) :
  col_mapping traffic_type = Some (in_col, out_col, total_col, unit_suffix) ->
  mem traffic_level ["Most"; "Least"] = true ->
  mem aggregate_by ["Month"; "Year"] = true ->
  missing_columns df [in_col; out_col; total_col] <> [] ->
  df_rows (traffic_routes_filtered_df df sy sm ey em) <> [] ->
  analyze_traffic_routes df sy sm ey em
    traffic_level traffic_type aggregate_by
  = raise (KeyError
             ("Columns not found: "
              ++ join (map quoted
                         (missing_columns df [in_col; out_col; total_col])))).
Proof.
  intros Hc Hlevel Hgran Hmiss Hrows.
  unfold analyze_traffic_routes. rewrite Hc, Hlevel, Hgran. cbn [negb].
  set (fdf := traffic_routes_filtered_df df sy sm ey em) in *.
  assert (Hrow : forall period row,
             traffic_routes_row traffic_level unit_suffix
               in_col out_col total_col (df_select period fdf) row
             = raise (KeyError
                        ("Columns not found: "
                         ++ join (map quoted
                                    (missing_columns df
                                       [in_col; out_col; total_col]))))).
  { intros period row. unfold traffic_routes_row, groupby_sum.
    change (missing_columns (df_select period fdf) [in_col; out_col; total_col])
      with (missing_columns df [in_col; out_col; total_col]).
    destruct (missing_columns df [in_col; out_col; total_col]);
      [congruence|reflexivity]. }
  destruct (String.eqb aggregate_by "Month").
  - destruct (observed_months fdf) as [|p ps] eqn:E.
    + exfalso. revert E. unfold observed_months.
      apply sort_by_nonempty, drop_duplicates_nonempty.
      intros E. apply map_eq_nil in E. contradiction.
    + apply map_result_raise, Hrow.
  - destruct (observed_years fdf) as [|p ps] eqn:E.
    + exfalso. revert E. unfold observed_years.
      apply sort_by_nonempty, drop_duplicates_nonempty.
      intros E. apply map_eq_nil in E. contradiction.
    + apply map_result_raise, Hrow.
Qed.

Lemma missing_column_raises_witness :
  analyze_traffic_routes
    (mkDataFrame ["Passengers_In"; "Passengers_Out"] january_1985)
    1985 1 1985 12 "Most" "Passengers" "Month"
  = raise (KeyError "Columns not found: 'Passengers_Total'").
Proof.
  apply (missing_column_raises
           (mkDataFrame ["Passengers_In"; "Passengers_Out"] january_1985)
           1985 1 1985 12 "Most" "Passengers" "Month"
           "Passengers_In" "Passengers_Out" "Passengers_Total" "");
    try reflexivity; discriminate.
Defined.

(** * Further properties of the code *)

(** ** The period filter on proper and inverted ranges *)

(** X1: when the start year is before the end year, the period filter
    keeps exactly the records whose (Year, Month) lies between
    (startYear, startMonth) and (endYear, endMonth), both included. *)
Theorem period_filter_proper_range
    (data : DataFrame) (sy sm ey em : Z) (r : TrafficRecord) :
  sy < ey ->
  (In r (df_rows (filter_data_by_period data sy sm ey em))
   <-> In r (df_rows data) /\ within_range sy sm ey em r).
Proof.
  intros H. rewrite filter_data_by_period_In.
  unfold in_period, within_range. split; intros [Hd Hp]; (split; [exact Hd|]);
    lia.
Qed.

Lemma period_filter_proper_range_witness :
  In sydney_london_mar86
     (df_rows (filter_data_by_period
                 (full_frame [sydney_london_sep85; sydney_london_mar86])
                 1985 10 1986 6)).
Proof.
  apply (proj2 (period_filter_proper_range
                  (full_frame [sydney_london_sep85; sydney_london_mar86])
                  1985 10 1986 6 sydney_london_mar86 ltac:(lia))).
  split; [simpl; tauto|].
  unfold within_range; simpl. lia.
Defined.

(** X2: when the start year is after the end year the filter does not
    return an empty frame: it keeps the records of the start year from
    the start month on and those of the end year up to the end month,
    and nothing else. *)
Theorem period_filter_inverted_range
    (data : DataFrame) (sy sm ey em : Z) (r : TrafficRecord) :
  ey < sy ->
  (In r (df_rows (filter_data_by_period data sy sm ey em))
   <-> In r (df_rows data)
       /\ ((Year r = sy /\ sm <= Month r) \/ (Year r = ey /\ Month r <= em))).
Proof.
  intros H. rewrite filter_data_by_period_In.
  unfold in_period. split; intros [Hd Hp]; (split; [exact Hd|]); lia.
Qed.

Lemma period_filter_inverted_range_witness :
  In sydney_london_sep85
     (df_rows (filter_data_by_period
                 (full_frame [sydney_london_sep85; sydney_london_mar86])
                 1986 1 1985 12)).
Proof.
  apply (proj2 (period_filter_inverted_range
                  (full_frame [sydney_london_sep85; sydney_london_mar86])
                  1986 1 1985 12 sydney_london_sep85 ltac:(lia))).
  split; [simpl; tauto|]. simpl. lia.
Defined.

(** ** Filtering twice *)

Lemma filter_all_true {A : Type} (f : A -> bool) (l : list A) :
  (forall x, In x l -> f x = true) -> filter f l = l.
Proof.
  induction l as [|x l IH]; intros H; simpl; [reflexivity|].
  rewrite (H x) by now left. f_equal. apply IH. intros y Hy. apply H.
  now right.
Qed.

Lemma filter_none {A : Type} (f : A -> bool) (l : list A) :
  (forall x, In x l -> f x = false) -> filter f l = [].
Proof.
  induction l as [|x l IH]; intros H; simpl; [reflexivity|].
  rewrite (H x) by now left. apply IH. intros y Hy. apply H. now right.
Qed.

Lemma df_select_all mask df :
  (forall r, In r (df_rows df) -> mask r = true) -> df_select mask df = df.
Proof.
  intros H. destruct df as [cols rows]. unfold df_select; simpl in *.
  now rewrite filter_all_true.
Qed.

Lemma restrict_ports_In specific_ports df r :
  In r (df_rows (restrict_ports specific_ports df)) -> In r (df_rows df).
Proof.
  destruct specific_ports as [[|p ps]|]; simpl; auto.
  intros H. now apply filter_In in H.
Qed.

(** X3: the port and hub analyses filter the frame, restrict it to the
    chosen ports and hand it to [filter_and_aggregate_by_period], which
    filters it again with the same period: the second filter changes
    nothing. *)
Theorem period_filter_twice
    (df : DataFrame) (sy sm ey em : Z)
    (specific_ports : option (list string)) :
  filter_data_by_period
    (restrict_ports specific_ports (filter_data_by_period df sy sm ey em))
    sy sm ey em
  = restrict_ports specific_ports (filter_data_by_period df sy sm ey em).
Proof.
  unfold filter_data_by_period at 1. apply df_select_all.
  intros r Hr. apply restrict_ports_In in Hr.
  apply filter_data_by_period_In in Hr as [_ Hr].
  now apply period_mask_spec.
Qed.

(** ** Yearly buckets *)

Lemma observed_years_In df y :
  In y (observed_years df) <-> exists r, In r (df_rows df) /\ Year r = y.
Proof.
  unfold observed_years. rewrite sort_by_In, drop_duplicates_In, in_map_iff.
  split; intros (r & H1 & H2); exists r; tauto.
Qed.

Lemma observed_years_length df :
  List.length (observed_years df) = distinct_years (df_rows df).
Proof.
  unfold observed_years. rewrite sort_by_length.
  apply drop_duplicates_length.
Qed.

Lemma observed_years_sorted df : StronglySorted Z.lt (observed_years df).
Proof.
  unfold observed_years.
  apply (sorted_nodup_strict Z.leb).
  - intros x y Hle Hne. apply Z.leb_le in Hle. lia.
  - apply sort_by_sorted.
    + intros x y. rewrite !Z.leb_le. lia.
    + intros x y z. rewrite !Z.leb_le. lia.
  - eapply Permutation_NoDup; [apply sort_by_perm|].
    apply drop_duplicates_NoDup.
Qed.

(** X4: under yearly granularity [analyze_traffic_routes] and
    [filter_and_aggregate_by_period] give one row per distinct year of
    the filtered records, in strictly ascending order of year, only for
    years that have a record, and the rows carry no month. *)
Theorem yearly_buckets
    (rows : list TrafficRecord) (sy sm ey em : Z)
    (traffic_level traffic_type : string)
    (group_col : name_column) (agg_dict : list agg_entry) :
  let filtered :=
    df_rows (filter_data_by_period (full_frame rows) sy sm ey em) in
  mem traffic_type ["Passengers"; "Freight"; "Mail"] = true ->
  mem traffic_level ["Most"; "Least"] = true ->
  agg_dict <> [] -> agg_missing (full_frame rows) agg_dict = [] ->
  exists (years : list Z) (out : list Row) (results : list PeriodResult),
    analyze_traffic_routes (full_frame rows) sy sm ey em
      traffic_level traffic_type "Year" = ret out
    /\ filter_and_aggregate_by_period (full_frame rows) sy sm ey em
         group_col agg_dict "Year" = ret results
    /\ map row_period out = map (fun y => Some (y, None)) years
    /\ map fst results = map (fun y => (y, None)) years
    /\ List.length years = distinct_years filtered
    /\ StronglySorted Z.lt years
    /\ (forall y, In y years <-> exists r, In r filtered /\ Year r = y).
Proof.
  intros filtered Htype Hlevel Hne Hmiss.
  set (fdf := filter_data_by_period (full_frame rows) sy sm ey em).
  exists (observed_years fdf).
  destruct (col_mapping traffic_type) as [[[[i o] t] u]|] eqn:Hc;
    [|apply col_mapping_None in Hc; congruence].
  pose proof (col_mapping_full_frame _ _ _ _ _ rows Hc) as Hcols.
  set (row_of := fun year : Z =>
         fill_directions traffic_level u
           (mkGrouped [i; o; t]
              (map (fun k =>
                      (k, map (fun c =>
                                 qsum (map (metric_or_zero c)
                                         (group_rows Route k
                                            (filter (fun r => Year r =? year)
                                               (df_rows fdf)))))
                            [i; o; t]))
                 (group_keys Route
                    (filter (fun r => Year r =? year) (df_rows fdf)))))
           i o t [("Year", CInt year)]).
  set (agg_of := fun year : Z =>
         (year, @None Z,
          mkGrouped (column_name group_col :: map agg_key agg_dict)
            (map (fun k =>
                    (k, map (fun e =>
                               agg_cell e
                                 (group_rows (name_value group_col) k
                                    (filter (fun r => Year r =? year)
                                       (df_rows fdf))))
                          agg_dict))
               (group_keys (name_value group_col)
                  (filter (fun r => Year r =? year) (df_rows fdf)))))
         : PeriodResult).
  exists (map row_of (observed_years fdf)), (map agg_of (observed_years fdf)).
  split.
  { unfold analyze_traffic_routes. rewrite Hc, Hlevel. cbn [negb mem existsb].
    simpl String.eqb. cbn [orb negb].
    apply map_result_ok. intros year _.
    unfold traffic_routes_row, groupby_sum.
    change (missing_columns _ [i; o; t])
      with (missing_columns (full_frame rows) [i; o; t]).
    rewrite Hcols. reflexivity. }
  split.
  { unfold filter_and_aggregate_by_period. simpl String.eqb. cbv iota.
    apply map_result_ok. intros year _.
    unfold groupby_agg. destruct agg_dict as [|e es]; [congruence|].
    change (agg_missing _ (e :: es))
      with (agg_missing (full_frame rows) (e :: es)).
    rewrite Hmiss. reflexivity. }
  split.
  { rewrite map_map. apply map_ext. intros year. unfold row_of.
    rewrite fill_directions_period. reflexivity. }
  split; [rewrite map_map; reflexivity|].
  split; [apply observed_years_length|].
  split; [apply observed_years_sorted|].
  intros y. apply observed_years_In.
Qed.

Lemma yearly_buckets_witness :
  exists years out results,
    analyze_traffic_routes (full_frame january_1985) 1985 1 1985 12
      "Least" "Freight" "Year" = ret out
    /\ filter_and_aggregate_by_period (full_frame january_1985)
         1985 1 1985 12 ColAustralianPort hub_agg_dict "Year" = ret results
    /\ map row_period out = map (fun y => Some (y, None)) years
    /\ map fst results = map (fun y => (y, None)) years.
Proof.
  destruct (yearly_buckets january_1985 1985 1 1985 12 "Least" "Freight"
              ColAustralianPort hub_agg_dict)
    as (years & out & results & H1 & H2 & H3 & H4 & _);
    try reflexivity; [discriminate|].
  exists years, out, results. repeat split; assumption.
Defined.

(** ** An empty range *)

Lemma period_filter_twice_rows df sy sm ey em specific_ports :
  df_rows (filter_data_by_period
             (restrict_ports specific_ports
                (filter_data_by_period df sy sm ey em)) sy sm ey em)
  = df_rows (restrict_ports specific_ports
               (filter_data_by_period df sy sm ey em)).
Proof.
  unfold filter_data_by_period at 1. rewrite df_select_all; [reflexivity|].
  intros r Hr. apply restrict_ports_In in Hr.
  apply filter_data_by_period_In in Hr as [_ Hr].
  now apply period_mask_spec.
Qed.

Lemma observed_months_nil df : df_rows df = [] -> observed_months df = [].
Proof. unfold observed_months. now intros ->. Qed.

Lemma observed_years_nil df : df_rows df = [] -> observed_years df = [].
Proof. unfold observed_years. now intros ->. Qed.

Lemma filter_data_by_period_nil df sy sm ey em :
  (forall r, In r (df_rows df) -> ~ in_period sy sm ey em r) ->
  df_rows (filter_data_by_period df sy sm ey em) = [].
Proof.
  intros H. unfold filter_data_by_period, df_select; simpl.
  apply filter_none. intros r Hr.
  destruct (_ || _) eqn:E; [|reflexivity].
  apply period_mask_spec in E. now apply H in E.
Qed.

Lemma filter_and_aggregate_nil df sy sm ey em group_col agg_dict aggregate_by :
  df_rows (filter_data_by_period df sy sm ey em) = [] ->
  filter_and_aggregate_by_period df sy sm ey em group_col agg_dict aggregate_by
  = ret [].
Proof.
  intros H. unfold filter_and_aggregate_by_period.
  destruct (String.eqb aggregate_by "Month").
  - now rewrite observed_months_nil.
  - now rewrite observed_years_nil.
Qed.

Lemma restrict_ports_nil specific_ports df :
  df_rows df = [] -> df_rows (restrict_ports specific_ports df) = [].
Proof.
  intros H. destruct specific_ports as [[|p ps]|]; simpl; auto.
  now rewrite H.
Qed.

(** X5: when no record lies in the requested period, the three bucketed
    analyses return an empty table and raise nothing, also on a frame
    that lacks metric columns: no bucket is created, so no column is
    ever looked up. *)
Theorem empty_range_empty_result
    (df : DataFrame) (sy sm ey em : Z)
    (level traffic_type aggregate_by : string)
    (cargo_types : list string) (specific_ports : option (list string))
    (threshold : Q) (weights : option cargo_weights) (top_n : Z) :
  (forall r, In r (df_rows df) -> ~ in_period sy sm ey em r) ->
  (mem traffic_type ["Passengers"; "Freight"; "Mail"] = true ->
   mem level ["Most"; "Least"] = true ->
   mem aggregate_by ["Month"; "Year"] = true ->
   analyze_traffic_routes df sy sm ey em level traffic_type aggregate_by
   = ret [])
  /\ analyze_port_flow_efficiency df sy sm ey em cargo_types
       aggregate_by level specific_ports threshold top_n = ret []
  /\ analyze_hub_utilization df sy sm ey em aggregate_by level
       specific_ports threshold weights top_n = ret [].
Proof.
  intros Hout.
  pose proof (filter_data_by_period_nil df sy sm ey em Hout) as Hnil.
  assert (Hagg : forall agg_dict,
             filter_and_aggregate_by_period
               (restrict_ports specific_ports
                  (filter_data_by_period df sy sm ey em))
               sy sm ey em ColAustralianPort agg_dict aggregate_by = ret []).
  { intros agg_dict. apply filter_and_aggregate_nil.
    rewrite period_filter_twice_rows. now apply restrict_ports_nil. }
  split; [|split].
  - intros Htype Hlevel Hgran. unfold analyze_traffic_routes.
    destruct (col_mapping traffic_type) as [[[[i o] t] u]|] eqn:Hc;
      [|apply col_mapping_None in Hc; congruence].
    rewrite Hlevel, Hgran. cbn [negb].
    change (traffic_routes_filtered_df df sy sm ey em)
      with (filter_data_by_period df sy sm ey em).
    destruct (String.eqb aggregate_by "Month").
    + now rewrite observed_months_nil.
    + now rewrite observed_years_nil.
  - unfold analyze_port_flow_efficiency. now rewrite Hagg.
  - unfold analyze_hub_utilization. now rewrite Hagg.
Qed.

Lemma empty_range_empty_result_witness :
  analyze_traffic_routes (mkDataFrame [] january_1985) 1990 1 1990 12
    "Most" "Mail" "Month" = ret []
  /\ analyze_hub_utilization (mkDataFrame [] january_1985) 1990 1 1990 12
       "Year" "Most" None 1 None 10 = ret [].
Proof.
  assert (H : forall r, In r (df_rows (mkDataFrame [] january_1985)) ->
                        ~ in_period 1990 1 1990 12 r).
  { intros r [<-|[<-|[]]]; unfold in_period; simpl; lia. }
  pose proof (empty_range_empty_result (mkDataFrame [] january_1985)
                1990 1 1990 12 "Most" "Mail" "Month" [] None 1 None 10 H)
    as (H1 & _ & _).
  pose proof (empty_range_empty_result (mkDataFrame [] january_1985)
                1990 1 1990 12 "Most" "Mail" "Year" [] None 1 None 10 H)
    as (_ & _ & H3).
  split; [apply H1; reflexivity|exact H3].
Defined.

(** ** The columns of the route table *)

Lemma fill_directions_monthly_keys level suffix route_data i o t year month :
  let row := fill_directions level suffix route_data i o t
               [("Year", CInt year); ("Month", CInt month)] in
  map fst row = monthly_route_columns
  /\ Forall (fun kv => is_text (snd kv)) (skipn 2 row).
Proof.
  unfold fill_directions, dict_update. simpl.
  split; [reflexivity|]. repeat constructor.
Qed.

Lemma fill_directions_yearly_keys level suffix route_data i o t year :
  let row := fill_directions level suffix route_data i o t
               [("Year", CInt year)] in
  map fst row = yearly_route_columns
  /\ Forall (fun kv => is_text (snd kv)) (skipn 1 row).
Proof.
  unfold fill_directions, dict_update. simpl.
  split; [reflexivity|]. repeat constructor.
Qed.

Lemma traffic_routes_row_inv level suffix i o t period_data row0 row :
  traffic_routes_row level suffix i o t period_data row0 = ret row ->
  exists route_data,
    row = fill_directions level suffix route_data i o t row0.
Proof.
  unfold traffic_routes_row.
  destruct (groupby_sum ColRoute [i; o; t] period_data) as [e|g]; simpl;
    [discriminate|].
  intros H. inversion H. eauto.
Qed.

(** X6: every row of [analyze_traffic_routes] has the same columns in
    the same order: Year, Month (monthly granularity only), then the
    route names and the value of the In, Out and Total directions; the
    six direction fields are always text. *)
Theorem traffic_routes_row_columns
    (df : DataFrame) (sy sm ey em : Z)
    (traffic_level traffic_type aggregate_by : string)
    (out : list Row) (row : Row) :
  analyze_traffic_routes df sy sm ey em traffic_level traffic_type aggregate_by
  = ret out ->
  In row out ->
  (aggregate_by = "Month" ->
   map fst row = monthly_route_columns
   /\ Forall (fun kv => is_text (snd kv)) (skipn 2 row))
  /\ (aggregate_by = "Year" ->
      map fst row = yearly_route_columns
      /\ Forall (fun kv => is_text (snd kv)) (skipn 1 row)).
Proof.
  unfold analyze_traffic_routes.
  destruct (col_mapping traffic_type) as [[[[i o] t] u]|]; [|discriminate].
  destruct (negb (mem traffic_level ["Most"; "Least"])); [discriminate|].
  destruct (negb (mem aggregate_by ["Month"; "Year"])); [discriminate|].
  intros Hout Hrow. split; intros ->; simpl String.eqb in Hout; cbv iota in Hout;
    destruct (map_result_inv _ _ _ Hout _ Hrow) as (x & _ & Hx);
    apply traffic_routes_row_inv in Hx as (route_data & ->).
  - apply fill_directions_monthly_keys.
  - apply fill_directions_yearly_keys.
Qed.

Lemma traffic_routes_row_columns_witness :
  analyze_traffic_routes (full_frame january_1985) 1985 1 1985 12
    "Most" "Passengers" "Month"
  = ret [[ ("Year", CInt 1985); ("Month", CInt 1);
           ("In_Route", CStr "Sydney-London"); ("In_Value", CStr "100");
           ("Out_Route", CStr "Sydney-London"); ("Out_Value", CStr "80");
           ("Total_Route", CStr "Sydney-London");
           ("Total_Value", CStr "180") ]]
  /\ map fst [ ("Year", CInt 1985); ("Month", CInt 1);
               ("In_Route", CStr "Sydney-London"); ("In_Value", CStr "100");
               ("Out_Route", CStr "Sydney-London"); ("Out_Value", CStr "80");
               ("Total_Route", CStr "Sydney-London");
               ("Total_Value", CStr "180") ]
     = monthly_route_columns.
Proof.
  split; [reflexivity|].
  apply (proj1 (traffic_routes_row_columns (full_frame january_1985)
                  1985 1 1985 12 "Most" "Passengers" "Month"
                  _ _ eq_refl (or_introl eq_refl))).
  reflexivity.
Defined.

(** ** The tables of the buckets *)

Lemma period_results_bucket df sy sm ey em group_col agg_dict aggregate_by
    period_results year month aggregated :
  filter_and_aggregate_by_period df sy sm ey em group_col agg_dict aggregate_by
  = ret period_results ->
  In (year, month, aggregated) period_results ->
  exists bucket,
    bucket <> []
    /\ (forall r, In r bucket
                  <-> In r (df_rows (filter_data_by_period df sy sm ey em))
                      /\ in_bucket year month r)
    /\ aggregated = aggregated_table group_col agg_dict bucket.
Proof.
  unfold filter_and_aggregate_by_period.
  set (fdf := filter_data_by_period df sy sm ey em).
  destruct (String.eqb aggregate_by "Month"); intros H Hin;
    destruct (map_result_inv _ _ _ H _ Hin) as (x & Hx & Hfx).
  - set (bucket := df_select (fun r => (Year r =? fst x) && (Month r =? snd x))
                     fdf) in *.
    destruct (groupby_agg group_col agg_dict bucket) as [e|g] eqn:Hg;
      simpl in Hfx; [discriminate|].
    inversion Hfx; subst. clear Hfx.
    exists (df_rows bucket).
    assert (Hspec : forall r, In r (df_rows bucket)
                              <-> In r (df_rows fdf)
                                  /\ in_bucket (fst x) (Some (snd x)) r).
    { intros r. unfold bucket, df_select, in_bucket; simpl.
      rewrite filter_In, andb_true_iff, !Z.eqb_eq. tauto. }
    split; [|split; [exact Hspec|now apply groupby_agg_inv]].
    apply observed_months_In in Hx. unfold months_of in Hx.
    apply in_map_iff in Hx as (r & E & Hr).
    intros Hnil.
    assert (Hrb : In r (df_rows bucket)).
    { apply Hspec. split; [exact Hr|]. rewrite <- E. split; reflexivity. }
    rewrite Hnil in Hrb. exact Hrb.
  - set (bucket := df_select (fun r => Year r =? x) fdf) in *.
    destruct (groupby_agg group_col agg_dict bucket) as [e|g] eqn:Hg;
      simpl in Hfx; [discriminate|].
    inversion Hfx; subst. clear Hfx.
    exists (df_rows bucket).
    assert (Hspec : forall r, In r (df_rows bucket)
                              <-> In r (df_rows fdf) /\ in_bucket year None r).
    { intros r. unfold bucket, df_select, in_bucket; simpl.
      rewrite filter_In, Z.eqb_eq. tauto. }
    split; [|split; [exact Hspec|now apply groupby_agg_inv]].
    apply observed_years_In in Hx as (r & Hr & E).
    intros Hnil.
    assert (Hrb : In r (df_rows bucket)).
    { apply Hspec. split; [exact Hr|]. split; [exact E|exact I]. }
    rewrite Hnil in Hrb. exact Hrb.
Qed.

Lemma aggregated_table_keys group_col agg_dict bucket :
  map fst (g_rows (aggregated_table group_col agg_dict bucket))
  = group_keys (name_value group_col) bucket.
Proof.
  unfold aggregated_table; simpl. rewrite map_map. simpl. apply map_id.
Qed.

Lemma bucket_rows_nonempty df sy sm ey em group_col agg_dict aggregate_by
    period_results year month aggregated :
  filter_and_aggregate_by_period df sy sm ey em group_col agg_dict aggregate_by
  = ret period_results ->
  In (year, month, aggregated) period_results ->
  g_rows aggregated <> [].
Proof.
  intros Hprs Hin.
  destruct (period_results_bucket _ _ _ _ _ _ _ _ _ _ _ _ Hprs Hin)
    as (bucket & Hne & _ & ->).
  intros E. apply (group_keys_nonempty (name_value group_col) bucket Hne).
  rewrite <- aggregated_table_keys with (agg_dict := agg_dict).
  now rewrite E.
Qed.

(** X7: every table that [filter_and_aggregate_by_period] returns has at
    least one row: a bucket exists only for an observed period, and its
    table has one row per group value met in that period, the keys in
    strictly ascending order.  The branches of the callers for an empty
    table are therefore never taken. *)
Theorem bucket_tables_populated
    (df : DataFrame) (sy sm ey em : Z) (group_col : name_column)
    (agg_dict : list agg_entry) (aggregate_by : string)
    (period_results : list PeriodResult)
    (year : Z) (month : option Z) (aggregated : Grouped) :
  filter_and_aggregate_by_period df sy sm ey em group_col agg_dict aggregate_by
  = ret period_results ->
  In (year, month, aggregated) period_results ->
  g_rows aggregated <> []
  /\ StronglySorted str_lt (map fst (g_rows aggregated))
  /\ (forall k, In k (map fst (g_rows aggregated))
                <-> exists r,
                      In r (df_rows (filter_data_by_period df sy sm ey em))
                      /\ in_bucket year month r
                      /\ name_value group_col r = k).
Proof.
  intros Hprs Hin.
  destruct (period_results_bucket _ _ _ _ _ _ _ _ _ _ _ _ Hprs Hin)
    as (bucket & Hne & Hspec & ->).
  rewrite aggregated_table_keys.
  split; [|split].
  - intros E. apply (group_keys_nonempty (name_value group_col) bucket Hne).
    rewrite <- aggregated_table_keys with (agg_dict := agg_dict).
    now rewrite E.
  - apply group_keys_sorted.
  - intros k. rewrite group_keys_In. split.
    + intros (r & Hr & Hk). exists r. apply Hspec in Hr. tauto.
    + intros (r & Hr & Hb & Hk). exists r. split; [|exact Hk].
      apply Hspec. tauto.
Qed.

Lemma bucket_tables_populated_witness :
  g_rows january_1985_hubs <> [].
Proof.
  apply (bucket_tables_populated (full_frame january_1985) 1985 1 1985 12
           ColAustralianPort hub_agg_dict "Year"
           [(1985, None, january_1985_hubs)] 1985 None january_1985_hubs
           eq_refl (or_introl eq_refl)).
Defined.

(** ** Hubs and the route threshold *)

Lemma hub_rows_pos df sy sm ey em aggregate_by period_results
    year month hub_data row :
  filter_and_aggregate_by_period df sy sm ey em
    ColAustralianPort hub_agg_dict aggregate_by = ret period_results ->
  In (year, month, hub_data) period_results ->
  In row (g_rows hub_data) -> (1 <= agg_value 3 row)%Q.
Proof.
  intros Hprs Hin.
  destruct (period_results_inv _ _ _ _ _ _ _ _ _ _ _ _ Hprs Hin)
    as (period_data & Hagg).
  now apply (hub_routes_pos period_data).
Qed.

(** X8: with a route threshold of at most 1 (the default is 1) the
    threshold filter of [analyze_hub_utilization] removes no port: every
    port of a bucket is scored, and there is at least one. *)
Theorem hub_threshold_keeps_all
    (df : DataFrame) (sy sm ey em : Z) (aggregate_by : string)
    (period_results : list PeriodResult)
    (year : Z) (month : option Z) (hub_data : Grouped)
    (min_routes_threshold : Q) (weights : cargo_weights) :
  filter_and_aggregate_by_period df sy sm ey em
    ColAustralianPort hub_agg_dict aggregate_by = ret period_results ->
  In (year, month, hub_data) period_results ->
  (min_routes_threshold <= 1)%Q ->
  hub_entities weights min_routes_threshold hub_data
  = map (hub_entity weights) (g_rows hub_data)
  /\ hub_entities weights min_routes_threshold hub_data <> [].
Proof.
  intros Hprs Hin Hthr.
  assert (E : hub_entities weights min_routes_threshold hub_data
              = map (hub_entity weights) (g_rows hub_data)).
  { unfold hub_entities. f_equal. apply filter_all_true.
    intros row Hrow. apply Qle_bool_iff.
    eapply Qle_trans; [exact Hthr|].
    eapply hub_rows_pos; eauto. }
  split; [exact E|]. rewrite E.
  pose proof (bucket_rows_nonempty _ _ _ _ _ _ _ _ _ _ _ _ Hprs Hin) as Hne.
  intros Hnil. apply map_eq_nil in Hnil. contradiction.
Qed.

Lemma hub_threshold_keeps_all_witness :
  hub_entities get_default_cargo_weights 1 january_1985_hubs
  = map (hub_entity get_default_cargo_weights) (g_rows january_1985_hubs).
Proof.
  apply (proj1 (hub_threshold_keeps_all (full_frame january_1985)
                  1985 1 1985 12 "Year"
                  [(1985, None, january_1985_hubs)] 1985 None
                  january_1985_hubs 1 get_default_cargo_weights
                  eq_refl (or_introl eq_refl) (Qle_refl 1))).
Defined.

(** ** The port allowlist *)

Lemma restrict_ports_allowed p ports df r :
  In r (df_rows (restrict_ports (Some (p :: ports)) df)) ->
  In (AustralianPort r) (p :: ports).
Proof.
  unfold restrict_ports, df_select. cbn [df_rows].
  intros H. apply filter_In in H as [_ H]. now apply mem_In.
Qed.

(** X9: when a non-empty list of ports is given to the port or hub
    analysis, every table row of every bucket is a port of that list,
    and a port of the list is there exactly when it has a record in the
    bucket. *)
Theorem allowlist_restricts_ports
    (df : DataFrame) (sy sm ey em : Z) (agg_dict : list agg_entry)
    (aggregate_by : string) (p : string) (ports : list string)
    (period_results : list PeriodResult)
    (year : Z) (month : option Z) (aggregated : Grouped) :
  filter_and_aggregate_by_period
    (restrict_ports (Some (p :: ports))
       (filter_data_by_period df sy sm ey em))
    sy sm ey em ColAustralianPort agg_dict aggregate_by = ret period_results ->
  In (year, month, aggregated) period_results ->
  forall port,
    In port (map fst (g_rows aggregated))
    <-> In port (p :: ports)
        /\ exists r,
             In r (df_rows (filter_data_by_period df sy sm ey em))
             /\ in_bucket year month r /\ AustralianPort r = port.
Proof.
  intros Hprs Hin port.
  destruct (period_results_bucket _ _ _ _ _ _ _ _ _ _ _ _ Hprs Hin)
    as (bucket & _ & Hspec & ->).
  rewrite aggregated_table_keys, group_keys_In. simpl name_value.
  setoid_rewrite Hspec. setoid_rewrite period_filter_twice_rows.
  split.
  - intros (r & [Hr Hb] & Hk). subst port. split.
    + now apply restrict_ports_allowed in Hr.
    + exists r. apply restrict_ports_In in Hr. tauto.
  - intros (Hp & r & Hr & Hb & Hk). exists r. split; [|exact Hk].
    split; [|exact Hb].
    unfold restrict_ports, df_select. cbn [df_rows].
    apply filter_In. split; [exact Hr|]. apply mem_In. now rewrite Hk.
Qed.

(** ** Grouping keeps the totals *)

Lemma Qeq_refl_eq (a b : Q) : a = b -> (a == b)%Q.
Proof. intros ->. reflexivity. Qed.

Lemma qsum_app (l1 l2 : list Q) :
  (qsum (l1 ++ l2) == qsum l1 + qsum l2)%Q.
Proof.
  induction l1 as [|x l1 IH]; simpl; [ring|]. rewrite IH. ring.
Qed.

Lemma group_sums_cons (key : TrafficRecord -> string)
    (f : TrafficRecord -> Q) (r : TrafficRecord) (rows : list TrafficRecord)
    (keys : list string) :
  NoDup keys ->
  (qsum (map (fun k => qsum (map f (group_rows key k (r :: rows)))) keys)
   == (if mem (key r) keys then f r else 0)
      + qsum (map (fun k => qsum (map f (group_rows key k rows))) keys))%Q.
Proof.
  induction 1 as [|k keys Hk Hnd IH]; simpl; [ring|].
  rewrite IH. unfold group_rows at 1. simpl.
  destruct (String.eqb_spec (key r) k) as [E|E]; simpl.
  - assert (Hm : mem (key r) keys = false).
    { destruct (mem (key r) keys) eqn:Hm; [|reflexivity].
      apply mem_In in Hm. rewrite E in Hm. contradiction. }
    rewrite Hm. unfold group_rows. ring.
  - unfold group_rows. ring.
Qed.

Lemma group_sums_total (key : TrafficRecord -> string)
    (f : TrafficRecord -> Q) (rows : list TrafficRecord)
    (keys : list string) :
  NoDup keys ->
  (forall r, In r rows -> In (key r) keys) ->
  (qsum (map (fun k => qsum (map f (group_rows key k rows))) keys)
   == qsum (map f rows))%Q.
Proof.
  intros Hnd. induction rows as [|r rows IH]; intros Hcover.
  - clear Hcover Hnd. unfold group_rows. cbn [filter map].
    induction keys as [|k keys IHk]; cbn [map qsum fold_right];
      [reflexivity|].
    fold (qsum (map (fun _ : string => qsum []) keys)).
    rewrite IHk. unfold qsum; cbn [fold_right]. ring.
  - rewrite group_sums_cons by exact Hnd.
    rewrite IH by (intros r' Hr'; apply Hcover; now right).
    assert (Hm : mem (key r) keys = true)
      by (apply mem_In, Hcover; now left).
    rewrite Hm. simpl. ring.
Qed.

Lemma group_keys_NoDup key rows : NoDup (group_keys key rows).
Proof.
  unfold group_keys.
  eapply Permutation_NoDup; [apply sort_by_perm|].
  apply drop_duplicates_NoDup.
Qed.

Lemma col_index_nth {B : Type} (F : string -> B) (d : B) c cs i :
  col_index c cs = Some i -> nth i (map F cs) d = F c.
Proof.
  revert i. induction cs as [|c' cs IH]; simpl; intros i; [discriminate|].
  destruct (String.eqb_spec c c') as [->|Hne].
  - intros E. inversion E. reflexivity.
  - destruct (col_index c cs) as [j|]; simpl; [|discriminate].
    intros E. inversion E. now apply IH.
Qed.

(** *** Whole numbers *)

Lemma whole_iff (q : Q) : whole q = true <-> exists z, (q == inject_Z z)%Q.
Proof.
  unfold whole. rewrite Z.eqb_eq, Z.rem_divide by discriminate.
  unfold Z.divide, Qeq. simpl. split; intros [z Hz]; exists z; lia.
Qed.

Lemma whole_plus (a b : Q) :
  whole a = true -> whole b = true -> whole (a + b) = true.
Proof.
  rewrite !whole_iff. intros [x Hx] [y Hy]. exists (x + y).
  rewrite Hx, Hy, inject_Z_plus. reflexivity.
Qed.

Lemma whole_mult (a b : Q) :
  whole a = true -> whole b = true -> whole (a * b) = true.
Proof.
  rewrite !whole_iff. intros [x Hx] [y Hy]. exists (x * y).
  rewrite Hx, Hy, inject_Z_mult. reflexivity.
Qed.

Lemma whole_qsum (l : list Q) :
  (forall q, In q l -> whole q = true) -> whole (qsum l) = true.
Proof.
  induction l as [|x l IH]; intros H; [reflexivity|].
  change (qsum (x :: l)) with (x + qsum l)%Q.
  apply whole_plus; [apply H; now left|].
  apply IH. intros q Hq. apply H. now right.
Qed.

Lemma Qabs_qsum (l : list Q) : (Qabs (qsum l) <= qsum (map Qabs l))%Q.
Proof.
  induction l as [|x l IH]; [discriminate|].
  change (qsum (x :: l)) with (x + qsum l)%Q.
  change (qsum (map Qabs (x :: l))) with (Qabs x + qsum (map Qabs l))%Q.
  eapply Qle_trans; [apply Qabs_triangle|].
  apply Qplus_le_r. exact IH.
Qed.

Lemma qsum_le {K : Type} (a b : K -> Q) (keys : list K) :
  (forall k, In k keys -> (a k <= b k)%Q) ->
  (qsum (map a keys) <= qsum (map b keys))%Q.
Proof.
  induction keys as [|k keys IH]; intros H; [discriminate|].
  change (a k + qsum (map a keys) <= b k + qsum (map b keys))%Q.
  apply Qplus_le_compat; [apply H; now left|].
  apply IH. intros k' Hk'. apply H. now right.
Qed.

(** The column [c] of [groupby(key)[[cols]].sum()]: one sum per group. *)
Lemma groupby_sum_column key cols df grouped c :
  groupby_sum key cols df = ret grouped ->
  In c cols ->
  map snd (g_column grouped c)
  = map (fun k =>
           qsum (map (metric_or_zero c)
                   (group_rows (name_value key) k (df_rows df))))
      (group_keys (name_value key) (df_rows df)).
Proof.
  unfold groupby_sum. destruct (missing_columns df cols); [|discriminate].
  intros H Hc. inversion H; subst; clear H.
  unfold g_column; simpl.
  destruct (col_index_In _ _ Hc) as [i Hi]. rewrite Hi.
  rewrite !map_map. simpl.
  apply map_ext. intros k. unfold g_value; simpl.
  apply (col_index_nth
           (fun c0 => qsum (map (metric_or_zero c0)
                              (group_rows (name_value key) k (df_rows df))))).
  exact Hi.
Qed.

(** X10: grouping loses and invents nothing on a column of whole
    numbers, such as the passenger counts, whose absolute values add up
    to less than 2^53: every group sum of [groupby(key)[[cols]].sum()] is
    again such a number, so no sum is rounded, and the group sums add up
    to the sum of the column over the whole frame. *)
Theorem groupby_sum_conserves_total
    (key : name_column) (cols : list string) (df : DataFrame)
    (grouped : Grouped) (c : string) :
  groupby_sum key cols df = ret grouped ->
  In c cols ->
  exact_total (map (metric_or_zero c) (df_rows df)) ->
  exact_total (map snd (g_column grouped c))
  /\ (qsum (map snd (g_column grouped c))
      == qsum (map (metric_or_zero c) (df_rows df)))%Q.
Proof.
  intros Hg Hc [Hwhole Hbound].
  rewrite (groupby_sum_column _ _ _ _ _ Hg Hc).
  set (rows := df_rows df) in *. set (k_of := name_value key).
  set (f := metric_or_zero c) in *.
  assert (Hcover : forall r, In r rows -> In (k_of r) (group_keys k_of rows))
    by (intros r Hr; apply group_keys_In; eauto).
  split; [split|].
  - intros q Hq. apply in_map_iff in Hq as (k & <- & _).
    apply whole_qsum. intros q Hq.
    apply in_map_iff in Hq as (r & <- & Hr).
    apply Hwhole, in_map. unfold group_rows in Hr.
    now apply filter_In in Hr.
  - eapply Qle_lt_trans; [|exact Hbound].
    rewrite !map_map.
    eapply Qle_trans.
    + apply (qsum_le _ (fun k => qsum (map (fun r => Qabs (f r))
                                         (group_rows k_of k rows)))).
      intros k _. eapply Qle_trans; [apply Qabs_qsum|].
      rewrite map_map. apply Qle_refl.
    + rewrite (group_sums_total k_of (fun r => Qabs (f r)) rows
                 (group_keys k_of rows) (group_keys_NoDup _ _) Hcover).
      apply Qle_refl.
  - apply (group_sums_total k_of f rows (group_keys k_of rows)
             (group_keys_NoDup _ _) Hcover).
Qed.

Lemma allowlist_restricts_ports_witness :
  In "Melbourne" (map fst (g_rows january_1985_sydney))
  <-> In "Melbourne" ["Sydney"]
      /\ exists r,
           In r (df_rows (filter_data_by_period (full_frame january_1985)
                            1985 1 1985 12))
           /\ in_bucket 1985 None r /\ AustralianPort r = "Melbourne".
Proof.
  apply (allowlist_restricts_ports (full_frame january_1985) 1985 1 1985 12
           hub_agg_dict "Year" "Sydney" []
           [(1985, None, january_1985_sydney)] 1985 None january_1985_sydney
           eq_refl (or_introl eq_refl)).
Defined.

Lemma groupby_sum_conserves_total_witness :
  exact_total (map snd (g_column january_1985_routes "Passengers_Total"))
  /\ (qsum (map snd (g_column january_1985_routes "Passengers_Total"))
      == qsum (map (metric_or_zero "Passengers_Total")
                 (df_rows (full_frame january_1985))))%Q.
Proof.
  apply (groupby_sum_conserves_total ColRoute
           ["Passengers_In"; "Passengers_Out"; "Passengers_Total"]
           (full_frame january_1985) january_1985_routes "Passengers_Total"
           eq_refl).
  - simpl; tauto.
  - split; [|reflexivity].
    intros q [<-|[<-|[]]]; reflexivity.
Defined.

(** ** Top and bottom entities *)

Section TopNFacts.
Context {A : Type}.
Variable score : A -> xnum.

Lemma scored_partition (data : list A) :
  Permutation data
    (filter (has_score score) data
     ++ filter (fun a => is_nan (score a)) data).
Proof.
  induction data as [|a data IH]; simpl; [constructor|].
  unfold has_score at 1. destruct (is_nan (score a)); simpl.
  - apply Permutation_cons_app. exact IH.
  - now constructor.
Qed.

Lemma ranked_perm (le : A -> A -> bool) (data : list A) :
  Permutation data
    (sort_by le (filter (has_score score) data)
     ++ filter (fun a => is_nan (score a)) data).
Proof.
  rewrite (scored_partition data) at 1.
  apply Permutation_app_tail, sort_by_perm.
Qed.

Lemma get_top_entities_cases (data : list A) (level : string) (top_n : Z) :
  get_top_entities score data level top_n
  = if top_n <=? 0 then []
    else firstn (Z.to_nat top_n)
           (sort_by (if String.eqb level "Least"
                     then fun a b => xleb (score a) (score b)
                     else fun a b => xleb (score b) (score a))
              (filter (has_score score) data)
            ++ filter (fun a => is_nan (score a)) data).
Proof.
  unfold get_top_entities, nlargest, nsmallest.
  destruct data as [|a data].
  - destruct (top_n <=? 0); [reflexivity|]. simpl. now rewrite firstn_nil.
  - destruct (String.eqb level "Least"); reflexivity.
Qed.

Lemma get_top_entities_nonpositive (data : list A) (level : string)
    (top_n : Z) :
  top_n <= 0 -> get_top_entities score data level top_n = [].
Proof.
  intros H. rewrite get_top_entities_cases.
  apply Z.leb_le in H. now rewrite H.
Qed.

Lemma get_top_entities_In (data : list A) (level : string) (top_n : Z)
    (a : A) :
  In a (get_top_entities score data level top_n) -> In a data.
Proof.
  rewrite get_top_entities_cases. destruct (top_n <=? 0); [intros []|].
  intros H. apply firstn_In in H.
  eapply Permutation_in; [symmetry; apply ranked_perm|exact H].
Qed.
End TopNFacts.

(** X11: [get_top_entities] selects among the given entities and never
    returns more than topN of them; when topN is at least the number of
    entities it returns every one of them, each once; a topN of zero or
    less returns none. *)
Theorem top_entities_selection {A : Type} (score : A -> xnum)
    (data : list A) (level : string) (top_n : Z) :
  let top := get_top_entities score data level top_n in
  (forall a, In a top -> In a data)
  /\ (0 <= top_n -> Z.of_nat (List.length top) <= top_n)
  /\ (Z.of_nat (List.length data) <= top_n -> Permutation data top)
  /\ (top_n <= 0 -> top = []).
Proof.
  intros top. split; [|split; [|split]].
  - intros a. apply get_top_entities_In.
  - intros Hn. unfold top. rewrite get_top_entities_cases.
    destruct (top_n <=? 0); [simpl; lia|].
    rewrite length_firstn. lia.
  - intros Hlen. unfold top. rewrite get_top_entities_cases.
    destruct (top_n <=? 0) eqn:E.
    + apply Z.leb_le in E. destruct data; [constructor|simpl in Hlen; lia].
    + rewrite firstn_all2; [apply ranked_perm|].
      rewrite <- (Permutation_length (ranked_perm score _ data)). lia.
  - apply get_top_entities_nonpositive.
Qed.

Lemma top_entities_selection_witness :
  Permutation january_1985_hub_entities
    (get_top_entities utilizationScore january_1985_hub_entities "Most" 10)
  /\ Z.of_nat (List.length
                 (get_top_entities utilizationScore january_1985_hub_entities
                    "Most" 1)) <= 1
  /\ get_top_entities utilizationScore january_1985_hub_entities "Most" 0 = [].
Proof.
  split; [|split].
  - apply (proj1 (proj2 (proj2
             (top_entities_selection utilizationScore
                january_1985_hub_entities "Most" 10)))).
    simpl. lia.
  - apply (proj1 (proj2
             (top_entities_selection utilizationScore
                january_1985_hub_entities "Most" 1))).
    lia.
  - apply (proj2 (proj2 (proj2
             (top_entities_selection utilizationScore
                january_1985_hub_entities "Most" 0)))).
    lia.
Defined.

Lemma ranked_sorted {A : Type} (score : A -> xnum) (ascending : bool)
    (data : list A) :
  StronglySorted
    (if ascending then score_le score else score_ge score)
    (sort_by (if ascending
              then fun a b => xleb (score a) (score b)
              else fun a b => xleb (score b) (score a))
       (filter (has_score score) data)).
Proof.
  assert (Hall : Forall (fun a => is_nan (score a) = false)
                   (filter (has_score score) data)).
  { apply Forall_forall. intros a Ha. apply filter_In in Ha as [_ Ha].
    unfold has_score in Ha. now apply negb_true_iff in Ha. }
  destruct ascending.
  - apply (sort_by_sorted_on _ (fun a => is_nan (score a) = false)); auto.
    + intros a b Ha Hb. apply xleb_total; assumption.
    + intros a b c _ _ _. apply xleb_trans.
  - apply (sort_by_sorted_on _ (fun a => is_nan (score a) = false)); auto.
    + intros a b Ha Hb. destruct (xleb_total _ _ Ha Hb); auto.
    + intros a b c _ _ _ H1 H2. eapply xleb_trans; eauto.
Qed.

(** X12: on entities that all have a score, [get_top_entities] returns
    them in descending order of score (ascending for the level Least),
    and no entity left out has a better score than one that is kept. *)
Theorem top_entities_order {A : Type} (score : A -> xnum)
    (data : list A) (level : string) (top_n : Z) :
  (forall a, In a data -> is_nan (score a) = false) ->
  let top := get_top_entities score data level top_n in
  let order := if String.eqb level "Least"
               then score_le score else score_ge score in
  StronglySorted order top
  /\ (forall a b, In a top -> In b data -> ~ In b top -> order a b).
Proof.
  intros Hscore top order. unfold top.
  rewrite get_top_entities_cases.
  destruct (top_n <=? 0); [split; [constructor|intros a b []]|].
  rewrite (filter_none (fun a => is_nan (score a)) data) by exact Hscore.
  rewrite app_nil_r.
  set (sorted := sort_by _ (filter (has_score score) data)).
  assert (Hs : StronglySorted order sorted).
  { unfold order, sorted.
    destruct (String.eqb level "Least");
      [apply (ranked_sorted score true)|apply (ranked_sorted score false)]. }
  split; [now apply firstn_sorted|].
  intros a b Ha Hb Hnb.
  assert (Hbs : In b sorted).
  { unfold sorted. apply sort_by_In. apply filter_In. split; [exact Hb|].
    unfold has_score. now rewrite (Hscore b Hb). }
  rewrite <- (firstn_skipn (Z.to_nat top_n) sorted) in Hbs, Hs.
  apply in_app_or in Hbs as [Hbs|Hbs]; [contradiction|].
  eapply StronglySorted_app_cross; eauto.
Qed.

Lemma top_entities_order_witness :
  StronglySorted (score_ge utilizationScore)
    (get_top_entities utilizationScore january_1985_hub_entities "Most" 1).
Proof.
  apply (proj1 (top_entities_order utilizationScore
                  january_1985_hub_entities "Most" 1
                  ltac:(intros a [<-|[<-|[]]]; reflexivity))).
Defined.

(** ** A topN of zero or less *)

(** X13: with a topN of zero or less the hub analysis does not write the
    "No data" sentinel: a bucket that has a hub above the route threshold
    gets an empty name list and the averages "nan".  The port flow
    analysis, which tests the selection for emptiness, writes "No data"
    in the same situation. *)
Theorem nonpositive_top_n_fields
    (hub_data port_data : Grouped) (level cargo_type : string)
    (mapping : cargo_columns) (routes_threshold volume_threshold : Q)
    (weights : cargo_weights) (top_n : Z) (result_row : Row) :
  top_n <= 0 ->
  (hub_entities weights routes_threshold hub_data <> [] ->
   hub_fields hub_data level routes_threshold weights top_n result_row
   = dict_update result_row
       [ ("Hub_Ports", CStr ""); ("Avg_Utilization_Score", CStr "nan");
         ("Avg_Routes", CStr "nan") ])
  /\ (In (cargo_in mapping) (tl (g_columns port_data)) ->
      In (cargo_out mapping) (tl (g_columns port_data)) ->
      flow_fields cargo_type mapping port_data level volume_threshold
        top_n result_row
      = dict_update result_row
          [ (title cargo_type ++ "_Ports", CStr "No data");
            (title cargo_type ++ "_Avg_Efficiency", CStr "No data") ]).
Proof.
  intros Hn. split.
  - intros Hne. unfold hub_fields.
    destruct (g_rows hub_data) as [|row0 rows0] eqn:Hrows.
    + exfalso. apply Hne. unfold hub_entities. now rewrite Hrows.
    + destruct (hub_entities weights routes_threshold hub_data) as [|e es];
        [congruence|].
      rewrite get_top_entities_nonpositive by exact Hn. reflexivity.
  - intros Hin Hout. unfold flow_fields.
    destruct (col_index_In _ _ Hin) as [i ->].
    destruct (col_index_In _ _ Hout) as [j ->].
    rewrite get_top_entities_nonpositive by exact Hn. reflexivity.
Qed.

Lemma nonpositive_top_n_fields_witness :
  hub_fields january_1985_hubs "Most" 1 get_default_cargo_weights 0
    [("Year", CInt 1985)]
  = [ ("Year", CInt 1985); ("Hub_Ports", CStr "");
      ("Avg_Utilization_Score", CStr "nan"); ("Avg_Routes", CStr "nan") ].
Proof.
  apply (proj1 (nonpositive_top_n_fields january_1985_hubs january_1985_hubs
                  "Most" "passengers"
                  (mkCargo "Passengers_In" "Passengers_Out" "Passengers_Total")
                  1 0 get_default_cargo_weights 0 [("Year", CInt 1985)]
                  ltac:(lia))).
  discriminate.
Defined.

(** ** Balance ratio on real volumes *)




(** ** Unknown cargo types *)

Lemma flow_agg_fold_known cargo_types acc :
  fold_left
    (fun agg_dict cargo_type =>
       match get_cargo_columns cargo_type with
       | Some mapping =>
           agg_update agg_dict
             [AggSum (cargo_in mapping); AggSum (cargo_out mapping)]
       | None => agg_dict
       end)
    (filter known_cargo_type cargo_types) acc
  = fold_left
      (fun agg_dict cargo_type =>
         match get_cargo_columns cargo_type with
         | Some mapping =>
             agg_update agg_dict
               [AggSum (cargo_in mapping); AggSum (cargo_out mapping)]
         | None => agg_dict
         end)
      cargo_types acc.
Proof.
  revert acc. induction cargo_types as [|c cs IH]; intros acc; simpl;
    [reflexivity|].
  unfold known_cargo_type at 1.
  destruct (get_cargo_columns c) eqn:E; simpl; [rewrite E|]; apply IH.
Qed.

Lemma flow_agg_dict_known cargo_types :
  flow_agg_dict (filter known_cargo_type cargo_types)
  = flow_agg_dict cargo_types.
Proof. apply flow_agg_fold_known. Qed.

Lemma flow_row_known cargo_types level threshold top_n pr :
  flow_row (filter known_cargo_type cargo_types) level threshold top_n pr
  = flow_row cargo_types level threshold top_n pr.
Proof.
  destruct pr as [[year month] port_data]. unfold flow_row.
  generalize (fst (fst (format_results_summary port_data None year month))).
  induction cargo_types as [|c cs IH]; intros row; simpl; [reflexivity|].
  unfold known_cargo_type at 1.
  destruct (get_cargo_columns c) eqn:E; simpl; [rewrite E|]; apply IH.
Qed.

(** X15: cargo types that [get_cargo_columns] does not know are skipped:
    the port flow analysis gives the same result as on the list without
    them, and raises nothing on their account. *)
Theorem unknown_cargo_types_ignored
    (df : DataFrame) (sy sm ey em : Z) (cargo_types : list string)
    (aggregate_by level : string) (specific_ports : option (list string))
    (threshold : Q) (top_n : Z) :
  analyze_port_flow_efficiency df sy sm ey em cargo_types
    aggregate_by level specific_ports threshold top_n
  = analyze_port_flow_efficiency df sy sm ey em
      (filter known_cargo_type cargo_types)
      aggregate_by level specific_ports threshold top_n.
Proof.
  unfold analyze_port_flow_efficiency.
  rewrite flow_agg_dict_known.
  destruct (filter_and_aggregate_by_period _ _ _ _ _ _ _ _); simpl;
    [reflexivity|].
  unfold ret. f_equal. apply map_ext. intros pr.
  symmetry. apply flow_row_known.
Qed.

(** ** Passenger equivalents *)

Lemma qsum_linear (p f m : TrafficRecord -> Q) (wf wm : Q)
    (rows : list TrafficRecord) :
  (qsum (map (fun r => p r + f r * wf + m r * wm) rows)
   == qsum (map p rows) + qsum (map f rows) * wf + qsum (map m rows) * wm)%Q.
Proof.
  induction rows as [|r rows IH]; simpl; [ring|]. rewrite IH. ring.
Qed.

Lemma calculate_passenger_equivalents_full rows weights :
  calculate_passenger_equivalents (full_frame rows) (Some weights)
  = ret (map (fun r =>
                PassengerEquiv.mkRow r
                  (Freight_Total r * w_freight weights)
                  (Mail_Total r * w_mail weights)
                  (Passengers_Total r + Freight_Total r * w_freight weights
                   + Mail_Total r * w_mail weights))
           rows).
Proof. reflexivity. Qed.

Lemma Qabs_weighted (p f m wf wm : Q) :
  (Qabs (p + f * wf + m * wm)
   <= Qabs p + Qabs f * Qabs wf + Qabs m * Qabs wm)%Q.
Proof.
  rewrite <- !Qabs_Qmult.
  eapply Qle_trans; [apply Qabs_triangle|].
  apply Qplus_le_compat; [apply Qabs_triangle|apply Qle_refl].
Qed.

(** X16: for a port whose records have whole totals and whole weights,
    with weighted absolute values that add up to less than 2^53 (no sum
    or product is then rounded), the passenger equivalent that
    [analyze_hub_utilization] computes from the summed columns is a whole
    number below 2^53 in absolute value, and it equals the sum, over the
    records of that port in the bucket, of the total passenger
    equivalents that [calculate_passenger_equivalents] gives record by
    record with the same weights. *)
Theorem hub_equivalent_is_sum_of_records
    (bucket : list TrafficRecord) (weights : cargo_weights)
    (row : string * list Q) :
  In row (g_rows (aggregated_table ColAustralianPort hub_agg_dict bucket)) ->
  exact_equivalents weights (group_rows AustralianPort (fst row) bucket) ->
  exists equivalents,
    calculate_passenger_equivalents
      (full_frame (group_rows AustralianPort (fst row) bucket))
      (Some weights) = ret equivalents
    /\ List.length equivalents
       = List.length (group_rows AustralianPort (fst row) bucket)
    /\ whole (totalPassengerEquiv (hub_entity weights row)) = true
    /\ (Qabs (totalPassengerEquiv (hub_entity weights row))
        < inject_Z (2 ^ 53))%Q
    /\ (totalPassengerEquiv (hub_entity weights row)
        == qsum (map PassengerEquiv.totalPassengerEquiv equivalents))%Q.
Proof.
  intros Hrow (Hwf & Hwm & Hwhole & Hbound).
  unfold aggregated_table in Hrow; simpl in Hrow.
  apply in_map_iff in Hrow as (port & <- & _). simpl fst in *.
  set (rows := group_rows AustralianPort port bucket) in *.
  assert (Hsum : (qsum (map Passengers_Total rows)
                  + qsum (map Freight_Total rows) * w_freight weights
                  + qsum (map Mail_Total rows) * w_mail weights
                  == qsum (map (fun r =>
                                  Passengers_Total r
                                  + Freight_Total r * w_freight weights
                                  + Mail_Total r * w_mail weights) rows))%Q).
  { symmetry.
    apply (qsum_linear Passengers_Total Freight_Total Mail_Total). }
  eexists. split; [apply calculate_passenger_equivalents_full|].
  split; [now rewrite length_map|].
  rewrite map_map. cbn [PassengerEquiv.totalPassengerEquiv].
  unfold hub_entity, agg_value, g_value. cbn [totalPassengerEquiv snd nth map].
  change (agg_cell (AggSum "Passengers_Total") rows)
    with (qsum (map Passengers_Total rows)).
  change (agg_cell (AggSum "Freight_Total_(tonnes)") rows)
    with (qsum (map Freight_Total rows)).
  change (agg_cell (AggSum "Mail_Total_(tonnes)") rows)
    with (qsum (map Mail_Total rows)).
  split; [|split; [|exact Hsum]].
  - apply whole_plus; [apply whole_plus|].
    + apply whole_qsum. intros q Hq.
      apply in_map_iff in Hq as (r & <- & Hr). now apply Hwhole.
    + apply whole_mult; [|exact Hwf]. apply whole_qsum. intros q Hq.
      apply in_map_iff in Hq as (r & <- & Hr). now apply Hwhole.
    + apply whole_mult; [|exact Hwm]. apply whole_qsum. intros q Hq.
      apply in_map_iff in Hq as (r & <- & Hr). now apply Hwhole.
  - eapply Qle_lt_trans; [|exact Hbound].
    rewrite Hsum.
    eapply Qle_trans; [apply Qabs_qsum|].
    rewrite map_map. apply qsum_le. intros r _. apply Qabs_weighted.
Qed.

Lemma hub_equivalent_is_sum_of_records_witness :
  exists equivalents,
    calculate_passenger_equivalents
      (full_frame (group_rows AustralianPort "Sydney" [freight_and_mail]))
      (Some get_default_cargo_weights) = ret equivalents
    /\ List.length equivalents
       = List.length (group_rows AustralianPort "Sydney" [freight_and_mail])
    /\ whole (totalPassengerEquiv
                (hub_entity get_default_cargo_weights
                   ("Sydney", [180; 5; 2; 1]%Q))) = true
    /\ (Qabs (totalPassengerEquiv
                (hub_entity get_default_cargo_weights
                   ("Sydney", [180; 5; 2; 1]%Q)))
        < inject_Z (2 ^ 53))%Q
    /\ (totalPassengerEquiv
          (hub_entity get_default_cargo_weights ("Sydney", [180; 5; 2; 1]%Q))
        == qsum (map PassengerEquiv.totalPassengerEquiv equivalents))%Q.
Proof.
  apply (hub_equivalent_is_sum_of_records [freight_and_mail]
           get_default_cargo_weights ("Sydney", [180; 5; 2; 1]%Q)).
  - simpl. left. reflexivity.
  - split; [reflexivity|]. split; [reflexivity|]. split; [|reflexivity].
    intros r [<-|[]]. repeat split; reflexivity.
Defined.

(** X17: the weight given for passengers is never read: changing it
    changes neither the passenger equivalents of
    [calculate_passenger_equivalents] nor the result of
    [analyze_hub_utilization]; passengers always count with weight 1. *)
Theorem passengers_weight_unused
    (df : DataFrame) (sy sm ey em : Z) (aggregate_by level : string)
    (specific_ports : option (list string)) (threshold : Q) (top_n : Z)
    (w1 w2 freight_weight mail_weight : Q) :
  calculate_passenger_equivalents df
    (Some (mkWeights w1 freight_weight mail_weight))
  = calculate_passenger_equivalents df
      (Some (mkWeights w2 freight_weight mail_weight))
  /\ analyze_hub_utilization df sy sm ey em aggregate_by level
       specific_ports threshold
       (Some (mkWeights w1 freight_weight mail_weight)) top_n
     = analyze_hub_utilization df sy sm ey em aggregate_by level
         specific_ports threshold
         (Some (mkWeights w2 freight_weight mail_weight)) top_n.
Proof.
  split; [reflexivity|].
  unfold analyze_hub_utilization.
  destruct (filter_and_aggregate_by_period _ _ _ _ _ _ _ _); reflexivity.
Qed.

(** ** Country and port rankings *)

Lemma sort_desc_by_column_sorted rows :
  StronglySorted first_column_ge (sort_desc_by_column 0 rows).
Proof.
  unfold sort_desc_by_column.
  assert (H : StronglySorted
                (fun a b => Qle_bool (agg_value 0 b) (agg_value 0 a) = true)
                (sort_by (fun a b => Qle_bool (agg_value 0 b) (agg_value 0 a))
                   rows)).
  { apply sort_by_sorted.
    - intros a b. destruct (Qle_bool_total (agg_value 0 a) (agg_value 0 b));
        auto.
    - intros a b c. rewrite !Qle_bool_iff. intros H1 H2.
      eapply Qle_trans; eauto. }
  induction H as [|a l Hs IH Hall]; constructor; [exact IH|].
  rewrite Forall_forall in *. intros b Hb. unfold first_column_ge.
  apply Qle_bool_iff. now apply Hall.
Qed.

Lemma ranked_rows_In top_n rows row :
  In row (head top_n (sort_desc_by_column 0 rows)) -> In row rows.
Proof.
  intros H. apply head_In in H. unfold sort_desc_by_column in H.
  now apply sort_by_In in H.
Qed.

Lemma ranked_rows_all top_n rows row :
  Z.of_nat (List.length rows) <= top_n ->
  In row rows -> In row (head top_n (sort_desc_by_column 0 rows)).
Proof.
  intros Hn H. rewrite head_all.
  - unfold sort_desc_by_column. now apply sort_by_In.
  - unfold sort_desc_by_column. now rewrite sort_by_length.
Qed.

Lemma aggregated_row_In group_col agg_dict bucket row :
  In row (g_rows (aggregated_table group_col agg_dict bucket)) ->
  (exists r, In r bucket /\ name_value group_col r = fst row)
  /\ snd row
     = map (fun e =>
              agg_cell e (group_rows (name_value group_col) (fst row) bucket))
         agg_dict.
Proof.
  unfold aggregated_table; simpl. intros H.
  apply in_map_iff in H as (k & <- & Hk). simpl.
  split; [|reflexivity]. now apply group_keys_In.
Qed.

Lemma aggregated_table_length group_col agg_dict bucket :
  List.length (g_rows (aggregated_table group_col agg_dict bucket))
  = List.length (group_keys (name_value group_col) bucket).
Proof. unfold aggregated_table; simpl. apply length_map. Qed.

(** The ranked table has one row per group: no key twice. *)
Lemma ranked_rows_NoDup group_col agg_dict bucket top_n :
  NoDup (map fst
           (head top_n
              (sort_desc_by_column 0
                 (g_rows (aggregated_table group_col agg_dict bucket))))).
Proof.
  apply head_NoDup. unfold sort_desc_by_column.
  eapply Permutation_NoDup;
    [apply Permutation_map, sort_by_perm|].
  rewrite aggregated_table_keys. apply group_keys_NoDup.
Qed.

(** The row of a group of the bucket is kept, or the table is cut at
    topN rows and every row that is kept has a first column that is not
    smaller. *)
Lemma ranked_rows_selection group_col agg_dict bucket top_n r :
  In r bucket ->
  let row :=
    (name_value group_col r,
     map (fun e =>
            agg_cell e
              (group_rows (name_value group_col) (name_value group_col r)
                 bucket))
       agg_dict) in
  let table :=
    head top_n
      (sort_desc_by_column 0
         (g_rows (aggregated_table group_col agg_dict bucket))) in
  In row table
  \/ ((0 <= top_n -> Z.of_nat (List.length table) = top_n)
      /\ forall kept, In kept table -> first_column_ge kept row).
Proof.
  intros Hr row table. unfold table.
  apply head_selection; [apply sort_desc_by_column_sorted|].
  unfold sort_desc_by_column. apply sort_by_In.
  unfold aggregated_table; cbn [g_rows].
  apply (in_map (fun k =>
                   (k, map (fun e =>
                              agg_cell e
                                (group_rows (name_value group_col) k bucket))
                         agg_dict))).
  apply group_keys_In. eauto.
Qed.

(** X18: the country performance table ranks the countries of the
    filtered records by descending total of passengers and keeps at most
    topN of them, each once; each row carries the passenger total of all
    the filtered records of its country and a route count of at least 1.
    Every country of the filtered records has its row in the table,
    unless the table is cut at topN rows, and then no country that is
    kept has a smaller passenger total than the country that is left
    out; a topN of at least the number of countries keeps every
    country. *)
Theorem country_performance_ranking
    (rows : list TrafficRecord) (sy sm ey em top_n : Z) :
  let filtered :=
    df_rows (filter_data_by_period (full_frame rows) sy sm ey em) in
  exists table,
    analyze_geographical_patterns (full_frame rows) sy sm ey em
      "country_performance" top_n = ret (CountryPerformance table)
    /\ StronglySorted first_column_ge (g_rows table)
    /\ (0 <= top_n -> Z.of_nat (List.length (g_rows table)) <= top_n)
    /\ (forall row, In row (g_rows table) ->
          (exists r, In r filtered /\ Country r = fst row)
          /\ agg_value 0 row
             = qsum (map Passengers_Total
                       (group_rows Country (fst row) filtered))
          /\ (1 <= agg_value 3 row)%Q)
    /\ (Z.of_nat (List.length (group_keys Country filtered)) <= top_n ->
        forall r, In r filtered -> In (Country r) (map fst (g_rows table)))
    /\ NoDup (map fst (g_rows table))
    /\ (forall r, In r filtered ->
          In (Country r) (map fst (g_rows table))
          \/ ((0 <= top_n -> Z.of_nat (List.length (g_rows table)) = top_n)
              /\ forall kept, In kept (g_rows table) ->
                   (qsum (map Passengers_Total
                            (group_rows Country (Country r) filtered))
                    <= agg_value 0 kept)%Q)).
Proof.
  intros filtered.
  exists (mkGrouped ("Country" :: map agg_key country_agg_dict)
            (head top_n
               (sort_desc_by_column 0
                  (g_rows (aggregated_table ColCountry country_agg_dict
                             filtered))))).
  split; [reflexivity|]. cbn [g_rows].
  split; [apply head_sorted, sort_desc_by_column_sorted|].
  split; [apply head_length|].
  split.
  - intros row Hrow. apply ranked_rows_In in Hrow.
    apply aggregated_row_In in Hrow as [Hrec Hval].
    split; [exact Hrec|].
    unfold agg_value, g_value. rewrite Hval. simpl.
    split; [reflexivity|].
    apply nunique_pos. intros E. apply map_eq_nil in E.
    destruct Hrec as (r & Hr & Hk).
    assert (Hin : In r (group_rows Country (fst row) filtered)).
    { apply filter_In. split; [exact Hr|]. now apply String.eqb_eq. }
    rewrite E in Hin. exact Hin.
  - split; [|split].
    + intros Hn r Hr.
      assert (Hk : In (Country r) (group_keys Country filtered))
        by (apply group_keys_In; eauto).
      rewrite <- (aggregated_table_keys ColCountry country_agg_dict) in Hk.
      apply in_map_iff in Hk as (row & E & Hrow).
      apply in_map_iff. exists row. split; [exact E|].
      apply ranked_rows_all; [|exact Hrow].
      now rewrite aggregated_table_length.
    + apply ranked_rows_NoDup.
    + intros r Hr.
      destruct (ranked_rows_selection ColCountry country_agg_dict filtered
                  top_n r Hr) as [H|[Hfull Hkept]].
      * left. apply in_map_iff. eexists. split; [|exact H]. reflexivity.
      * right. split; [exact Hfull|]. intros kept Hk.
        apply (Hkept kept Hk).
Qed.

Lemma country_performance_ranking_witness :
  exists table,
    analyze_geographical_patterns (full_frame growth_sample) 1985 1 1989 12
      "country_performance" 2 = ret (CountryPerformance table)
    /\ map fst (g_rows table) = ["UK"; "Japan"]
    /\ Z.of_nat (List.length (g_rows table)) <= 2.
Proof.
  destruct (country_performance_ranking growth_sample 1985 1 1989 12 2)
    as (table & E & _ & H & _).
  exists table. split; [exact E|].
  split; [injection E as <-; reflexivity|]. apply H. lia.
Defined.

(** X19: the port connectivity table ranks the Australian ports of the
    filtered records by descending number of distinct countries served
    and keeps at most topN of them, each once; each row counts at least
    one country and at least one foreign port, and carries the passenger
    total of the port.  Every port of the filtered records has its row
    in the table, unless the table is cut at topN rows, and then no port
    that is kept serves fewer countries than the port that is left out;
    a topN of at least the number of ports keeps every port. *)
Theorem port_connectivity_ranking
    (rows : list TrafficRecord) (sy sm ey em top_n : Z) :
  let filtered :=
    df_rows (filter_data_by_period (full_frame rows) sy sm ey em) in
  exists table,
    analyze_geographical_patterns (full_frame rows) sy sm ey em
      "port_connectivity" top_n = ret (PortConnectivity table)
    /\ StronglySorted first_column_ge (g_rows table)
    /\ (0 <= top_n -> Z.of_nat (List.length (g_rows table)) <= top_n)
    /\ (forall row, In row (g_rows table) ->
          (exists r, In r filtered /\ AustralianPort r = fst row)
          /\ agg_value 0 row
             = nunique (map Country
                          (group_rows AustralianPort (fst row) filtered))
          /\ (1 <= agg_value 0 row)%Q
          /\ (1 <= agg_value 1 row)%Q
          /\ agg_value 2 row
             = qsum (map Passengers_Total
                       (group_rows AustralianPort (fst row) filtered)))
    /\ (Z.of_nat (List.length (group_keys AustralianPort filtered)) <= top_n ->
        forall r, In r filtered ->
                  In (AustralianPort r) (map fst (g_rows table)))
    /\ NoDup (map fst (g_rows table))
    /\ (forall r, In r filtered ->
          In (AustralianPort r) (map fst (g_rows table))
          \/ ((0 <= top_n -> Z.of_nat (List.length (g_rows table)) = top_n)
              /\ forall kept, In kept (g_rows table) ->
                   (nunique (map Country
                               (group_rows AustralianPort (AustralianPort r)
                                  filtered))
                    <= agg_value 0 kept)%Q)).
Proof.
  intros filtered.
  exists (mkGrouped ("AustralianPort" :: map agg_key connectivity_agg_dict)
            (head top_n
               (sort_desc_by_column 0
                  (g_rows (aggregated_table ColAustralianPort
                             connectivity_agg_dict filtered))))).
  split; [reflexivity|]. cbn [g_rows].
  split; [apply head_sorted, sort_desc_by_column_sorted|].
  split; [apply head_length|].
  split; [|split; [|split]].
  - intros row Hrow. apply ranked_rows_In in Hrow.
    apply aggregated_row_In in Hrow as [Hrec Hval].
    split; [exact Hrec|].
    unfold agg_value, g_value. rewrite Hval. simpl.
    assert (Hne : group_rows AustralianPort (fst row) filtered <> []).
    { destruct Hrec as (r & Hr & Hk). intros E.
      assert (Hin : In r (group_rows AustralianPort (fst row) filtered)).
      { apply filter_In. split; [exact Hr|]. now apply String.eqb_eq. }
      rewrite E in Hin. exact Hin. }
    repeat split.
    + apply nunique_pos. intros E. now apply map_eq_nil in E.
    + apply nunique_pos. intros E. now apply map_eq_nil in E.
  - intros Hn r Hr.
    assert (Hk : In (AustralianPort r) (group_keys AustralianPort filtered))
      by (apply group_keys_In; eauto).
    rewrite <- (aggregated_table_keys ColAustralianPort connectivity_agg_dict)
      in Hk.
    apply in_map_iff in Hk as (row & E & Hrow).
    apply in_map_iff. exists row. split; [exact E|].
    apply ranked_rows_all; [|exact Hrow].
    now rewrite aggregated_table_length.
  - apply ranked_rows_NoDup.
  - intros r Hr.
    destruct (ranked_rows_selection ColAustralianPort connectivity_agg_dict
                filtered top_n r Hr) as [H|[Hfull Hkept]].
    + left. apply in_map_iff. eexists. split; [|exact H]. reflexivity.
    + right. split; [exact Hfull|]. intros kept Hk.
      apply (Hkept kept Hk).
Qed.

Lemma port_connectivity_ranking_witness :
  exists table,
    analyze_geographical_patterns (full_frame growth_sample) 1985 1 1989 12
      "port_connectivity" 1 = ret (PortConnectivity table)
    /\ map fst (g_rows table) = ["Adelaide"]
    /\ Z.of_nat (List.length (g_rows table)) <= 1.
Proof.
  destruct (port_connectivity_ranking growth_sample 1985 1 1989 12 1)
    as (table & E & _ & H & _).
  exists table. split; [exact E|].
  split; [injection E as <-; reflexivity|]. apply H. lia.
Defined.

(** ** A baseline of zero *)

Lemma growth_of_zero_base (cur base : Q) :
  (base == 0)%Q ->
  ((0 < cur)%Q -> growth_of cur (Fin base) = PosInf)
  /\ ((cur < 0)%Q -> growth_of cur (Fin base) = NegInf).
Proof.
  intros Hb. unfold growth_of, xsub, xneg, xadd, xdiv, qdiv, Qltb.
  apply Qeq_bool_iff in Hb as Eb. rewrite Eb.
  split; intros Hc.
  - assert (E : Qle_bool (cur + - base) 0 = false).
    { destruct (Qle_bool (cur + - base) 0) eqn:E; [|reflexivity].
      apply Qle_bool_iff in E. lra. }
    rewrite E. reflexivity.
  - assert (E1 : Qle_bool (cur + - base) 0 = true)
      by (apply Qle_bool_iff; lra).
    assert (E2 : Qle_bool 0 (cur + - base) = false).
    { destruct (Qle_bool 0 (cur + - base)) eqn:E; [|reflexivity].
      apply Qle_bool_iff in E. lra. }
    rewrite E1, E2. reflexivity.
Qed.

(** X20: every row of the regional growth table has a baseline, and its
    growth rate is (latest - baseline) / baseline * 100 computed without
    a guard: a baseline of zero with a positive latest total gives an
    infinite growth rate, which the table keeps. *)
Theorem regional_growth_rates
    (rows : list TrafficRecord) (top_n : Z) (g : GrowthRow) :
  In g (regional_growth rows top_n) ->
  exists base,
    prev_year_passengers g = Fin base
    /\ growth_rate g = growth_of (gr_passengers g) (Fin base)
    /\ (~ (base == 0)%Q ->
        growth_rate g = Fin ((gr_passengers g + - base) / base * 100))
    /\ ((base == 0)%Q -> (0 < gr_passengers g)%Q -> growth_rate g = PosInf)
    /\ ((base == 0)%Q -> (gr_passengers g < 0)%Q -> growth_rate g = NegInf).
Proof.
  intros Hg. apply regional_growth_In, latest_growth_In in Hg
    as (Hg & _ & Hp & _).
  apply with_growth_In in Hg as (pre & r & post & _ & ->).
  simpl in *. unfold previous_of in *.
  destruct (dict_get (latest_totals pre []) (snd (fst r))) as [base|];
    [|discriminate].
  exists base. split; [reflexivity|]. split; [reflexivity|].
  split; [apply growth_of_nonzero|].
  split; intros Hb; now apply growth_of_zero_base.
Qed.

Lemma regional_growth_rates_witness :
  exists base,
    prev_year_passengers (mkGrowth 1986 "Japan" 50 (Fin 0) PosInf) = Fin base
    /\ growth_rate (mkGrowth 1986 "Japan" 50 (Fin 0) PosInf)
       = growth_of 50 (Fin base).
Proof.
  destruct (regional_growth_rates new_market_sample 10
              (mkGrowth 1986 "Japan" 50 (Fin 0) PosInf))
    as (base & H1 & H2 & _).
  - vm_compute. left. reflexivity.
  - exists base. split; assumption.
Defined.

(** ** The columns of the port and hub tables *)

Lemma period_results_month df sy sm ey em group_col agg_dict aggregate_by
    period_results year month aggregated :
  filter_and_aggregate_by_period df sy sm ey em group_col agg_dict aggregate_by
  = ret period_results ->
  In (year, month, aggregated) period_results ->
  map fst (fst (fst (format_results_summary aggregated None year month)))
  = period_columns aggregate_by.
Proof.
  unfold filter_and_aggregate_by_period, period_columns.
  destruct (String.eqb aggregate_by "Month"); intros H Hin;
    destruct (map_result_inv _ _ _ H _ Hin) as (x & _ & Hfx);
    match type of Hfx with
    | bind ?m _ = _ => destruct m; simpl in Hfx; [discriminate|]
    end;
    inversion Hfx; subst; reflexivity.
Qed.

Lemma dict_set_keys {V : Type} (d : list (string * V)) (k : string)
    (v v' : V) :
  map fst (dict_set d k v) = map fst (dict_set d k v').
Proof.
  induction d as [|[k0 v0] d IH]; simpl; [reflexivity|].
  destruct (String.eqb k k0); simpl; [reflexivity|]. now rewrite IH.
Qed.

Lemma dict_set_keys_ext {V : Type} (d d' : list (string * V)) (k : string)
    (v v' : V) :
  map fst d = map fst d' ->
  map fst (dict_set d k v) = map fst (dict_set d' k v').
Proof.
  revert d'. induction d as [|[k0 v0] d IH]; intros [|[k0' v0'] d'] H;
    simpl in *; try discriminate; [reflexivity|].
  inversion H; subst.
  destruct (String.eqb k k0'); simpl; [congruence|].
  f_equal. now apply IH.
Qed.

Lemma dict_update_keys {V : Type} (d d' kvs kvs' : list (string * V)) :
  map fst d = map fst d' -> map fst kvs = map fst kvs' ->
  map fst (dict_update d kvs) = map fst (dict_update d' kvs').
Proof.
  unfold dict_update. revert d d' kvs'.
  induction kvs as [|[k v] kvs IH]; intros d d' [|[k' v'] kvs'] Hd Hk;
    simpl in *; try discriminate; [exact Hd|].
  inversion Hk; subst. apply IH; [|assumption].
  now apply dict_set_keys_ext.
Qed.

Lemma hub_fields_keys hub_data level threshold weights top_n row :
  map fst (hub_fields hub_data level threshold weights top_n row)
  = map fst (dict_update row hub_no_data).
Proof.
  unfold hub_fields.
  destruct (g_rows hub_data); [reflexivity|].
  destruct (hub_entities weights threshold hub_data); [reflexivity|].
  apply dict_update_keys; reflexivity.
Qed.

(** X21: every row of [analyze_hub_utilization] has the columns Year,
    Month (monthly granularity only), Hub_Ports, Avg_Utilization_Score
    and Avg_Routes, in this order, whether the bucket has hubs above the
    threshold or not. *)
Theorem hub_row_columns
    (df : DataFrame) (sy sm ey em : Z) (aggregate_by level : string)
    (specific_ports : option (list string)) (threshold : Q)
    (weights : option cargo_weights) (top_n : Z)
    (out : list Row) (row : Row) :
  analyze_hub_utilization df sy sm ey em aggregate_by level
    specific_ports threshold weights top_n = ret out ->
  In row out ->
  map fst row = (period_columns aggregate_by ++ hub_columns)%list.
Proof.
  unfold analyze_hub_utilization.
  destruct (filter_and_aggregate_by_period _ _ _ _ _ _ _ _)
    as [e|prs] eqn:Hprs; simpl; [discriminate|].
  intros H Hrow. inversion H; subst; clear H.
  apply in_map_iff in Hrow as ([[year month] hub_data] & <- & Hin).
  unfold hub_row. rewrite hub_fields_keys.
  pose proof (period_results_month _ _ _ _ _ _ _ _ _ _ _ _ Hprs Hin) as Hk.
  revert Hk.
  generalize (fst (fst (format_results_summary hub_data None year month))).
  intros row0 Hk. unfold period_columns in *.
  destruct (String.eqb aggregate_by "Month").
  - destruct row0 as [|[k1 v1] [|[k2 v2] [|]]]; simpl in Hk; try discriminate.
    inversion Hk; subst. reflexivity.
  - destruct row0 as [|[k1 v1] [|]]; simpl in Hk; try discriminate.
    inversion Hk; subst. reflexivity.
Qed.

Lemma hub_row_columns_witness :
  analyze_hub_utilization (full_frame january_1985) 1985 1 1985 12
    "Year" "Least" None 1 None 10
  = ret [[ ("Year", CInt 1985);
           ("Hub_Ports", CStr "Melbourne, Sydney");
           ("Avg_Utilization_Score", CStr "130.0");
           ("Avg_Routes", CStr "1.0") ]]
  /\ map fst [ ("Year", CInt 1985);
               ("Hub_Ports", CStr "Melbourne, Sydney");
               ("Avg_Utilization_Score", CStr "130.0");
               ("Avg_Routes", CStr "1.0") ]
     = (period_columns "Year" ++ hub_columns)%list.
Proof.
  split; [reflexivity|].
  apply (hub_row_columns (full_frame january_1985) 1985 1 1985 12
           "Year" "Least" None 1 None 10 _ _ eq_refl (or_introl eq_refl)).
Defined.

Lemma flow_fields_keys cargo_type mapping port_data level threshold top_n
    row row' :
  In (cargo_in mapping) (tl (g_columns port_data)) ->
  In (cargo_out mapping) (tl (g_columns port_data)) ->
  map fst row = map fst row' ->
  map fst (flow_fields cargo_type mapping port_data level threshold top_n row)
  = map fst (dict_update row'
               [ (title cargo_type ++ "_Ports", CStr "");
                 (title cargo_type ++ "_Avg_Efficiency", CStr "") ]).
Proof.
  intros Hin Hout Hrow. unfold flow_fields.
  destruct (col_index_In _ _ Hin) as [i ->].
  destruct (col_index_In _ _ Hout) as [j ->].
  destruct (get_top_entities _ _ _ _);
    apply dict_update_keys; auto.
Qed.

(** X22: with the three default cargo types, every row of
    [analyze_port_flow_efficiency] has the columns Year, Month (monthly
    granularity only), then the ports and the average efficiency of
    passengers, freight and mail, in this order, whether ports pass the
    volume threshold or not. *)
Theorem flow_row_columns
    (df : DataFrame) (sy sm ey em : Z) (aggregate_by level : string)
    (specific_ports : option (list string)) (threshold : Q) (top_n : Z)
    (out : list Row) (row : Row) :
  analyze_port_flow_efficiency df sy sm ey em default_cargo_types
    aggregate_by level specific_ports threshold top_n = ret out ->
  In row out ->
  map fst row = (period_columns aggregate_by ++ flow_columns)%list.
Proof.
  unfold analyze_port_flow_efficiency.
  destruct (filter_and_aggregate_by_period _ _ _ _ _ _ _ _)
    as [e|prs] eqn:Hprs; simpl; [discriminate|].
  intros H Hrow. inversion H; subst; clear H.
  apply in_map_iff in Hrow as ([[year month] port_data] & <- & Hin).
  pose proof (period_results_month _ _ _ _ _ _ _ _ _ _ _ _ Hprs Hin) as Hk.
  destruct (period_results_bucket _ _ _ _ _ _ _ _ _ _ _ _ Hprs Hin)
    as (bucket & _ & _ & Hagg).
  unfold flow_row. revert Hk.
  generalize (fst (fst (format_results_summary port_data None year month))).
  intros row0 Hk. subst port_data.
  set (table := aggregated_table ColAustralianPort
                  (flow_agg_dict default_cargo_types) bucket).
  assert (Hcols : tl (g_columns table)
                  = [ "Passengers_In"; "Passengers_Out";
                      "Freight_In_(tonnes)"; "Freight_Out_(tonnes)";
                      "Mail_In_(tonnes)"; "Mail_Out_(tonnes)" ])
    by reflexivity.
  cbn [default_cargo_types fold_left].
  change (get_cargo_columns "passengers")
    with (Some (mkCargo "Passengers_In" "Passengers_Out" "Passengers_Total")).
  change (get_cargo_columns "freight")
    with (Some (mkCargo "Freight_In_(tonnes)" "Freight_Out_(tonnes)"
                  "Freight_Total_(tonnes)")).
  change (get_cargo_columns "mail")
    with (Some (mkCargo "Mail_In_(tonnes)" "Mail_Out_(tonnes)"
                  "Mail_Total_(tonnes)")).
  cbv iota beta.
  set (keys0 := map (fun k => (k, CStr "")) (period_columns aggregate_by)).
  assert (H0 : map fst row0 = map fst keys0).
  { unfold keys0. rewrite map_map. simpl. now rewrite map_id. }
  rewrite (flow_fields_keys "mail" _ table level threshold top_n _
             (dict_update
                (dict_update keys0
                   [ (title "passengers" ++ "_Ports", CStr "");
                     (title "passengers" ++ "_Avg_Efficiency", CStr "") ])
                [ (title "freight" ++ "_Ports", CStr "");
                  (title "freight" ++ "_Avg_Efficiency", CStr "") ])).
  - unfold keys0, period_columns.
    destruct (String.eqb aggregate_by "Month"); reflexivity.
  - rewrite Hcols. simpl; tauto.
  - rewrite Hcols. simpl; tauto.
  - apply flow_fields_keys.
    + rewrite Hcols. simpl; tauto.
    + rewrite Hcols. simpl; tauto.
    + apply flow_fields_keys; [rewrite Hcols; simpl; tauto..|exact H0].
Qed.

Lemma flow_row_columns_witness :
  analyze_port_flow_efficiency (full_frame [balanced_50_50]) 1985 1 1985 12
    ["passengers"; "freight"; "mail"] "Year" "Most" None 0 10
  = ret [[ ("Year", CInt 1985);
           ("Passengers_Ports", CStr "Sydney");
           ("Passengers_Avg_Efficiency", CStr "0.980");
           ("Freight_Ports", CStr "Sydney");
           ("Freight_Avg_Efficiency", CStr "0.000");
           ("Mail_Ports", CStr "Sydney");
           ("Mail_Avg_Efficiency", CStr "0.000") ]]
  /\ map fst [ ("Year", CInt 1985);
               ("Passengers_Ports", CStr "Sydney");
               ("Passengers_Avg_Efficiency", CStr "0.980");
               ("Freight_Ports", CStr "Sydney");
               ("Freight_Avg_Efficiency", CStr "0.000");
               ("Mail_Ports", CStr "Sydney");
               ("Mail_Avg_Efficiency", CStr "0.000") ]
     = (period_columns "Year" ++ flow_columns)%list.
Proof.
  split; [reflexivity|].
  apply (flow_row_columns (full_frame [balanced_50_50]) 1985 1 1985 12
           "Year" "Most" None 0 10 _ _ eq_refl (or_introl eq_refl)).
Defined.

(** ** The data behind the charts *)

Lemma nlargest_values {A : Type} (value : A -> Q) (n : Z) (data : list A) :
  0 < n ->
  nlargest (fun a => Fin (value a)) n data
  = firstn (Z.to_nat n)
      (sort_by (fun a b => Qle_bool (value b) (value a)) data).
Proof.
  intros Hn. unfold nlargest.
  assert (E : (n <=? 0) = false) by (apply Z.leb_gt; lia).
  rewrite E.
  rewrite (filter_all_true (has_score _) data) by reflexivity.
  rewrite (filter_none (fun a => is_nan (Fin (value a))) data) by reflexivity.
  now rewrite app_nil_r.
Qed.

Lemma sort_desc_values_sorted {A : Type} (value : A -> Q) (data : list A) :
  StronglySorted (fun a b => (value b <= value a)%Q)
    (sort_by (fun a b => Qle_bool (value b) (value a)) data).
Proof.
  assert (H : StronglySorted
                (fun a b => Qle_bool (value b) (value a) = true)
                (sort_by (fun a b => Qle_bool (value b) (value a)) data)).
  { apply sort_by_sorted.
    - intros a b. destruct (Qle_bool_total (value a) (value b)); auto.
    - intros a b c. rewrite !Qle_bool_iff. intros H1 H2.
      eapply Qle_trans; eauto. }
  induction H as [|a l Hs IH Hall]; constructor; [exact IH|].
  rewrite Forall_forall in *. intros b Hb.
  apply Qle_bool_iff. now apply Hall.
Qed.

Lemma firstn_nonempty {A : Type} (n : nat) (l : list A) :
  (0 < n)%nat -> l <> [] -> firstn n l <> [].
Proof.
  destruct n; [lia|]. destruct l; [congruence|]. discriminate.
Qed.

(** X23: [create_investment_priority_analysis] computes its bars only
    when the period has records: on an empty period the call
    [max(route_totals.values)] raises [ValueError].  Otherwise the bars
    are the ten routes of the period with the largest totals of
    passengers, or all the routes when there are at most ten: one bar
    per route, no route twice, in descending order of total, and a route
    without a bar has a total that is not larger than any bar.
    [max_value] is the value of the first bar. *)
Theorem investment_priority_bars
    (rows : list TrafficRecord) (sy sm ey em : Z) :
  let filtered :=
    df_rows (filter_data_by_period (full_frame rows) sy sm ey em) in
  (filtered = [] ->
   exists message,
     investment_priority_data (full_frame rows) sy sm ey em
     = raise (ValueError message))
  /\ (filtered <> [] ->
      exists first rest max_value,
        investment_priority_data (full_frame rows) sy sm ey em
        = ret (first :: rest, max_value)
        /\ List.length (first :: rest)
           = Nat.min 10 (List.length (group_keys Route filtered))
        /\ StronglySorted bar_ge (first :: rest)
        /\ (max_value == snd first)%Q
        /\ (forall bar, In bar (first :: rest) ->
              (exists r, In r filtered /\ Route r = fst bar)
              /\ snd bar
                 = qsum (map Passengers_Total
                           (group_rows Route (fst bar) filtered)))
        /\ NoDup (map fst (first :: rest))
        /\ (forall r, In r filtered ->
              In (Route r) (map fst (first :: rest))
              \/ (List.length (first :: rest) = 10%nat
                  /\ forall bar, In bar (first :: rest) ->
                       (qsum (map Passengers_Total
                                (group_rows Route (Route r) filtered))
                        <= snd bar)%Q))).
Proof.
  intros filtered.
  set (totals := map (fun route =>
                        (route, qsum (map Passengers_Total
                                        (group_rows Route route filtered))))
                   (group_keys Route filtered)).
  assert (Hdata : forall bars,
             bars = firstn 10 (sort_by (fun a b : string * Q =>
                                          Qle_bool (snd b) (snd a)) totals) ->
             investment_priority_data (full_frame rows) sy sm ey em
             = match bars with
               | [] => raise (ValueError "max() arg is an empty sequence")
               | _ :: _ => ret (bars, q_max (map snd bars))
               end).
  { intros bars ->. unfold investment_priority_data. simpl bind.
    rewrite (nlargest_values snd 10) by lia. reflexivity. }
  split.
  - intros Hnil. eexists. rewrite (Hdata [] ); [reflexivity|].
    unfold totals. rewrite Hnil. reflexivity.
  - intros Hne.
    set (sorted := sort_by (fun a b : string * Q => Qle_bool (snd b) (snd a))
                     totals) in *.
    specialize (Hdata (firstn 10 sorted) eq_refl). rewrite Hdata.
    assert (Hsorted : StronglySorted bar_ge sorted)
      by apply (sort_desc_values_sorted snd).
    assert (Hs : StronglySorted bar_ge (firstn 10 sorted))
      by now apply firstn_sorted.
    assert (Hlen : List.length (firstn 10 sorted)
                   = Nat.min 10 (List.length (group_keys Route filtered))).
    { rewrite length_firstn. unfold sorted.
      rewrite sort_by_length. unfold totals. now rewrite length_map. }
    assert (Hin : forall bar, In bar (firstn 10 sorted) -> In bar totals).
    { intros bar Hb. apply firstn_In in Hb. now apply sort_by_In in Hb. }
    assert (Hnd : NoDup (map fst (firstn 10 sorted))).
    { assert (H : NoDup (map fst sorted)).
      { eapply Permutation_NoDup;
          [apply Permutation_map, sort_by_perm|].
        unfold totals. rewrite map_map. cbn [fst]. rewrite map_id.
        apply group_keys_NoDup. }
      rewrite <- (firstn_skipn 10 sorted), map_app in H.
      now apply NoDup_app_remove_r in H. }
    assert (Hsel : forall r, In r filtered ->
              In (Route r) (map fst (firstn 10 sorted))
              \/ (List.length (firstn 10 sorted) = 10%nat
                  /\ forall bar, In bar (firstn 10 sorted) ->
                       (qsum (map Passengers_Total
                                (group_rows Route (Route r) filtered))
                        <= snd bar)%Q)).
    { intros r Hr.
      assert (Hb : In (Route r,
                       qsum (map Passengers_Total
                               (group_rows Route (Route r) filtered)))
                     sorted).
      { unfold sorted. apply sort_by_In. unfold totals.
        apply (in_map (fun route =>
                         (route, qsum (map Passengers_Total
                                         (group_rows Route route filtered))))).
        apply group_keys_In. eauto. }
      destruct (firstn_selection bar_ge 10 sorted _ Hsorted Hb)
        as [H|[H1 H2]].
      - left. apply in_map_iff. eexists. split; [|exact H]. reflexivity.
      - right. split; [exact H1|]. intros bar Hbar.
        apply (H2 bar Hbar). }
    assert (Hnonempty : firstn 10 sorted <> []).
    { apply firstn_nonempty; [lia|]. unfold sorted.
      apply sort_by_nonempty. unfold totals. intros E.
      apply map_eq_nil in E. revert E. now apply group_keys_nonempty. }
    destruct (firstn 10 sorted) as [|first rest]; [congruence|].
    exists first, rest, (q_max (map snd (first :: rest))).
    split; [reflexivity|]. split; [exact Hlen|]. split; [exact Hs|].
    split; [|split; [|split; [exact Hnd|exact Hsel]]].
    + destruct (q_max_spec (map snd (first :: rest)) ltac:(discriminate))
        as [Hmem Hmax].
      apply Qle_antisym.
      * apply in_map_iff in Hmem as (bar & <- & [<-|Hbar]);
          [apply Qle_refl|].
        inversion Hs as [|? ? _ Hall]; subst.
        rewrite Forall_forall in Hall. now apply Hall.
      * apply Hmax. now left.
    + intros bar Hbar. apply Hin in Hbar. unfold totals in Hbar.
      apply in_map_iff in Hbar as (route & <- & Hroute). simpl.
      split; [|reflexivity]. now apply group_keys_In.
Qed.

Lemma investment_priority_bars_witness :
  (exists message,
     investment_priority_data (full_frame january_1985) 1990 1 1990 12
     = raise (ValueError message))
  /\ exists first rest max_value,
       investment_priority_data (full_frame january_1985) 1985 1 1985 12
       = ret (first :: rest, max_value)
       /\ map fst (first :: rest) = ["Sydney-London"; "Melbourne-Tokyo"]
       /\ (max_value == snd first)%Q.
Proof.
  split.
  - apply (proj1 (investment_priority_bars january_1985 1990 1 1990 12)).
    reflexivity.
  - destruct (proj2 (investment_priority_bars january_1985 1985 1 1985 12))
      as (first & rest & max_value & E & _ & _ & Hmax & _);
      [discriminate|].
    exists first, rest, max_value. split; [exact E|].
    split; [injection E as <- <- _; reflexivity|exact Hmax].
Defined.

(** *** Markets *)

Lemma flat_map_nil {A B : Type} (f : A -> list B) (l : list A) :
  (forall x, In x l -> f x = []) -> flat_map f l = [].
Proof.
  induction l as [|x l IH]; intros H; simpl; [reflexivity|].
  rewrite (H x) by now left. apply IH. intros y Hy. apply H. now right.
Qed.

Lemma country_filter_years_NoDup (l : list YearCountry) (country : string) :
  NoDup (map yc_key l) ->
  NoDup (map (fun r : YearCountry => fst (fst r))
           (filter (fun r => String.eqb (snd (fst r)) country) l)).
Proof.
  induction l as [|x l IH]; simpl; intros Hnd; [constructor|].
  inversion Hnd as [|? ? Hx Hl]; subst.
  destruct (String.eqb_spec (snd (fst x)) country) as [E|E];
    [|now apply IH].
  simpl. constructor; [|now apply IH].
  intros Hin. apply in_map_iff in Hin as (x' & Hy & Hx').
  apply filter_In in Hx' as [Hx' Hc]. apply String.eqb_eq in Hc.
  apply Hx. apply in_map_iff. exists x'. split; [|exact Hx'].
  unfold yc_key. destruct x as [[y c] v], x' as [[y' c'] v'].
  simpl in *. congruence.
Qed.

Lemma country_data_perm yearly country :
  Permutation
    (filter (fun r => String.eqb (snd (fst r)) country) yearly)
    (country_data yearly country).
Proof. unfold country_data. apply sort_by_perm. Qed.

Lemma country_data_years_NoDup rows country :
  NoDup (map (fun r : YearCountry => fst (fst r))
           (country_data (yearly_country_totals rows) country)).
Proof.
  eapply Permutation_NoDup.
  - apply Permutation_map, country_data_perm.
  - apply country_filter_years_NoDup.
    rewrite yearly_keys. apply year_country_keys_NoDup.
Qed.

Lemma country_data_record rows country r :
  In r (country_data (yearly_country_totals rows) country) ->
  exists t, In t rows /\ Year t = fst (fst r) /\ Country t = country.
Proof.
  intros H.
  apply (Permutation_in _ (Permutation_sym (country_data_perm _ _))) in H.
  apply filter_In in H as [H Hc]. apply String.eqb_eq in Hc.
  apply yearly_record in H as (t & Ht & Hy & Hct).
  exists t. repeat split; congruence.
Qed.

Lemma country_data_length rows country :
  (List.length (country_data (yearly_country_totals rows) country)
   <= distinct_years rows)%nat.
Proof.
  unfold distinct_years.
  rewrite <- (length_map (fun r : YearCountry => fst (fst r))).
  apply NoDup_incl_length; [apply country_data_years_NoDup|].
  intros y Hy. apply in_map_iff in Hy as (r & <- & Hr).
  apply country_data_record in Hr as (t & Ht & <- & _).
  apply nodup_In. now apply in_map.
Qed.

(** X24: [create_market_expansion_opportunities] needs a country with at
    least three yearly rows.  When the records of the period span fewer
    than three distinct years no country qualifies, the table of metrics
    has no column, and selecting the largest markets raises
    [KeyError]. *)
Theorem market_expansion_short_period
    (rows : list TrafficRecord) (sy sm ey em : Z) :
  (distinct_years
     (df_rows (filter_data_by_period (full_frame rows) sy sm ey em)) < 3)%nat ->
  market_expansion_data (full_frame rows) sy sm ey em
  = raise (KeyError "Total_Passengers").
Proof.
  intros Hy. unfold market_expansion_data.
  change (select_metric (filter_data_by_period (full_frame rows) sy sm ey em)
            "Passengers_Total")
    with (@ret (TrafficRecord -> Q) Passengers_Total).
  unfold bind, ret.
  set (filtered := df_rows (filter_data_by_period (full_frame rows)
                              sy sm ey em)) in *.
  assert (E : country_metrics filtered = []).
  { unfold country_metrics. apply flat_map_nil. intros country _.
    pose proof (country_data_length filtered country) as Hlen.
    destruct (country_data (yearly_country_totals filtered) country)
      as [|first data]; [reflexivity|].
    assert (Hlt : (3 <=? Z.of_nat (List.length (first :: data))) = false)
      by (apply Z.leb_gt; lia).
    now rewrite Hlt. }
  now rewrite E.
Qed.

Lemma market_expansion_short_period_witness :
  market_expansion_data (full_frame january_1985) 1985 1 1985 12
  = raise (KeyError "Total_Passengers").
Proof.
  apply (market_expansion_short_period january_1985 1985 1 1985 12).
  vm_compute. lia.
Defined.

Lemma last_in {A : Type} (l : list A) (x d : A) : In (last (x :: l) d) (x :: l).
Proof.
  revert x. induction l as [|y l IH]; intros x; [now left|].
  change (last (x :: y :: l) d) with (last (y :: l) d). right. apply IH.
Qed.

Lemma StronglySorted_last {A : Type} (R : A -> A -> Prop) (l : list A)
    (x d : A) :
  StronglySorted R l -> In x l -> x = last l d \/ R x (last l d).
Proof.
  induction 1 as [|y l Hs IH Hall]; intros Hx; [destruct Hx|].
  destruct l as [|z l].
  - destruct Hx as [<-|[]]. now left.
  - change (last (y :: z :: l) d) with (last (z :: l) d).
    destruct Hx as [<-|Hx]; [|now apply IH].
    right. rewrite Forall_forall in Hall. apply Hall, last_in.
Qed.

Lemma StronglySorted_weaken {A : Type} (R R' : A -> A -> Prop) (l : list A) :
  (forall a b, R a b -> R' a b) ->
  StronglySorted R l -> StronglySorted R' l.
Proof.
  intros HR. induction 1 as [|a l Hs IH Hall]; constructor; [exact IH|].
  rewrite Forall_forall in *. intros b Hb. now apply HR, Hall.
Qed.

Lemma country_data_sorted yearly country :
  StronglySorted (fun a b : YearCountry => fst (fst a) <= fst (fst b))
    (country_data yearly country).
Proof.
  unfold country_data.
  eapply StronglySorted_weaken; [|apply sort_by_sorted].
  - intros a b H. apply Z.leb_le. exact H.
  - intros a b. rewrite !Z.leb_le. lia.
  - intros a b c. rewrite !Z.leb_le. lia.
Qed.

Lemma country_data_row rows country r :
  In r (country_data (yearly_country_totals rows) country) ->
  r = (fst (fst r), country,
       country_year_total rows (fst (fst r)) country).
Proof.
  intros H.
  apply (Permutation_in _ (Permutation_sym (country_data_perm _ _))) in H.
  apply filter_In in H as [H Hc]. apply String.eqb_eq in Hc.
  destruct r as [[y c] v]. simpl in *. subst c.
  now rewrite (yearly_total _ _ _ _ H).
Qed.

Lemma country_data_covers rows country t :
  In t rows -> Country t = country ->
  exists r, In r (country_data (yearly_country_totals rows) country)
            /\ fst (fst r) = Year t.
Proof.
  intros Ht Hc.
  exists (Year t, country, country_year_total rows (Year t) country).
  split; [|reflexivity].
  apply (Permutation_in _ (country_data_perm _ _)).
  apply filter_In. split; [|apply String.eqb_refl].
  apply yearly_In, year_country_keys_In. eauto.
Qed.

Lemma country_metrics_In rows m :
  In m (country_metrics rows) ->
  exists first data,
    country_data (yearly_country_totals rows) (Market.Country m)
    = first :: data
    /\ (3 <= List.length (first :: data))%nat
    /\ Market.Total_Passengers m = qsum (map snd (first :: data))
    /\ Market.Growth_Rate m
       = if Qltb 0 (snd first)
         then ((snd (last (first :: data) first) - snd first)
               / snd first * 100)%Q
         else 0%Q.
Proof.
  unfold country_metrics. intros H.
  apply in_flat_map in H as (country & _ & H).
  destruct (country_data (yearly_country_totals rows) country)
    as [|first data] eqn:E; [destruct H|].
  destruct (3 <=? Z.of_nat (List.length (first :: data))) eqn:Hlen;
    [|destruct H].
  destruct H as [<-|[]]. simpl Market.Country. rewrite E.
  exists first, data. apply Z.leb_le in Hlen.
  repeat split; try reflexivity. lia.
Qed.

(** X25: the markets that [create_market_expansion_opportunities] draws
    are at most twelve, in descending order of total passengers, each
    with its colour; every one of them has records in at least three
    distinct years of the period.  Its growth rate compares the totals
    of its first and of its last observed year, and is 0, not a division
    by zero, when the total of the first year is not positive. *)
Theorem market_expansion_markets
    (rows : list TrafficRecord) (sy sm ey em : Z)
    (top_markets : list Market.metric) (colors : list string) :
  let filtered :=
    df_rows (filter_data_by_period (full_frame rows) sy sm ey em) in
  market_expansion_data (full_frame rows) sy sm ey em
  = ret (top_markets, colors) ->
  (List.length top_markets <= 12)%nat
  /\ colors = map (fun m => market_color (Market.Growth_Rate m)) top_markets
  /\ StronglySorted
       (fun a b => (Market.Total_Passengers b <= Market.Total_Passengers a)%Q)
       top_markets
  /\ (forall m, In m top_markets ->
        let country := Market.Country m in
        (exists t1 t2 t3,
            In t1 filtered /\ In t2 filtered /\ In t3 filtered
            /\ Country t1 = country /\ Country t2 = country
            /\ Country t3 = country
            /\ Year t1 <> Year t2 /\ Year t1 <> Year t3
            /\ Year t2 <> Year t3)
        /\ exists first_year last_year,
             (exists t, In t filtered /\ Country t = country
                        /\ Year t = first_year)
             /\ (exists t, In t filtered /\ Country t = country
                           /\ Year t = last_year)
             /\ (forall t, In t filtered -> Country t = country ->
                           first_year <= Year t <= last_year)
             /\ Market.Growth_Rate m
                = let first := country_year_total filtered first_year country in
                  let last := country_year_total filtered last_year country in
                  if Qltb 0 first
                  then ((last - first) / first * 100)%Q else 0%Q).
Proof.
  intros filtered. unfold market_expansion_data.
  change (select_metric (filter_data_by_period (full_frame rows) sy sm ey em)
            "Passengers_Total")
    with (@ret (TrafficRecord -> Q) Passengers_Total).
  unfold bind, ret. fold filtered.
  destruct (country_metrics filtered) as [|m0 ms] eqn:Em; [discriminate|].
  rewrite (nlargest_values Market.Total_Passengers 12) by lia.
  remember (firstn (Z.to_nat 12)
              (sort_by (fun a b => Qle_bool (Market.Total_Passengers b)
                                     (Market.Total_Passengers a))
                 (m0 :: ms))) as top eqn:Etop.
  intros H. injection H as <- <-.
  split; [rewrite Etop; apply (firstn_le_length (Z.to_nat 12))|].
  split; [reflexivity|].
  split; [rewrite Etop;
          apply firstn_sorted,
            (sort_desc_values_sorted Market.Total_Passengers)|].
  intros m Hm. rewrite Etop in Hm.
  apply firstn_In in Hm. apply sort_by_In in Hm.
  rewrite <- Em in Hm.
  apply country_metrics_In in Hm as (first & data & Ed & Hlen & _ & Hg).
  set (country := Market.Country m) in *.
  pose proof (country_data_years_NoDup filtered country) as Hnd.
  pose proof (country_data_sorted (yearly_country_totals filtered) country)
    as Hs.
  assert (Hrec : forall r,
             In r (country_data (yearly_country_totals filtered) country) ->
             exists t, In t filtered /\ Year t = fst (fst r)
                       /\ Country t = country)
    by (intros r; apply country_data_record).
  assert (Hrow : forall r,
             In r (country_data (yearly_country_totals filtered) country) ->
             snd r = country_year_total filtered (fst (fst r)) country).
  { intros r Hr. rewrite (country_data_row _ _ _ Hr) at 1. reflexivity. }
  assert (Hcov : forall t, In t filtered -> Country t = country ->
             exists r,
               In r (country_data (yearly_country_totals filtered) country)
               /\ fst (fst r) = Year t)
    by (intros t; apply country_data_covers).
  rewrite Ed in Hnd, Hs, Hrec, Hrow, Hcov.
  split.
  - destruct data as [|second [|third data]]; simpl in Hlen; try lia.
    destruct (Hrec first) as (t1 & H1 & Hy1 & Hc1); [simpl; tauto|].
    destruct (Hrec second) as (t2 & H2 & Hy2 & Hc2); [simpl; tauto|].
    destruct (Hrec third) as (t3 & H3 & Hy3 & Hc3); [simpl; tauto|].
    exists t1, t2, t3. repeat split; try assumption;
      rewrite ?Hy1, ?Hy2, ?Hy3;
      simpl in Hnd;
      inversion Hnd as [|? ? Ha Hnd']; subst;
      inversion Hnd' as [|? ? Hb _]; subst;
      simpl in Ha, Hb; intuition congruence.
  - exists (fst (fst first)), (fst (fst (last (first :: data) first))).
    assert (Hlast : In (last (first :: data) first) (first :: data))
      by apply last_in.
    split.
    { destruct (Hrec first) as (t & Ht & Hy & Hc); [now left|]. eauto. }
    split.
    { destruct (Hrec _ Hlast) as (t & Ht & Hy & Hc). eauto. }
    split.
    { intros t Ht Hc. destruct (Hcov t Ht Hc) as (r & Hr & <-). split.
      - destruct Hr as [<-|Hr]; [lia|].
        inversion Hs as [|? ? _ Hall]; subst.
        rewrite Forall_forall in Hall. now apply Hall.
      - destruct (StronglySorted_last _ _ r first Hs Hr) as [->|H]; [lia|].
        exact H. }
    cbv zeta. rewrite <- (Hrow first) by now left.
    rewrite <- (Hrow _ Hlast). exact Hg.
Qed.

Lemma market_expansion_markets_witness :
  (List.length
     [Market.mkMetric "Japan" (281 # 1) (2100 # 80)] <= 12)%nat.
Proof.
  apply (proj1 (market_expansion_markets growth_sample 1985 1 1989 12
                  [Market.mkMetric "Japan" (281 # 1) (2100 # 80)] ["red"]
                  eq_refl)).
Defined.

(** ** Passenger equivalents, record by record *)

(** X26: [calculate_passenger_equivalents] needs the three total
    columns; it looks them up in the order freight, mail, passengers and
    raises [KeyError] for the first one that is missing.  Otherwise it
    returns the records unchanged and in order, each with freight
    weighted by 10 and mail by 20 unless weights are given, and a total
    that is the passengers plus the two equivalents. *)
Theorem passenger_equivalents_rows
    (df : DataFrame) (cargo_weights : option cargo_weights) :
  let weights :=
    match cargo_weights with
    | None => mkWeights 1 10 20
    | Some w => w
    end in
  (df_metric df "Freight_Total_(tonnes)" = None ->
   calculate_passenger_equivalents df cargo_weights
   = raise (KeyError "Freight_Total_(tonnes)"))
  /\ (df_metric df "Freight_Total_(tonnes)" <> None ->
      df_metric df "Mail_Total_(tonnes)" = None ->
      calculate_passenger_equivalents df cargo_weights
      = raise (KeyError "Mail_Total_(tonnes)"))
  /\ (df_metric df "Freight_Total_(tonnes)" <> None ->
      df_metric df "Mail_Total_(tonnes)" <> None ->
      df_metric df "Passengers_Total" = None ->
      calculate_passenger_equivalents df cargo_weights
      = raise (KeyError "Passengers_Total"))
  /\ (df_metric df "Freight_Total_(tonnes)" <> None ->
      df_metric df "Mail_Total_(tonnes)" <> None ->
      df_metric df "Passengers_Total" <> None ->
      exists out,
        calculate_passenger_equivalents df cargo_weights = ret out
        /\ map PassengerEquiv.record out = df_rows df
        /\ (forall e, In e out ->
              let r := PassengerEquiv.record e in
              PassengerEquiv.freightPassengerEquiv e
              = (Freight_Total r * w_freight weights)%Q
              /\ PassengerEquiv.mailPassengerEquiv e
                 = (Mail_Total r * w_mail weights)%Q
              /\ PassengerEquiv.totalPassengerEquiv e
                 = (Passengers_Total r
                    + PassengerEquiv.freightPassengerEquiv e
                    + PassengerEquiv.mailPassengerEquiv e)%Q)).
Proof.
  intros weights. unfold calculate_passenger_equivalents, get_metric.
  destruct (df_metric df "Freight_Total_(tonnes)") as [freight|] eqn:EF;
    [|cbn [bind raise]; repeat split; congruence].
  destruct (df_metric df "Mail_Total_(tonnes)") as [mail|] eqn:EM;
    [|cbn [bind raise ret]; repeat split; congruence].
  destruct (df_metric df "Passengers_Total") as [passengers|] eqn:EP;
    [|cbn [bind raise ret]; repeat split; congruence].
  split; [congruence|]. split; [congruence|]. split; [congruence|].
  intros _ _ _.
  unfold df_metric in EF, EM, EP.
  destruct (mem "Freight_Total_(tonnes)" (df_columns df)); [|discriminate].
  destruct (mem "Mail_Total_(tonnes)" (df_columns df)); [|discriminate].
  destruct (mem "Passengers_Total" (df_columns df)); [|discriminate].
  vm_compute in EF, EM, EP.
  injection EF as <-. injection EM as <-. injection EP as <-.
  eexists. split; [reflexivity|]. split.
  - rewrite map_map. cbn [PassengerEquiv.record]. apply map_id.
  - intros e He. apply in_map_iff in He as (r & <- & _).
    cbn [PassengerEquiv.record PassengerEquiv.freightPassengerEquiv
         PassengerEquiv.mailPassengerEquiv
         PassengerEquiv.totalPassengerEquiv].
    subst weights. unfold get_default_cargo_weights.
    destruct cargo_weights; repeat split; reflexivity.
Qed.

Lemma passenger_equivalents_rows_witness :
  calculate_passenger_equivalents
    (mkDataFrame ["Passengers_Total"; "Freight_Total_(tonnes)"]
       [freight_and_mail]) None
  = raise (KeyError "Mail_Total_(tonnes)")
  /\ exists out,
       calculate_passenger_equivalents (full_frame [freight_and_mail]) None
       = ret out
       /\ map PassengerEquiv.record out = [freight_and_mail].
Proof.
  split.
  - apply (proj1 (proj2 (passenger_equivalents_rows
                           (mkDataFrame
                              ["Passengers_Total"; "Freight_Total_(tonnes)"]
                              [freight_and_mail]) None)));
      [discriminate|reflexivity].
  - destruct (proj2 (proj2 (proj2 (passenger_equivalents_rows
                                     (full_frame [freight_and_mail]) None))))
      as (out & E & Hrec & _); try discriminate.
    exists out. split; assumption.
Defined.
